(** * The quantitative signal-validation pipeline of AQI-TRADING-SYSTEM

    A shallow embedding of [tradingagents/quant_brain]: the position sizer,
    the walk-forward backtester, the risk engine and the validator that
    chains them.

    Numbers.  A Python [float] is modelled as an exact rational ([Q]); a
    Python [int] as [Z].  Rounding error is therefore outside the model,
    and the one place where the source can produce a non-finite float (a
    division by a zero price in the backtester) is made explicit with the
    type [fval] below.  Python's [str()] of a float and the float square
    root have no rational counterpart and are kept abstract in the class
    [PyFloat]. *)

From Stdlib Require Import ZArith QArith Qabs Qround Lia Lqa String Ascii List Bool.
From Stdlib Require Import DecimalString.
From stdpp Require Import base option gmap strings.

Import ListNotations.
Local Open Scope Q_scope.
Local Open Scope string_scope.

(** ** Python numerics over the rationals *)

Module Py.

Definition ltb (a b : Q) : bool := negb (Qle_bool b a).
Definition leb (a b : Q) : bool := Qle_bool a b.
Definition eqb (a b : Q) : bool := Qeq_bool a b.

(** [int(x)]: truncation toward zero. *)
Definition int (x : Q) : Z := Z.quot (Qnum x) (Zpos (Qden x)).

(** [float(n)] of an integer. *)
Definition of_int (n : Z) : Q := inject_Z n.

(** [abs(x)]. *)
Definition abs (x : Q) : Q := Qabs x.

(** Two-argument [max(a, b)] and [min(a, b)]: the first argument is kept
    unless the second is strictly better. *)
Definition max (a b : Q) : Q := if ltb a b then b else a.
Definition min (a b : Q) : Q := if ltb b a then b else a.

Definition pow10 (d : nat) : Z := Z.pow 10 (Z.of_nat d).

(** Nearest integer to a non-negative rational [n/d], ties to even. *)
Definition round_half_even_pos (n : Z) (d : positive) : Z :=
  let q := Z.div n (Zpos d) in
  let r := Z.modulo n (Zpos d) in
  match Z.compare (2 * r) (Zpos d) with
  | Lt => q
  | Gt => q + 1
  | Eq => if Z.even q then q else q + 1
  end%Z.

(** [|x| * 10^d] rounded to an integer, ties to even. *)
Definition scaled_round (d : nat) (x : Q) : Z :=
  round_half_even_pos (Z.abs (Qnum x) * pow10 d) (Qden x).

(** [round(x, d)]. *)
Definition round (d : nat) (x : Q) : Q :=
  let m := scaled_round d x in
  Qmake (if (Qnum x <? 0)%Z then - m else m) (Z.to_pos (pow10 d)).

Definition string_of_Z (z : Z) : string :=
  NilZero.string_of_int (Z.to_int z).

Fixpoint pad_left (width : nat) (s : string) : string :=
  match width with
  | O => s
  | S w => if Nat.leb (S w) (String.length s) then s
           else pad_left w ("0" ++ s)
  end.

(** The format specification [:.df] ([f"{x:.2f}"]). *)
Definition format_fixed (d : nat) (x : Q) : string :=
  let m := scaled_round d x in
  let ip := string_of_Z (m / pow10 d) in
  let fp := pad_left d (string_of_Z (m mod pow10 d)) in
  let sign := if (Qnum x <? 0)%Z then "-" else "" in
  match d with
  | O => sign ++ ip
  | _ => sign ++ ip ++ "." ++ fp
  end.

(** A float that may be non-finite: the quotient of a division whose
    divisor can be zero (numpy semantics: no exception). *)
Inductive fval :=
| Fin (q : Q)
| PosInf
| NegInf
| NaN.

Definition fdiv (a b : Q) : fval :=
  if eqb b 0 then
    if ltb 0 a then PosInf else if ltb a 0 then NegInf else NaN
  else Fin (a / b).

(** [v * k] for a positive finite [k]. *)
Definition fscale (v : fval) (k : Q) : fval :=
  match v with
  | Fin q => Fin (q * k)
  | other => other
  end.

(** IEEE comparisons: every comparison with [NaN] is false. *)
Definition fltb (a b : fval) : bool :=
  match a, b with
  | NaN, _ | _, NaN => false
  | Fin x, Fin y => ltb x y
  | NegInf, NegInf => false
  | NegInf, _ => true
  | _, NegInf => false
  | PosInf, _ => false
  | Fin _, PosInf => true
  end.

Definition feqb (a b : fval) : bool :=
  match a, b with
  | Fin x, Fin y => eqb x y
  | PosInf, PosInf => true
  | NegInf, NegInf => true
  | _, _ => false
  end.

Definition fleb (a b : fval) : bool := fltb a b || feqb a b.

Definition fformat_fixed (d : nat) (v : fval) : string :=
  match v with
  | Fin q => format_fixed d q
  | PosInf => "inf"
  | NegInf => "-inf"
  | NaN => "nan"
  end.

(** The format specification [:.d%]. *)
Definition fformat_percent (d : nat) (v : fval) : string :=
  fformat_fixed d (fscale v 100) ++ "%".

End Py.

(** Per-window statistics of the backtester ([_compute_stats]). *)
Record window_stats := {
  ws_win_rate : Py.fval;
  ws_avg_return_pct : Py.fval;
  ws_sharpe_ratio : Py.fval;
  ws_max_drawdown_pct : Py.fval;
  ws_trade_count : nat;
  ws_avg_win : Py.fval;
  ws_avg_loss : Py.fval
}.

(** [s] occurs in [t]. *)
Definition contains (t s : string) : Prop :=
  exists pre post : string, t = pre ++ s ++ post.

(** [l.append(x)]. *)
Definition append {A : Type} (l : list A) (x : A) : list A := (l ++ [x])%list.

(** ** Exceptions *)

Inductive exn :=
| KeyError (key : string)
| IndexError (index : nat) (size : nat)
| ValueError (msg : string)
| ImportError (msg : string)
| OtherError (msg : string).

(** [str(e)]. *)
Definition exn_str (e : exn) : string :=
  match e with
  | KeyError k => "'" ++ k ++ "'"
  | IndexError i n =>
      "index " ++ Py.string_of_Z (Z.of_nat i)
        ++ " is out of bounds for axis 0 with size "
        ++ Py.string_of_Z (Z.of_nat n)
  | ValueError m => m
  | ImportError m => m
  | OtherError m => m
  end.

Inductive res (A : Type) :=
| Return (a : A)
| Raise (e : exn).
Arguments Return {A} a.
Arguments Raise {A} e.

#[global] Instance res_ret : MRet res := fun A a => Return a.
#[global] Instance res_bind : MBind res := fun A B k m =>
  match m with
  | Return a => k a
  | Raise e => Raise e
  end.

(** What floats offer beyond the rationals. *)
Class PyFloat := {
  (** [str(x)], as produced by [f"{x}"] *)
  float_str : Q -> string;
  (** [x ** 0.5] and the root taken by [statistics.stdev] *)
  float_sqrt : Q -> Q;
  (** [_compute_stats] on a list holding an infinity or a nan: the
      behaviour of [statistics] there is not modelled *)
  nonfinite_stats : list Py.fval -> res window_stats
}.

(** ** PositionSizer (position_sizer.py) *)

Module PositionSizer.

Record t := {
  portfolio_value : Q;
  max_risk_per_trade_pct : Q;
  max_position_pct : Q;
  kelly_fraction : Q
}.

Record Details := {
  qty_by_risk_limit : Z;
  qty_by_kelly : Z;
  qty_by_max_position : Z;
  win_prob : Q;
  win_loss_ratio : Q
}.

Record result := {
  quantity : Z;
  investment_amount : Q;
  investment_pct : Q;
  risk_amount : Q;
  risk_pct : Q;
  stop_loss_price : Q;
  target_price : Q;
  kelly_fraction_used : Q;
  method : string;
  details : option Details
}.

Definition _empty_result (reason : string) : result :=
  {| quantity := 0;
     investment_amount := 0;
     investment_pct := 0;
     risk_amount := 0;
     risk_pct := 0;
     stop_loss_price := 0;
     target_price := 0;
     kelly_fraction_used := 0;
     method := "REJECTED: " ++ reason;
     details := None |}.

(** [portfolio_value or self.portfolio_value]: [None] and [0.0] are both
    falsy. *)
Definition pv_in_effect (self : t) (portfolio_value_arg : option Q) : Q :=
  match portfolio_value_arg with
  | Some v => if Py.eqb v 0 then portfolio_value self else v
  | None => portfolio_value self
  end.

Definition calculate_position (self : t)
    (current_price stop_loss_pct target_pct confidence : Q)
    (portfolio_value_arg : option Q) : result :=
  let pv := pv_in_effect self portfolio_value_arg in
  if Py.leb current_price 0 || Py.leb pv 0 then
    _empty_result "Invalid price or portfolio value"
  else
    let stop_loss_pct :=
      if negb (Py.eqb stop_loss_pct 0) then - Py.abs stop_loss_pct else - (5) in
    let target_pct :=
      if negb (Py.eqb target_pct 0) then Py.abs target_pct else 5 in
    (* Method 1: fixed % risk per trade *)
    let risk_amount0 := pv * (max_risk_per_trade_pct self / 100) in
    let price_risk_per_share := current_price * (Py.abs stop_loss_pct / 100) in
    let qty_by_risk :=
      if Py.ltb 0 price_risk_per_share
      then Py.int (risk_amount0 / price_risk_per_share) else 0%Z in
    (* Method 2: Kelly criterion *)
    let win_prob0 := Py.min (95 # 100) (Py.max (1 # 10) confidence) in
    let loss_prob := 1 - win_prob0 in
    let win_loss_ratio0 :=
      if Py.ltb 0 (Py.abs stop_loss_pct)
      then target_pct / Py.abs stop_loss_pct else 1 in
    let kelly_pct := (win_prob0 * win_loss_ratio0 - loss_prob) / win_loss_ratio0 in
    let kelly_pct := Py.max 0 kelly_pct in
    let kelly_pct := kelly_pct * kelly_fraction self in
    let kelly_investment := pv * kelly_pct in
    let qty_by_kelly0 :=
      if Py.ltb 0 current_price
      then Py.int (kelly_investment / current_price) else 0%Z in
    (* Method 3: max position size limit *)
    let max_investment := pv * (max_position_pct self / 100) in
    let qty_by_max :=
      if Py.ltb 0 current_price
      then Py.int (max_investment / current_price) else 0%Z in
    (* the minimum of all three methods *)
    let final_qty := Z.max 1 (Z.min qty_by_risk (Z.min qty_by_kelly0 qty_by_max)) in
    let investment := Py.of_int final_qty * current_price in
    let actual_risk := Py.of_int final_qty * price_risk_per_share in
    {| quantity := final_qty;
       investment_amount := Py.round 2 investment;
       investment_pct := Py.round 2 (investment / pv * 100);
       risk_amount := Py.round 2 actual_risk;
       risk_pct := Py.round 2 (actual_risk / pv * 100);
       stop_loss_price := Py.round 2 (current_price * (1 + stop_loss_pct / 100));
       target_price := Py.round 2 (current_price * (1 + target_pct / 100));
       kelly_fraction_used := Py.round 4 kelly_pct;
       method := "min(risk_limit, half_kelly, max_position)";
       details := Some
         {| qty_by_risk_limit := qty_by_risk;
            qty_by_kelly := qty_by_kelly0;
            qty_by_max_position := qty_by_max;
            win_prob := Py.round 2 win_prob0;
            win_loss_ratio := Py.round 2 win_loss_ratio0 |} |}.

End PositionSizer.


(** ** SimpleBacktester (backtester.py) *)

Module SimpleBacktester.

Import Py.

Record t := {
  lookback_days : Z;
  test_windows : list Z
}.

Record result := {
  approved : bool;
  reason : string;
  best_hold_period : option string;
  win_rate : fval;
  avg_return_pct : fval;
  sharpe_ratio : fval;
  max_drawdown_pct : fval;
  trade_count : nat;
  all_windows : option (list (string * window_stats))
}.

(** The price-history collaborator, as seen by one call. *)
Inductive provider :=
| ModuleMissing
| DownloadRaises (e : exn)
| Downloaded (closes : list Q).

(** The zero-valued approving result shared by the fail-open paths. *)
Definition approve_by_default (why : string) : result :=
  {| approved := true;
     reason := why;
     best_hold_period := None;
     win_rate := Fin 0;
     avg_return_pct := Fin 0;
     sharpe_ratio := Fin 0;
     max_drawdown_pct := Fin 0;
     trade_count := 0;
     all_windows := None |}.

(** The hold period of one entry: the inner [for j] loop over the bars
    after the entry.  Returns [(exit_price, hit_sl, hit_target)]. *)
Fixpoint walk (decision : string) (entry_price stop_loss_pct target_pct : Q)
    (bars : list Q) (exit_price : Q) : Q * bool * bool :=
  match bars with
  | [] => (exit_price, false, false)
  | current :: rest =>
      if String.eqb decision "BUY" then
        let change_pct := fscale (fdiv (current - entry_price) entry_price) 100 in
        if fleb change_pct (Fin stop_loss_pct) then
          (entry_price * (1 + stop_loss_pct / 100), true, false)
        else if fleb (Fin target_pct) change_pct then
          (entry_price * (1 + target_pct / 100), false, true)
        else walk decision entry_price stop_loss_pct target_pct rest current
      else if String.eqb decision "SELL" then
        let change_pct := fscale (fdiv (entry_price - current) entry_price) 100 in
        if fleb change_pct (Fin stop_loss_pct) then
          (entry_price * (1 - stop_loss_pct / 100), true, false)
        else if fleb (Fin target_pct) change_pct then
          (entry_price * (1 - target_pct / 100), false, true)
        else walk decision entry_price stop_loss_pct target_pct rest current
      else walk decision entry_price stop_loss_pct target_pct rest exit_price
  end.

Definition trade_return (decision : string) (entry_price exit_price : Q) : fval :=
  if String.eqb decision "BUY"
  then fscale (fdiv (exit_price - entry_price) entry_price) 100
  else fscale (fdiv (entry_price - exit_price) entry_price) 100.

(** [range(0, stop, 5)]. *)
Definition entry_indices (stop : Z) : list nat :=
  List.map (fun k => (5 * k)%nat) (seq 0 (Z.to_nat ((stop + 4) / 5))).

(** The bars [closes[i + j]] for [j] in
    [range(1, min(hold_days + 1, len(closes) - i))]. *)
Definition bars_after (closes : list Q) (hold_days : Z) (i : nat) : list Q :=
  let m := Z.min (hold_days + 1) (Z.of_nat (length closes) - Z.of_nat i) in
  firstn (Z.to_nat (m - 1)) (skipn (S i) closes).

(** One iteration of the outer loop: the return of the entry at bar [i]. *)
Definition simulate_entry (closes : list Q) (decision : string)
    (stop_loss_pct target_pct : Q) (hold_days : Z) (i : nat) : res fval :=
  match closes !! i with
  | None => Raise (IndexError i (length closes))
  | Some entry_price =>
      let '(exit_price, _, _) :=
        walk decision entry_price stop_loss_pct target_pct
             (bars_after closes hold_days i) entry_price in
      Return (trade_return decision entry_price exit_price)
  end.

Fixpoint entries_loop (closes : list Q) (decision : string)
    (stop_loss_pct target_pct : Q) (hold_days : Z)
    (indices : list nat) (returns : list fval) : res (list fval) :=
  match indices with
  | [] => Return returns
  | i :: rest =>
      ret ← simulate_entry closes decision stop_loss_pct target_pct hold_days i;
      entries_loop closes decision stop_loss_pct target_pct hold_days rest
                   (append returns ret)
  end.

Definition _simulate_trades (closes : list Q) (decision : string)
    (stop_loss_pct target_pct : Q) (hold_days : Z) : res (list fval) :=
  let stop_loss_pct := - Py.abs stop_loss_pct in
  let target_pct := Py.abs target_pct in
  entries_loop closes decision stop_loss_pct target_pct hold_days
    (entry_indices (Z.of_nat (length closes) - hold_days)) [].

(** *** Statistics *)

Definition sum (l : list Q) : Q := fold_left Qplus l 0.

Definition len (l : list Q) : Q := inject_Z (Z.of_nat (length l)).

(** [statistics.mean]. *)
Definition mean (l : list Q) : Q := sum l / len l.

Section Stats.
Context `{PyFloat}.

(** [statistics.stdev]: the root of the sample variance. *)
Definition stdev (l : list Q) : Q :=
  let m := mean l in
  float_sqrt (sum (List.map (fun x => (x - m) * (x - m)) l) / (len l - 1)).

(** The running state [(cumulative, peak, max_dd)] of the drawdown loop. *)
Definition drawdown_step (st : Q * Q * Q) (r : Q) : Q * Q * Q :=
  let '(cumulative, peak, max_dd) := st in
  let cumulative := cumulative + r in
  let peak := if ltb peak cumulative then cumulative else peak in
  let dd := peak - cumulative in
  let max_dd := if ltb max_dd dd then dd else max_dd in
  (cumulative, peak, max_dd).

Definition max_drawdown (returns : list Q) : Q :=
  snd (fold_left drawdown_step returns (0, 0, 0)).

Definition finite_stats (returns : list Q) : window_stats :=
  let wins := List.filter (fun r => ltb 0 r) returns in
  let losses := List.filter (fun r => leb r 0) returns in
  let win_rate0 := len wins / len returns in
  let avg_return := mean returns in
  let sharpe :=
    if Nat.ltb 1 (length returns) then
      let std_dev := stdev returns in
      if ltb 0 std_dev then (avg_return / std_dev) * float_sqrt 252 else 0
    else 0 in
  {| ws_win_rate := Fin (Py.round 3 win_rate0);
     ws_avg_return_pct := Fin (Py.round 2 avg_return);
     ws_sharpe_ratio := Fin (Py.round 2 sharpe);
     ws_max_drawdown_pct := Fin (Py.round 2 (max_drawdown returns));
     ws_trade_count := length returns;
     ws_avg_win := Fin (match wins with [] => 0 | _ => Py.round 2 (mean wins) end);
     ws_avg_loss := Fin (match losses with [] => 0 | _ => Py.round 2 (mean losses) end) |}.

(** The finite values of a return list, when all of them are finite. *)
Fixpoint all_finite (returns : list fval) : option (list Q) :=
  match returns with
  | [] => Some []
  | Fin q :: rest => option_map (cons q) (all_finite rest)
  | _ :: _ => None
  end.

Definition _compute_stats (returns : list fval) : res window_stats :=
  match returns with
  | [] =>
      Return {| ws_win_rate := Fin 0; ws_avg_return_pct := Fin 0;
                ws_sharpe_ratio := Fin 0; ws_max_drawdown_pct := Fin 0;
                ws_trade_count := 0; ws_avg_win := Fin 0; ws_avg_loss := Fin 0 |}
  | _ =>
      match all_finite returns with
      | Some finite => Return (finite_stats finite)
      | None => nonfinite_stats returns
      end
  end.

(** *** backtest_signal *)

(** [d[key] = value] on an insertion-ordered dict. *)
Fixpoint dict_set {V : Type} (d : list (string * V)) (key : string) (value : V)
    : list (string * V) :=
  match d with
  | [] => [(key, value)]
  | (k, v) :: rest =>
      if String.eqb k key then (k, value) :: rest
      else (k, v) :: dict_set rest key value
  end.

(** The loop over the hold windows, filling [all_results]. *)
Fixpoint windows_loop (closes : list Q) (decision : string)
    (stop_loss_pct target_pct : Q) (windows : list Z)
    (all_results : list (string * window_stats))
    : res (list (string * window_stats)) :=
  match windows with
  | [] => Return all_results
  | hold_days :: rest =>
      trades ← _simulate_trades closes decision stop_loss_pct target_pct hold_days;
      all_results ←
        match trades with
        | [] => Return all_results
        | _ =>
            st ← _compute_stats trades;
            Return (dict_set all_results (string_of_Z hold_days ++ "d") st)
        end;
      windows_loop closes decision stop_loss_pct target_pct rest all_results
  end.

(** [max(all_results.keys(), key=sharpe)]: the first key of maximal
    Sharpe ratio (a later key wins only when strictly greater). *)
Fixpoint best_of (best : string * window_stats)
    (others : list (string * window_stats)) : string * window_stats :=
  match others with
  | [] => best
  | cand :: rest =>
      if fltb (ws_sharpe_ratio (snd best)) (ws_sharpe_ratio (snd cand))
      then best_of cand rest else best_of best rest
  end.

(** [max(self.test_windows)]. *)
Definition max_window (windows : list Z) : res Z :=
  match windows with
  | [] => Raise (ValueError "max() arg is an empty sequence")
  | w :: rest => Return (fold_left Z.max rest w)
  end.

(** The body of the second [try] block. *)
Definition fetch_and_test (self : t) (yf : provider)
    (ticker decision : string) (stop_loss_pct target_pct : Q) : res result :=
  _ ← max_window (test_windows self);
  data ← match yf with
         | Downloaded closes => Return closes
         | DownloadRaises e => Raise e
         | ModuleMissing => Raise (ImportError "No module named 'yfinance'")
         end;
  if Nat.eqb (length data) 0 || Nat.ltb (length data) 30 then
    Return (approve_by_default ("Insufficient historical data for " ++ ticker))
  else
    let closes := data in
    all_results ← windows_loop closes decision stop_loss_pct target_pct
                    (test_windows self) [];
    match all_results with
    | [] => Return (approve_by_default "No valid backtest trades generated")
    | first :: others =>
        let '(best_window, best) := best_of first others in
        let approved0 :=
          fleb (Fin (4 # 10)) (ws_win_rate best)
          && fleb (Fin (5 # 10)) (ws_sharpe_ratio best)
          && fleb (ws_max_drawdown_pct best) (Fin 25) in
        let reason_parts : list string := [] in
        let reason_parts :=
          if fltb (ws_win_rate best) (Fin (4 # 10))
          then append reason_parts ("Low win rate: " ++ fformat_percent 0 (ws_win_rate best))
          else reason_parts in
        let reason_parts :=
          if fltb (ws_sharpe_ratio best) (Fin (5 # 10))
          then append reason_parts ("Low Sharpe: " ++ fformat_fixed 2 (ws_sharpe_ratio best))
          else reason_parts in
        let reason_parts :=
          if fltb (Fin 25) (ws_max_drawdown_pct best)
          then append reason_parts ("High drawdown: " ++ fformat_fixed 1 (ws_max_drawdown_pct best) ++ "%")
          else reason_parts in
        Return
          {| approved := approved0;
             reason := match reason_parts with
                       | [] => "Backtest passed (" ++ best_window ++ " hold)"
                       | _ => String.concat " | " reason_parts
                       end;
             best_hold_period := Some best_window;
             win_rate := ws_win_rate best;
             avg_return_pct := ws_avg_return_pct best;
             sharpe_ratio := ws_sharpe_ratio best;
             max_drawdown_pct := ws_max_drawdown_pct best;
             trade_count := ws_trade_count best;
             all_windows := Some all_results |}
    end.

Definition backtest_signal (self : t) (yf : provider)
    (ticker decision : string) (stop_loss_pct target_pct : Q) : result :=
  if String.eqb decision "HOLD" then
    approve_by_default "HOLD — no backtest needed"
  else
    match yf with
    | ModuleMissing =>
        approve_by_default "yfinance not available — skipping backtest"
    | _ =>
        match fetch_and_test self yf ticker decision stop_loss_pct target_pct with
        | Return r => r
        | Raise e =>
            approve_by_default
              ("Backtest error (proceeding anyway): "
                 ++ String.substring 0 100 (exn_str e))
        end
    end.

End Stats.

End SimpleBacktester.

(** ** Signals and configuration *)

(** The signal dict of the decision process.  Every key may be absent:
    the pipeline reads most of them with [dict.get]. *)
Record Signal := {
  sig_decision : option string;
  sig_confidence : option Q;
  sig_stop_loss_pct : option Q;
  sig_target_pct : option Q;
  sig_risk_reward_ratio : option Q;
  sig_rationale : option string;
  sig_ticker : option string
}.

(** [signal[key] = value] for the two keys the pipeline writes. *)
Definition set_ticker (signal : Signal) (ticker : string) : Signal :=
  {| sig_decision := sig_decision signal;
     sig_confidence := sig_confidence signal;
     sig_stop_loss_pct := sig_stop_loss_pct signal;
     sig_target_pct := sig_target_pct signal;
     sig_risk_reward_ratio := sig_risk_reward_ratio signal;
     sig_rationale := sig_rationale signal;
     sig_ticker := Some ticker |}.

Definition set_stop_loss_pct (signal : Signal) (v : Q) : Signal :=
  {| sig_decision := sig_decision signal;
     sig_confidence := sig_confidence signal;
     sig_stop_loss_pct := Some v;
     sig_target_pct := sig_target_pct signal;
     sig_risk_reward_ratio := sig_risk_reward_ratio signal;
     sig_rationale := sig_rationale signal;
     sig_ticker := sig_ticker signal |}.

(** The configuration dict shared by the four components (directory
    paths left out). *)
Record Config := {
  cfg_max_drawdown_pct : option Q;
  cfg_max_position_pct : option Q;
  cfg_max_sector_pct : option Q;
  cfg_max_daily_loss_pct : option Q;
  cfg_max_positions : option Z;
  cfg_min_risk_reward : option Q;
  cfg_min_confidence : option Q;
  cfg_portfolio_value : option Q;
  cfg_max_risk_per_trade_pct : option Q;
  cfg_kelly_fraction : option Q;
  cfg_backtest_lookback_days : option Z;
  cfg_test_windows : option (list Z)
}.

(** [config or {}] with no key set. *)
Definition empty_config : Config :=
  {| cfg_max_drawdown_pct := None;
     cfg_max_position_pct := None;
     cfg_max_sector_pct := None;
     cfg_max_daily_loss_pct := None;
     cfg_max_positions := None;
     cfg_min_risk_reward := None;
     cfg_min_confidence := None;
     cfg_portfolio_value := None;
     cfg_max_risk_per_trade_pct := None;
     cfg_kelly_fraction := None;
     cfg_backtest_lookback_days := None;
     cfg_test_windows := None |}.

Definition PositionSizer__init__ (config : Config) : PositionSizer.t :=
  {| PositionSizer.portfolio_value := default 100000 (cfg_portfolio_value config);
     PositionSizer.max_risk_per_trade_pct := default 2 (cfg_max_risk_per_trade_pct config);
     PositionSizer.max_position_pct := default 20 (cfg_max_position_pct config);
     PositionSizer.kelly_fraction := default (1 # 2) (cfg_kelly_fraction config) |}.

Definition SimpleBacktester__init__ (config : Config) : SimpleBacktester.t :=
  {| SimpleBacktester.lookback_days := default 252%Z (cfg_backtest_lookback_days config);
     SimpleBacktester.test_windows := default [5; 10; 20; 60]%Z (cfg_test_windows config) |}.

(** ** RiskEngine (risk_engine.py) *)

Module RiskEngine.

Record Position := {
  pos_ticker : string;
  pos_quantity : Z;
  pos_entry_price : Q;
  pos_current_price : Q;
  pos_stop_loss : Q;
  pos_target : Q;
  pos_side : string;
  pos_entry_time : string;
  pos_unrealized_pnl : Q
}.

Record t := {
  max_portfolio_drawdown_pct : Q;
  max_single_position_pct : Q;
  max_sector_exposure_pct : Q;
  max_daily_loss_pct : Q;
  max_open_positions : Z;
  min_risk_reward : Q;
  min_confidence : Q;
  portfolio_value : Q;
  positions : gmap string Position;
  daily_pnl : Q;
  peak_value : Q
}.

(** The persisted JSON document, when the state file exists and parses. *)
Record PersistedState := {
  ps_portfolio_value : option Q;
  ps_peak_value : option Q;
  ps_daily_pnl : option Q;
  ps_positions : option (gmap string Position)
}.

Definition with_state (self : t) (pv : Q) (pos : gmap string Position)
    (pnl peak : Q) : t :=
  {| max_portfolio_drawdown_pct := max_portfolio_drawdown_pct self;
     max_single_position_pct := max_single_position_pct self;
     max_sector_exposure_pct := max_sector_exposure_pct self;
     max_daily_loss_pct := max_daily_loss_pct self;
     max_open_positions := max_open_positions self;
     min_risk_reward := min_risk_reward self;
     min_confidence := min_confidence self;
     portfolio_value := pv;
     positions := pos;
     daily_pnl := pnl;
     peak_value := peak |}.

Definition _load_state (self : t) (file : option PersistedState) : t :=
  match file with
  | None => self
  | Some state =>
      let pv := default (portfolio_value self) (ps_portfolio_value state) in
      with_state self pv
        (default ∅ (ps_positions state))
        (default 0 (ps_daily_pnl state))
        (default (peak_value self) (ps_peak_value state))
  end.

Definition __init__ (config : Config) (file : option PersistedState) : t :=
  let pv := default 100000 (cfg_portfolio_value config) in
  _load_state
    {| max_portfolio_drawdown_pct := default 15 (cfg_max_drawdown_pct config);
       max_single_position_pct := default 20 (cfg_max_position_pct config);
       max_sector_exposure_pct := default 40 (cfg_max_sector_pct config);
       max_daily_loss_pct := default 3 (cfg_max_daily_loss_pct config);
       max_open_positions := default 10%Z (cfg_max_positions config);
       min_risk_reward := default (15 # 10) (cfg_min_risk_reward config);
       min_confidence := default (5 # 10) (cfg_min_confidence config);
       portfolio_value := pv;
       positions := ∅;
       daily_pnl := 0;
       peak_value := pv |}
    file.

Record risk_result := {
  approved : bool;
  reason : string;
  adjusted_signal : Signal;
  warnings : list string
}.

(** [daily_pnl / portfolio_value * 100 if portfolio_value > 0 else 0]. *)
Definition daily_loss_pct (self : t) : Q :=
  if Py.ltb 0 (portfolio_value self)
  then daily_pnl self / portfolio_value self * 100 else 0.

(** [(peak_value - portfolio_value) / peak_value * 100 if peak_value > 0
    else 0]. *)
Definition current_drawdown (self : t) : Q :=
  if Py.ltb 0 (peak_value self)
  then (peak_value self - portfolio_value self) / peak_value self * 100 else 0.

Section Validate.
Context `{PyFloat}.

(** Rules 2 to 6: the messages appended to [rejections], in order. *)
Definition rejections (self : t) (decision : string)
    (confidence risk_reward : Q) : list string :=
  let rejections : list string := [] in
  let rejections :=
    if Py.ltb confidence (min_confidence self) then
      append rejections
        ("Confidence " ++ Py.format_fixed 2 confidence
           ++ " below minimum " ++ Py.format_fixed 2 (min_confidence self))
    else rejections in
  let rejections :=
    if Py.ltb risk_reward (min_risk_reward self)
       && negb (String.eqb decision "HOLD") then
      append rejections
        ("Risk-reward ratio " ++ Py.format_fixed 2 risk_reward
           ++ " below minimum " ++ Py.format_fixed 2 (min_risk_reward self))
    else rejections in
  let rejections :=
    if (max_open_positions self <=? Z.of_nat (size (positions self)))%Z
       && String.eqb decision "BUY" then
      append rejections
        ("Max positions (" ++ Py.string_of_Z (max_open_positions self)
           ++ ") already reached")
    else rejections in
  let rejections :=
    if Py.leb (daily_loss_pct self) (- max_daily_loss_pct self) then
      append rejections
        ("KILL SWITCH: Daily loss " ++ Py.format_fixed 1 (daily_loss_pct self)
           ++ "% exceeds limit -" ++ float_str (max_daily_loss_pct self) ++ "%")
    else rejections in
  let rejections :=
    if Py.leb (max_portfolio_drawdown_pct self) (current_drawdown self) then
      append rejections
        ("KILL SWITCH: Portfolio drawdown "
           ++ Py.format_fixed 1 (current_drawdown self)
           ++ "% exceeds limit " ++ float_str (max_portfolio_drawdown_pct self)
           ++ "%")
    else rejections in
  rejections.

(** Returns the engine (left as it was), the caller's signal dict after
    the call, and the result. *)
Definition validate_trade (self : t) (signal : Signal)
    : t * Signal * risk_result :=
  let decision := default "HOLD" (sig_decision signal) in
  let confidence := default 0 (sig_confidence signal) in
  let risk_reward := default 0 (sig_risk_reward_ratio signal) in
  let ticker := default "UNKNOWN" (sig_ticker signal) in
  if String.eqb decision "HOLD" then
    (self, signal,
     {| approved := true;
        reason := "HOLD signal — no trade required";
        adjusted_signal := signal;
        warnings := [] |})
  else
    let rejections := rejections self decision confidence risk_reward in
    let warnings : list string := [] in
    let warnings :=
      if bool_decide (is_Some (positions self !! ticker))
         && String.eqb decision "BUY"
      then append warnings ("Already hold position in " ++ ticker)
      else warnings in
    let stop_loss_pct := default 0 (sig_stop_loss_pct signal) in
    let '(warnings, signal) :=
      if (String.eqb decision "BUY" || String.eqb decision "SELL")
         && Py.eqb stop_loss_pct 0
      then (append warnings "No stop-loss defined — adding default -5%",
            set_stop_loss_pct signal (- (5)))
      else (warnings, signal) in
    match rejections with
    | _ :: _ =>
        (self, signal,
         {| approved := false;
            reason := String.concat " | " rejections;
            adjusted_signal := signal;
            warnings := warnings |})
    | [] =>
        (self, signal,
         {| approved := true;
            reason := "All risk checks passed";
            adjusted_signal := signal;
            warnings := warnings |})
    end.

End Validate.

Definition register_position (self : t) (now : string) (ticker : string)
    (quantity : Z) (price stop_loss target : Q) (side : string) : t :=
  with_state self (portfolio_value self)
    (<[ticker :=
         {| pos_ticker := ticker;
            pos_quantity := quantity;
            pos_entry_price := price;
            pos_current_price := price;
            pos_stop_loss := stop_loss;
            pos_target := target;
            pos_side := side;
            pos_entry_time := now;
            pos_unrealized_pnl := 0 |}]> (positions self))
    (daily_pnl self) (peak_value self).

Definition update_position (self : t) (ticker : string) (current_price : Q) : t :=
  match positions self !! ticker with
  | None => self
  | Some pos =>
      let pnl :=
        if String.eqb (pos_side pos) "BUY"
        then (current_price - pos_entry_price pos) * Py.of_int (pos_quantity pos)
        else (pos_entry_price pos - current_price) * Py.of_int (pos_quantity pos) in
      with_state self (portfolio_value self)
        (<[ticker :=
             {| pos_ticker := pos_ticker pos;
                pos_quantity := pos_quantity pos;
                pos_entry_price := pos_entry_price pos;
                pos_current_price := current_price;
                pos_stop_loss := pos_stop_loss pos;
                pos_target := pos_target pos;
                pos_side := pos_side pos;
                pos_entry_time := pos_entry_time pos;
                pos_unrealized_pnl := pnl |}]> (positions self))
        (daily_pnl self) (peak_value self)
  end.

Inductive close_result :=
| CloseError (error : string)
| Closed (ticker : string) (realized_pnl entry_price exit_price : Q)
         (quantity : Z) (hold_time : string).

Definition close_position (self : t) (ticker : string) (exit_price : Q)
    : t * close_result :=
  match positions self !! ticker with
  | None => (self, CloseError ("No position found for " ++ ticker))
  | Some pos =>
      let realized_pnl :=
        if String.eqb (pos_side pos) "BUY"
        then (exit_price - pos_entry_price pos) * Py.of_int (pos_quantity pos)
        else (pos_entry_price pos - exit_price) * Py.of_int (pos_quantity pos) in
      let pv := portfolio_value self + realized_pnl in
      let pnl := daily_pnl self + realized_pnl in
      let peak := if Py.ltb (peak_value self) pv then pv else peak_value self in
      (with_state self pv (delete ticker (positions self)) pnl peak,
       Closed ticker (Py.round 2 realized_pnl) (pos_entry_price pos) exit_price
              (pos_quantity pos) (pos_entry_time pos))
  end.

Definition reset_daily (self : t) : t :=
  with_state self (portfolio_value self) (positions self) 0 (peak_value self).

Record summary := {
  sum_portfolio_value : Q;
  sum_peak_value : Q;
  sum_drawdown_pct : Q;
  sum_daily_pnl : Q;
  sum_open_positions : nat;
  sum_total_unrealized_pnl : Q;
  sum_kill_switch_active : bool
}.

(** The per-position view of the summary is left out. *)
Definition get_portfolio_summary (self : t) : summary :=
  let total_unrealized :=
    map_fold (fun _ p acc => acc + pos_unrealized_pnl p) 0 (positions self) in
  let drawdown := current_drawdown self in
  {| sum_portfolio_value := Py.round 2 (portfolio_value self);
     sum_peak_value := Py.round 2 (peak_value self);
     sum_drawdown_pct := Py.round 2 drawdown;
     sum_daily_pnl := Py.round 2 (daily_pnl self);
     sum_open_positions := size (positions self);
     sum_total_unrealized_pnl := Py.round 2 total_unrealized;
     sum_kill_switch_active := Py.leb (max_portfolio_drawdown_pct self) drawdown |}.

(** The state-mutating operations, as one type of calls. *)
Inductive call :=
| ValidateTrade (signal : Signal)
| RegisterPosition (now ticker : string) (quantity : Z)
                   (price stop_loss target : Q) (side : string)
| UpdatePosition (ticker : string) (current_price : Q)
| ClosePosition (ticker : string) (exit_price : Q)
| ResetDaily.

Definition perform `{PyFloat} (self : t) (c : call) : t :=
  match c with
  | ValidateTrade signal => fst (fst (validate_trade self signal))
  | RegisterPosition now ticker quantity price stop_loss target side =>
      register_position self now ticker quantity price stop_loss target side
  | UpdatePosition ticker current_price => update_position self ticker current_price
  | ClosePosition ticker exit_price => fst (close_position self ticker exit_price)
  | ResetDaily => reset_daily self
  end.

(** *** Persistence and stop-loss scan *)

(** The document [_save_state] writes (its [last_updated] stamp, which
    [_load_state] never reads, left out). *)
Definition _save_state (self : t) : PersistedState :=
  {| ps_portfolio_value := Some (portfolio_value self);
     ps_peak_value := Some (peak_value self);
     ps_daily_pnl := Some (daily_pnl self);
     ps_positions := Some (positions self) |}.

(** The body of the loop of [check_stop_losses]: whether the position is
    appended to the alerts. *)
Definition stop_loss_hit (pos : Position) : bool :=
  if String.eqb (pos_side pos) "BUY"
     && Py.leb (pos_current_price pos) (pos_stop_loss pos) then true
  else if String.eqb (pos_side pos) "SELL"
          && Py.leb (pos_stop_loss pos) (pos_current_price pos) then true
  else false.

(** The tickers [check_stop_losses] returns, as a set: the returned list
    holds each key of the dict at most once, and its order (the insertion
    order of the dict) is not modelled. *)
Definition check_stop_losses (self : t) : gset string :=
  dom (filter (fun kv => stop_loss_hit (snd kv) = true) (positions self)).

End RiskEngine.

(** ** SignalValidator (signal_validator.py) *)

Module SignalValidator.

Record Order := {
  ord_ticker : string;
  ord_side : string;
  ord_quantity : Z;
  ord_order_type : string;
  ord_price : Q;
  ord_stop_loss : Q;
  ord_target : Q;
  ord_investment_amount : Q;
  ord_risk_amount : Q;
  ord_confidence : Q;
  ord_rationale : string
}.

Inductive backtest_step :=
| Skipped
| Ran (r : SimpleBacktester.result).

(** [result["steps"]]: a stage that was not reached left no entry. *)
Record Steps := {
  step_backtest : option backtest_step;
  step_risk : option RiskEngine.risk_result;
  step_position_sizing : option PositionSizer.result
}.

Record ValidationResult := {
  vr_ticker : string;
  vr_decision : string;
  vr_current_price : Q;
  vr_timestamp : string;
  vr_steps : Steps;
  vr_approved : bool;
  vr_order : option Order;
  vr_reason : string;
  vr_warnings : option (list string)
}.

Record t := {
  risk_engine : RiskEngine.t;
  backtester : SimpleBacktester.t;
  position_sizer : PositionSizer.t;
  (** the records appended to signal_validation_log.jsonl *)
  log : list ValidationResult
}.

Definition __init__ (config : Config)
    (file : option RiskEngine.PersistedState) : t :=
  {| risk_engine := RiskEngine.__init__ config file;
     backtester := SimpleBacktester__init__ config;
     position_sizer := PositionSizer__init__ config;
     log := [] |}.

Definition with_engine (self : t) (engine : RiskEngine.t) : t :=
  {| risk_engine := engine;
     backtester := backtester self;
     position_sizer := position_sizer self;
     log := log self |}.

Definition _log (self : t) (result : ValidationResult) : t :=
  {| risk_engine := risk_engine self;
     backtester := backtester self;
     position_sizer := position_sizer self;
     log := append (log self) result |}.

(** What one call reads from outside: the clock and the price history. *)
Record World := {
  now : string;
  yf : SimpleBacktester.provider
}.

Section Pipeline.
Context `{PyFloat}.

(** Step 2: the backtest gate.  [signal["decision"]] is a subscript, not
    a [get]. *)
Definition backtest_gate (self : t) (world : World) (signal : Signal)
    (ticker : string) (skip_backtest : bool) : res backtest_step :=
  if negb skip_backtest then
    match sig_decision signal with
    | None => Raise (KeyError "decision")
    | Some decision =>
        Return (Ran (SimpleBacktester.backtest_signal (backtester self)
                       (yf world) ticker decision
                       (default (- (5)) (sig_stop_loss_pct signal))
                       (default 5 (sig_target_pct signal))))
    end
  else Return Skipped.

(** Step 5: the order. *)
Definition make_order (signal : Signal) (ticker : string) (current_price : Q)
    (position : PositionSizer.result) : res Order :=
  match sig_decision signal with
  | None => Raise (KeyError "decision")
  | Some side =>
      Return
        {| ord_ticker := ticker;
           ord_side := side;
           ord_quantity := PositionSizer.quantity position;
           ord_order_type := "LIMIT";
           ord_price := current_price;
           ord_stop_loss := PositionSizer.stop_loss_price position;
           ord_target := PositionSizer.target_price position;
           ord_investment_amount := PositionSizer.investment_amount position;
           ord_risk_amount := PositionSizer.risk_amount position;
           ord_confidence := default (1 # 2) (sig_confidence signal);
           ord_rationale := default "N/A" (sig_rationale signal) |}
  end.

(** Returns the validator, the caller's signal dict after the call, and
    the result or the exception that left the call. *)
Definition validate_and_size (self : t) (world : World) (signal : Signal)
    (current_price : Q) (ticker : string) (skip_backtest : bool)
    : t * Signal * res ValidationResult :=
  let signal := set_ticker signal ticker in
  let finish (self : t) (signal : Signal) (steps : Steps) (approved : bool)
             (order : option Order) (reason : string)
             (warnings : option (list string)) :=
    let result :=
      {| vr_ticker := ticker;
         vr_decision := default "HOLD" (sig_decision signal);
         vr_current_price := current_price;
         vr_timestamp := now world;
         vr_steps := steps;
         vr_approved := approved;
         vr_order := order;
         vr_reason := reason;
         vr_warnings := warnings |} in
    (_log self result, signal, Return result) in
  let steps := {| step_backtest := None; step_risk := None;
                  step_position_sizing := None |} in
  (* Step 1: quick rejection for HOLD *)
  if bool_decide (sig_decision signal = Some "HOLD") then
    finish self signal steps true None "HOLD signal — no order generated" None
  else
    (* Step 2: backtest validation *)
    match backtest_gate self world signal ticker skip_backtest with
    | Raise e => (self, signal, Raise e)
    | Return bt =>
        let steps := {| step_backtest := Some bt; step_risk := None;
                        step_position_sizing := None |} in
        let rejected :=
          match bt with
          | Ran r => negb (SimpleBacktester.approved r)
          | Skipped => false
          end in
        if rejected then
          finish self signal steps false None
            ("BACKTEST REJECTED: "
               ++ match bt with
                  | Ran r => SimpleBacktester.reason r
                  | Skipped => "Unknown"
                  end) None
        else
          (* Step 3: risk validation *)
          let '(engine, signal, risk_result) :=
            RiskEngine.validate_trade (risk_engine self) signal in
          let self := with_engine self engine in
          let steps := {| step_backtest := Some bt;
                          step_risk := Some risk_result;
                          step_position_sizing := None |} in
          if negb (RiskEngine.approved risk_result) then
            finish self signal steps false None
              ("RISK REJECTED: " ++ RiskEngine.reason risk_result) None
          else
            (* Step 4: position sizing *)
            let position :=
              PositionSizer.calculate_position (position_sizer self)
                current_price
                (default (- (5)) (sig_stop_loss_pct signal))
                (default 5 (sig_target_pct signal))
                (default (1 # 2) (sig_confidence signal))
                (Some (RiskEngine.portfolio_value (risk_engine self))) in
            let steps := {| step_backtest := Some bt;
                            step_risk := Some risk_result;
                            step_position_sizing := Some position |} in
            if (PositionSizer.quantity position <=? 0)%Z then
              finish self signal steps false None
                ("SIZING REJECTED: " ++ PositionSizer.method position) None
            else
              (* Step 5: generate order *)
              match make_order signal ticker current_price position with
              | Raise e => (self, signal, Raise e)
              | Return order =>
                  finish self signal steps true (Some order)
                    "ALL CHECKS PASSED"
                    (Some (RiskEngine.warnings risk_result))
              end
    end.

End Pipeline.

End SignalValidator.

(** A stand-in for the float primitives, to run the model on examples:
    [str] prints one decimal, the root is the integer root of the floor. *)
Definition example_floats : PyFloat :=
  {| float_str := Py.format_fixed 1;
     float_sqrt := fun x => inject_Z (Z.sqrt (Qfloor x));
     nonfinite_stats := fun _ => Raise (ValueError "non-finite return") |}.

(** ** The walk-forward simulation, as described *)

Module WalkForward.
Import Py SimpleBacktester.

(** How a recorded return relates to the stop and target levels, as the
    description has it: inside the closed interval, on the stop level
    after a stop breach, on the target level after a target breach, and
    strictly inside after a window-end exit. *)
Definition exit_as_described (stop target : Q)
    (hit_sl hit_target : bool) (r : Q) : Prop :=
  (stop <= r /\ r <= target)
  /\ (hit_sl = true -> r == stop)
  /\ (hit_target = true -> r == target)
  /\ (hit_sl = false -> hit_target = false -> stop < r /\ r < target).

(** The same, with the window-end case split on whether a bar was walked
    at all. *)
Definition exit_by_design (stop target : Q) (hold_days : Z)
    (hit_sl hit_target : bool) (r : Q) : Prop :=
  (stop <= r /\ r <= target)
  /\ (hit_sl = true -> r == stop)
  /\ (hit_target = true -> r == target)
  /\ (hit_sl = false -> hit_target = false ->
      ((1 <= hold_days)%Z -> stop < r /\ r < target)
      /\ ((hold_days <= 0)%Z -> r == 0)).

(** The return [v] recorded for the entry at bar [i] is finite and
    satisfies [P] together with the flags of its hold period. *)
Definition recorded (closes : list Q) (decision : string)
    (stop_loss_pct target_pct : Q) (hold_days : Z)
    (P : bool -> bool -> Q -> Prop) (i : nat) (v : fval) : Prop :=
  exists (entry_price exit_price : Q) (hit_sl hit_target : bool) (r : Q),
    closes !! i = Some entry_price
    /\ walk decision entry_price (- Py.abs stop_loss_pct) (Py.abs target_pct)
            (bars_after closes hold_days i) entry_price
       = (exit_price, hit_sl, hit_target)
    /\ v = trade_return decision entry_price exit_price
    /\ v = Fin r
    /\ P hit_sl hit_target r.

(** Every return of a run of [_simulate_trades], entry by entry. *)
Definition every_return (closes : list Q) (decision : string)
    (stop_loss_pct target_pct : Q) (hold_days : Z)
    (P : bool -> bool -> Q -> Prop) : Prop :=
  forall returns : list fval,
    _simulate_trades closes decision stop_loss_pct target_pct hold_days
    = Return returns ->
    Forall2 (recorded closes decision stop_loss_pct target_pct hold_days P)
            (entry_indices (Z.of_nat (length closes) - hold_days)) returns.

(** The finite return of a trade on a nonzero entry price. *)
Definition return_pct (decision : string) (entry_price exit_price : Q) : Q :=
  if String.eqb decision "BUY"
  then (exit_price - entry_price) / entry_price * 100
  else (entry_price - exit_price) / entry_price * 100.

End WalkForward.

(** ** The risk rules, as described *)

Module RiskRules.
Import RiskEngine.

(** The five rejection rules in the order of the description: whether
    the rule fails, and its message. *)
Definition rules `{PyFloat} (self : t) (decision : string)
    (confidence risk_reward : Q) : list (bool * string) :=
  [ (Py.ltb confidence (min_confidence self),
     "Confidence " ++ Py.format_fixed 2 confidence
       ++ " below minimum " ++ Py.format_fixed 2 (min_confidence self));
    (Py.ltb risk_reward (min_risk_reward self),
     "Risk-reward ratio " ++ Py.format_fixed 2 risk_reward
       ++ " below minimum " ++ Py.format_fixed 2 (min_risk_reward self));
    ((max_open_positions self <=? Z.of_nat (size (positions self)))%Z
       && String.eqb decision "BUY",
     "Max positions (" ++ Py.string_of_Z (max_open_positions self)
       ++ ") already reached");
    (Py.leb (daily_loss_pct self) (- max_daily_loss_pct self),
     "KILL SWITCH: Daily loss " ++ Py.format_fixed 1 (daily_loss_pct self)
       ++ "% exceeds limit -" ++ float_str (max_daily_loss_pct self) ++ "%");
    (Py.leb (max_portfolio_drawdown_pct self) (current_drawdown self),
     "KILL SWITCH: Portfolio drawdown "
       ++ Py.format_fixed 1 (current_drawdown self)
       ++ "% exceeds limit " ++ float_str (max_portfolio_drawdown_pct self)
       ++ "%") ].

(** The messages of the failing rules, all of them, in order. *)
Definition failing (rs : list (bool * string)) : list string :=
  List.map snd (List.filter fst rs).

(** The high-water-mark invariant of the portfolio state. *)
Definition high_water (self : t) : Prop :=
  portfolio_value self <= peak_value self.

(** A run of state-mutating calls. *)
Definition run `{PyFloat} (self : t) (calls : list call) : t :=
  fold_left perform calls self.

End RiskRules.

(** ** The pipeline's effect on its inputs, as described *)

Module Pipeline.
Import SignalValidator.

(** A result with its timestamp replaced. *)
Definition stamp (t : string) (r : ValidationResult) : ValidationResult :=
  {| vr_ticker := vr_ticker r;
     vr_decision := vr_decision r;
     vr_current_price := vr_current_price r;
     vr_timestamp := t;
     vr_steps := vr_steps r;
     vr_approved := vr_approved r;
     vr_order := vr_order r;
     vr_reason := vr_reason r;
     vr_warnings := vr_warnings r |}.

Definition restamp (t : string) (out : res ValidationResult)
    : res ValidationResult :=
  match out with
  | Return r => Return (stamp t r)
  | Raise e => Raise e
  end.

(** The stop-loss of the signal is missing or zero. *)
Definition stop_missing_or_zero (signal : Signal) : Prop :=
  match sig_stop_loss_pct signal with
  | None => True
  | Some v => v == 0
  end.

(** The fields the pipeline never writes. *)
Definition same_payload (before after : Signal) : Prop :=
  sig_decision after = sig_decision before
  /\ sig_confidence after = sig_confidence before
  /\ sig_target_pct after = sig_target_pct before
  /\ sig_risk_reward_ratio after = sig_risk_reward_ratio before
  /\ sig_rationale after = sig_rationale before.

(** The signal after a call as the description has it: every field as
    before, but for a missing or zero stop-loss defaulted to -5.0. *)
Definition untouched_but_stop_loss (before after : Signal) : Prop :=
  same_payload before after
  /\ sig_ticker after = sig_ticker before
  /\ (sig_stop_loss_pct after = sig_stop_loss_pct before
      \/ (stop_missing_or_zero before
          /\ sig_stop_loss_pct after = Some (- (5)))).

Definition no_stop_loss_warning : string :=
  "No stop-loss defined — adding default -5%".

End Pipeline.

(** ** Example data *)

(** A strong BUY signal. *)
Definition strong_buy : Signal :=
  {| sig_decision := Some "BUY";
     sig_confidence := Some (9 # 10);
     sig_stop_loss_pct := Some (- (5));
     sig_target_pct := Some 15;
     sig_risk_reward_ratio := Some 3;
     sig_rationale := Some "breakout";
     sig_ticker := None |}.

(** A weak SELL signal: confidence 0.3, risk-reward 1.0. *)
Definition weak_sell : Signal :=
  {| sig_decision := Some "SELL";
     sig_confidence := Some (3 # 10);
     sig_stop_loss_pct := Some (- (5));
     sig_target_pct := Some 5;
     sig_risk_reward_ratio := Some 1;
     sig_rationale := None;
     sig_ticker := None |}.

(** A BUY signal that leaves the stop-loss out. *)
Definition buy_without_stop : Signal :=
  {| sig_decision := Some "BUY";
     sig_confidence := Some (9 # 10);
     sig_stop_loss_pct := None;
     sig_target_pct := Some 15;
     sig_risk_reward_ratio := Some 3;
     sig_rationale := Some "breakout";
     sig_ticker := None |}.

(** The signal dict with no key at all. *)
Definition empty_signal : Signal :=
  {| sig_decision := None;
     sig_confidence := None;
     sig_stop_loss_pct := None;
     sig_target_pct := None;
     sig_risk_reward_ratio := None;
     sig_rationale := None;
     sig_ticker := None |}.

(** The default engine after losses: peak 120000, value 100000. *)
Definition engine_in_drawdown : RiskEngine.t :=
  RiskEngine.with_state (RiskEngine.__init__ empty_config None)
    100000 ∅ 0 120000.

(** ** PaperTrader (execution/paper_trader.py) *)

Module PyFormat.

(** The thousands separators of the format specification [:,]: a comma
    before every group of three digits counted from the right. *)
Fixpoint group_thousands (digits : string) : string :=
  match digits with
  | EmptyString => EmptyString
  | String c rest =>
      String c
        (if Nat.ltb 0 (String.length rest)
            && Nat.eqb (Nat.modulo (String.length rest) 3) 0
         then "," ++ group_thousands rest
         else group_thousands rest)
  end.

(** The format specification [:,.df] ([f"{x:,.2f}"]). *)
Definition format_grouped (d : nat) (x : Q) : string :=
  let m := Py.scaled_round d x in
  let ip := group_thousands (Py.string_of_Z (m / Py.pow10 d)) in
  let fp := Py.pad_left d (Py.string_of_Z (m mod Py.pow10 d)) in
  let sign := if (Qnum x <? 0)%Z then "-" else "" in
  match d with
  | O => sign ++ ip
  | _ => sign ++ ip ++ "." ++ fp
  end.

(** The format specification [:0wd] of an integer ([f"{n:06d}"]): zeros
    between the sign and the digits, up to the width. *)
Definition format_zero_padded (width : nat) (n : Z) : string :=
  if (n <? 0)%Z
  then "-" ++ Py.pad_left (Nat.pred width) (Py.string_of_Z (- n))
  else Py.pad_left width (Py.string_of_Z n).

End PyFormat.

Module PaperTrader.

Record Position := {
  pos_ticker : string;
  pos_side : string;
  pos_quantity : Z;
  pos_entry_price : Q;
  pos_stop_loss : Q;
  pos_target : Q;
  pos_entry_time : string
}.

Record Trade := {
  tr_ticker : string;
  tr_side : string;
  tr_entry_price : Q;
  tr_exit_price : Q;
  tr_quantity : Z;
  tr_pnl : Q;
  tr_timestamp : string
}.

Record t := {
  initial_capital : Q;
  capital : Q;
  slippage_pct : Q;
  positions : gmap string Position;
  trade_history : list Trade;
  order_counter : Z
}.

(** The keys of the configuration dict the paper trader reads. *)
Record PaperConfig := {
  cfg_paper_capital : option Q;
  cfg_slippage_pct : option Q
}.

(** The persisted JSON document, when the state file exists and parses. *)
Record PersistedState := {
  ps_capital : option Q;
  ps_positions : option (gmap string Position);
  ps_order_counter : option Z
}.

Record exec_result := {
  success : bool;
  order_id : option string;
  message : string
}.

Definition _load_state (self : t) (file : option PersistedState) : t :=
  match file with
  | None => self
  | Some state =>
      {| initial_capital := initial_capital self;
         capital := default (initial_capital self) (ps_capital state);
         slippage_pct := slippage_pct self;
         positions := default ∅ (ps_positions state);
         trade_history := trade_history self;
         order_counter := default 0%Z (ps_order_counter state) |}
  end.

Definition __init__ (config : PaperConfig) (file : option PersistedState) : t :=
  let initial := default 100000 (cfg_paper_capital config) in
  _load_state
    {| initial_capital := initial;
       capital := initial;
       slippage_pct := default (1 # 10) (cfg_slippage_pct config);
       positions := ∅;
       trade_history := [];
       order_counter := 0 |}
    file.

(** The document [_save_state] writes, as far as [_load_state] reads it
    (the initial capital, the trade count and the time stamp are written
    but never read back). *)
Definition _save_state (self : t) : PersistedState :=
  {| ps_capital := Some (capital self);
     ps_positions := Some (positions self);
     ps_order_counter := Some (order_counter self) |}.

Definition with_book (self : t) (cap : Q) (pos : gmap string Position)
    (history : list Trade) (counter : Z) : t :=
  {| initial_capital := initial_capital self;
     capital := cap;
     slippage_pct := slippage_pct self;
     positions := pos;
     trade_history := history;
     order_counter := counter |}.

(** The price an order is filled at: the slippage is against the order. *)
Definition fill_price (self : t) (side : string) (price : Q) : Q :=
  if String.eqb side "BUY"
  then price * (1 + slippage_pct self / 100)
  else price * (1 - slippage_pct self / 100).

Section Orders.
Context `{PyFloat}.

(** Returns the trader after the call and the execution result.  The
    order is the dict the validator assembled, so all its keys are
    there. *)
Definition place_order (self : t) (now : string)
    (ticker side : string) (quantity : Z) (price stop_loss target : Q)
    : t * exec_result :=
  let counter := (order_counter self + 1)%Z in
  let order_id := "PAPER-" ++ PyFormat.format_zero_padded 6 counter in
  let fill := fill_price self side price in
  let cost := fill * Py.of_int quantity in
  let opened :=
    {| pos_ticker := ticker;
       pos_side := side;
       pos_quantity := quantity;
       pos_entry_price := fill;
       pos_stop_loss := stop_loss;
       pos_target := target;
       pos_entry_time := now |} in
  let done (self : t) :=
    (self,
     {| success := true;
        order_id := Some order_id;
        message := "[PAPER] " ++ side ++ " " ++ Py.string_of_Z quantity
                     ++ "x " ++ ticker ++ " @ ₹"
                     ++ PyFormat.format_grouped 2 fill
                     ++ " (slippage: " ++ float_str (slippage_pct self)
                     ++ "%)" |}) in
  if String.eqb side "BUY" then
    if Py.ltb (capital self) cost then
      (with_book self (capital self) (positions self) (trade_history self)
         counter,
       {| success := false;
          order_id := None;
          message := "Insufficient capital: need ₹"
                       ++ PyFormat.format_grouped 2 cost ++ ", have ₹"
                       ++ PyFormat.format_grouped 2 (capital self) |})
    else
      done (with_book self (capital self - cost)
              (<[ticker := opened]> (positions self))
              (trade_history self) counter)
  else if String.eqb side "SELL" then
    match positions self !! ticker with
    | Some pos =>
        let pnl := (fill - pos_entry_price pos) * Py.of_int (pos_quantity pos) in
        done (with_book self
                (capital self + Py.of_int (pos_quantity pos) * fill)
                (delete ticker (positions self))
                (append (trade_history self)
                   {| tr_ticker := ticker;
                      tr_side := "SELL";
                      tr_entry_price := pos_entry_price pos;
                      tr_exit_price := fill;
                      tr_quantity := pos_quantity pos;
                      tr_pnl := Py.round 2 pnl;
                      tr_timestamp := now |})
                counter)
    | None =>
        (* short selling (simplified) *)
        done (with_book self (capital self + cost)
                (<[ticker := opened]> (positions self))
                (trade_history self) counter)
    end
  else
    done (with_book self (capital self) (positions self) (trade_history self)
            counter).

(** [place_bracket_order]: the same as a regular order. *)
Definition place_bracket_order (self : t) (now : string)
    (ticker side : string) (quantity : Z) (price stop_loss target : Q)
    : t * exec_result :=
  place_order self now ticker side quantity price stop_loss target.

End Orders.

End PaperTrader.

(** ** AQIOrchestrator (orchestrator.py) *)

Module AQIOrchestrator.

(** The execution layer: the paper trader, or the bridge to the broker,
    whose replies come from the network. *)
Inductive body :=
| Paper (trader : PaperTrader.t)
| Live.

(** [result["stages"]["ai_brain"]]. *)
Inductive ai_stage :=
| AiError (error : string)
| AiSignal (decision : string) (confidence stop_loss_pct target_pct
            risk_reward_ratio : Q) (rationale : string).

(** [result["stages"]["quant_brain"]]. *)
Record quant_stage := {
  qs_approved : bool;
  qs_reason : string;
  qs_order : option SignalValidator.Order;
  qs_warnings : list string
}.

Record Stages := {
  st_ai_brain : option ai_stage;
  st_quant_brain : option quant_stage;
  st_execution : option PaperTrader.exec_result
}.

(** The result dict of [run].  Its "order" key is absent on two paths,
    [None] on others. *)
Record run_result := {
  rr_ticker : string;
  rr_trade_date : string;
  rr_mode : string;
  rr_timestamp : string;
  rr_stages : Stages;
  rr_final_status : string;
  rr_order : option (option SignalValidator.Order)
}.

(** [stock.info] as far as [run] reads it: each of the two keys is absent
    ([None]), null ([Some None]) or a number. *)
Record StockInfo := {
  info_currentPrice : option (option Q);
  info_regularMarketPrice : option (option Q)
}.

Record t := {
  mode : string;
  quant_brain : SignalValidator.t;
  executor : body;
  (** the records appended to daily_results.jsonl *)
  results_log : list run_result
}.

(** What one call of [run] reads from outside. *)
Record World := {
  (** [date.today()] and the clock readings, in the order they are taken *)
  today : string;
  run_clock : string;
  fill_clock : string;
  register_clock : string;
  (** the structured signal of the AI brain, or the exception that left
      [propagate] or [process_signal_structured] *)
  ai_brain : res Signal;
  (** [yf.Ticker(ticker).info], or the exception of the import or of the
      lookup *)
  price_feed : res StockInfo;
  (** the clock and price history seen by the validator *)
  validator_world : SignalValidator.World;
  (** the reply of the broker bridge to [place_order] *)
  bridge_reply : PaperTrader.exec_result
}.

Definition __init__ (mode : string) (config : Config)
    (paper_config : PaperTrader.PaperConfig)
    (risk_file : option RiskEngine.PersistedState)
    (paper_file : option PaperTrader.PersistedState) : t :=
  {| mode := mode;
     quant_brain := SignalValidator.__init__ config risk_file;
     executor := if String.eqb mode "live" then Live
                 else Paper (PaperTrader.__init__ paper_config paper_file);
     results_log := [] |}.

Definition with_parts (self : t) (brain : SignalValidator.t) (b : body) : t :=
  {| mode := mode self;
     quant_brain := brain;
     executor := b;
     results_log := results_log self |}.

Definition _log_result (self : t) (result : run_result) : t :=
  {| mode := mode self;
     quant_brain := quant_brain self;
     executor := executor self;
     results_log := append (results_log self) result |}.

(** The price [run] looks up when none is passed in:
    [info.get("currentPrice") or info.get("regularMarketPrice", 0)], and 0
    when the lookup raises.  A missing key, null and 0 are falsy; the
    result is [None] when the second key is there with a null value. *)
Definition fetched_price (world : World) : option Q :=
  match price_feed world with
  | Raise _ => Some 0
  | Return info =>
      let regular := default (Some 0) (info_regularMarketPrice info) in
      match info_currentPrice info with
      | Some (Some p) => if Py.eqb p 0 then regular else Some p
      | _ => regular
      end
  end.

(** The price after [if current_price is None: ...]. *)
Definition price_in_use (world : World) (current_price : option Q)
    : option Q :=
  match current_price with
  | Some p => Some p
  | None => fetched_price world
  end.

(** [d[key]] on the structured signal. *)
Definition subscript {A : Type} (key : string) (field : option A) : res A :=
  match field with
  | Some v => Return v
  | None => Raise (KeyError key)
  end.

(** The body of the first [try] block: the signal, with the ticker
    written into it, and the stage entry read off it. *)
Definition ai_stage_of (world : World) (ticker : string)
    : res (Signal * ai_stage) :=
  structured ← ai_brain world;
  let structured := set_ticker structured ticker in
  decision ← subscript "decision" (sig_decision structured);
  confidence ← subscript "confidence" (sig_confidence structured);
  stop_loss_pct ← subscript "stop_loss_pct" (sig_stop_loss_pct structured);
  target_pct ← subscript "target_pct" (sig_target_pct structured);
  risk_reward ← subscript "risk_reward_ratio" (sig_risk_reward_ratio structured);
  rationale ← subscript "rationale" (sig_rationale structured);
  Return (structured,
          AiSignal decision confidence stop_loss_pct target_pct risk_reward
                   rationale).

Section Run.
Context `{PyFloat}.

(** [self.body.place_order(order)]. *)
Definition execute (b : body) (world : World) (order : SignalValidator.Order)
    : body * PaperTrader.exec_result :=
  match b with
  | Paper trader =>
      let '(trader, reply) :=
        PaperTrader.place_order trader (fill_clock world)
          (SignalValidator.ord_ticker order) (SignalValidator.ord_side order)
          (SignalValidator.ord_quantity order) (SignalValidator.ord_price order)
          (SignalValidator.ord_stop_loss order)
          (SignalValidator.ord_target order) in
      (Paper trader, reply)
  | Live => (Live, bridge_reply world)
  end.

(** Returns the orchestrator after the call and the result, or the
    exception that left the call. *)
Definition run (self : t) (world : World) (ticker : string)
    (trade_date : option string) (current_price : option Q)
    (skip_backtest : bool) : t * res run_result :=
  let trade_date := default (today world) trade_date in
  let finish (self : t) (stages : Stages) (status : string)
             (order : option (option SignalValidator.Order)) :=
    let result :=
      {| rr_ticker := ticker;
         rr_trade_date := trade_date;
         rr_mode := mode self;
         rr_timestamp := run_clock world;
         rr_stages := stages;
         rr_final_status := status;
         rr_order := order |} in
    (_log_result self result, Return result) in
  (* Stage 1: AI brain *)
  match ai_stage_of world ticker with
  | Raise e =>
      finish self
        {| st_ai_brain := Some (AiError (exn_str e)); st_quant_brain := None;
           st_execution := None |}
        "FAILED_AT_AI_BRAIN" None
  | Return (structured_signal, ai) =>
      let stages := {| st_ai_brain := Some ai; st_quant_brain := None;
                       st_execution := None |} in
      if bool_decide (sig_decision structured_signal = Some "HOLD") then
        finish self stages "HOLD" (Some None)
      else
        match price_in_use world current_price with
        | None =>
            (self,
             Raise (OtherError
                      "'<=' not supported between instances of 'NoneType' and 'int'"))
        | Some current_price =>
        if Py.leb current_price 0 then
          finish self stages "FAILED_NO_PRICE" None
        else
          (* Stage 2: quant brain *)
          let '(brain, _, validation) :=
            SignalValidator.validate_and_size (quant_brain self)
              (validator_world world) structured_signal current_price ticker
              skip_backtest in
          let self := with_parts self brain (executor self) in
          match validation with
          | Raise e => (self, Raise e)
          | Return validation =>
              let stages :=
                {| st_ai_brain := Some ai;
                   st_quant_brain :=
                     Some {| qs_approved := SignalValidator.vr_approved validation;
                             qs_reason := SignalValidator.vr_reason validation;
                             qs_order := SignalValidator.vr_order validation;
                             qs_warnings :=
                               default [] (SignalValidator.vr_warnings validation) |};
                   st_execution := None |} in
              if negb (SignalValidator.vr_approved validation) then
                finish self stages
                  ("REJECTED_BY_QUANT: " ++ SignalValidator.vr_reason validation)
                  (Some None)
              else
                match SignalValidator.vr_order validation with
                | None =>
                    (self,
                     Raise (OtherError
                              "'NoneType' object is not subscriptable"))
                | Some order =>
                    (* Stage 3: body *)
                    if String.eqb (mode self) "signal_only" then
                      finish self stages "SIGNAL_GENERATED" (Some (Some order))
                    else
                      let '(b, execution_result) :=
                        execute (executor self) world order in
                      let self := with_parts self (quant_brain self) b in
                      let stages :=
                        {| st_ai_brain := st_ai_brain stages;
                           st_quant_brain := st_quant_brain stages;
                           st_execution := Some execution_result |} in
                      if PaperTrader.success execution_result then
                        let engine :=
                          RiskEngine.register_position
                            (SignalValidator.risk_engine (quant_brain self))
                            (register_clock world) ticker
                            (SignalValidator.ord_quantity order) current_price
                            (SignalValidator.ord_stop_loss order)
                            (SignalValidator.ord_target order)
                            (SignalValidator.ord_side order) in
                        let self :=
                          with_parts self
                            (SignalValidator.with_engine (quant_brain self) engine)
                            (executor self) in
                        finish self stages "EXECUTED" (Some (Some order))
                      else
                        finish self stages
                          ("EXECUTION_FAILED: "
                             ++ PaperTrader.message execution_result)
                          (Some None)
                end
          end
        end
  end.

End Run.

End AQIOrchestrator.

(** ** Further notions of the risk engine *)

Module RiskBook.
Import RiskEngine.

(** The value the portfolio had when the daily counter was last zero. *)
Definition day_open_value (self : t) : Q :=
  portfolio_value self - daily_pnl self.

(** Two engines with the same configured limits. *)
Definition same_limits (a b : t) : Prop :=
  max_portfolio_drawdown_pct a = max_portfolio_drawdown_pct b
  /\ max_single_position_pct a = max_single_position_pct b
  /\ max_sector_exposure_pct a = max_sector_exposure_pct b
  /\ max_daily_loss_pct a = max_daily_loss_pct b
  /\ max_open_positions a = max_open_positions b
  /\ min_risk_reward a = min_risk_reward b
  /\ min_confidence a = min_confidence b.

(** The realized P&L of closing a position of [quantity] shares entered
    at [entry] on [side], at [exit_price]. *)
Definition realized (side : string) (entry exit_price : Q) (quantity : Z) : Q :=
  if String.eqb side "BUY"
  then (exit_price - entry) * Py.of_int quantity
  else (entry - exit_price) * Py.of_int quantity.

Definition not_reset (c : call) : Prop :=
  match c with
  | ResetDaily => False
  | _ => True
  end.

End RiskBook.

(** A full book: the default engine holding ten positions. *)
Definition engine_with_ten : RiskEngine.t :=
  fold_left
    (fun e ticker =>
       RiskEngine.register_position e "2024-01-01T09:15:00" ticker
         10 100 95 110 "BUY")
    ["T0"; "T1"; "T2"; "T3"; "T4"; "T5"; "T6"; "T7"; "T8"; "T9"]
    (RiskEngine.__init__ empty_config None).

(** The default engine after a day's loss of 4000 on 100000. *)
Definition engine_after_bad_day : RiskEngine.t :=
  RiskEngine.with_state (RiskEngine.__init__ empty_config None)
    96000 ∅ (- (4000)) 100000.

(** ** Further notions of the position sizer *)

Module Sizing.

(** The stop distance the sizer works with: [abs(stop_loss_pct)], or 5
    for a zero stop. *)
Definition stop_distance (stop_loss_pct : Q) : Q :=
  if Py.eqb stop_loss_pct 0 then 5 else Py.abs stop_loss_pct.

End Sizing.

(** ** Further notions of the backtester *)

Module Verdict.
Import Py SimpleBacktester.

(** The result [backtest_signal] builds from the representative window
    (the end of the second [try] block). *)
Definition of_window (best_window : string) (best : window_stats)
    (all_results : list (string * window_stats)) : result :=
  let approved0 :=
    fleb (Fin (4 # 10)) (ws_win_rate best)
    && fleb (Fin (5 # 10)) (ws_sharpe_ratio best)
    && fleb (ws_max_drawdown_pct best) (Fin 25) in
  let reason_parts : list string := [] in
  let reason_parts :=
    if fltb (ws_win_rate best) (Fin (4 # 10))
    then append reason_parts ("Low win rate: " ++ fformat_percent 0 (ws_win_rate best))
    else reason_parts in
  let reason_parts :=
    if fltb (ws_sharpe_ratio best) (Fin (5 # 10))
    then append reason_parts ("Low Sharpe: " ++ fformat_fixed 2 (ws_sharpe_ratio best))
    else reason_parts in
  let reason_parts :=
    if fltb (Fin 25) (ws_max_drawdown_pct best)
    then append reason_parts ("High drawdown: " ++ fformat_fixed 1 (ws_max_drawdown_pct best) ++ "%")
    else reason_parts in
  {| approved := approved0;
     reason := match reason_parts with
               | [] => "Backtest passed (" ++ best_window ++ " hold)"
               | _ => String.concat " | " reason_parts
               end;
     best_hold_period := Some best_window;
     win_rate := ws_win_rate best;
     avg_return_pct := ws_avg_return_pct best;
     sharpe_ratio := ws_sharpe_ratio best;
     max_drawdown_pct := ws_max_drawdown_pct best;
     trade_count := ws_trade_count best;
     all_windows := Some all_results |}.

(** The Sharpe ratio of a window is a finite number. *)
Definition finite_sharpe (kv : string * window_stats) : Prop :=
  exists q : Q, ws_sharpe_ratio (snd kv) = Fin q.

End Verdict.

(** ** SignalProcessor (graph/signal_processing.py) *)

Module SignalProcessor.

(** [needle in haystack] on strings. *)
Fixpoint substring_in (needle haystack : string) : bool :=
  String.prefix needle haystack
  || match haystack with
     | EmptyString => false
     | String _ rest => substring_in needle rest
     end.

(** The decision the [except] branch of [process_signal_structured] reads
    off the report; [raw_upper] is [full_signal.upper()]. *)
Definition fallback_decision (raw_upper : string) : string :=
  if substring_in "BUY" raw_upper && negb (substring_in "SELL" raw_upper)
  then "BUY"
  else if substring_in "SELL" raw_upper && negb (substring_in "BUY" raw_upper)
  then "SELL"
  else "HOLD".

(** The signal that branch returns; [error] is [str(e)] of the exception
    caught. *)
Definition fallback (raw_upper error : string) : Signal :=
  {| sig_decision := Some (fallback_decision raw_upper);
     sig_confidence := Some (3 # 10);
     sig_stop_loss_pct := Some (- (5));
     sig_target_pct := Some 5;
     sig_risk_reward_ratio := Some 1;
     sig_rationale :=
       Some ("Fallback extraction (JSON parse failed: "
               ++ String.substring 0 50 error ++ ")");
     sig_ticker := None |}.

End SignalProcessor.

(** ** Further example data *)

(** A strong SELL signal. *)
Definition strong_sell : Signal :=
  {| sig_decision := Some "SELL";
     sig_confidence := Some (9 # 10);
     sig_stop_loss_pct := Some (- (5));
     sig_target_pct := Some 15;
     sig_risk_reward_ratio := Some 3;
     sig_rationale := Some "breakdown";
     sig_ticker := None |}.

(** The default engine holding ten INFY shares bought at 1400. *)
Definition engine_holding_infy : RiskEngine.t :=
  RiskEngine.register_position (RiskEngine.__init__ empty_config None)
    "2024-01-01T09:15:00" "INFY" 10 1400 1330 1600 "BUY".

(** Forty closes: a climb from 100 by steps of 1. *)
Definition rising_closes : list Q :=
  List.map (fun k => inject_Z (100 + Z.of_nat k)) (seq 0 40).

(** Forty closes: a saw-tooth decline from 200. *)
Definition falling_closes : list Q :=
  List.map (fun k => inject_Z (200 - 2 * Z.of_nat k + Z.of_nat (k mod 3)))
    (seq 0 40).

(** A validator world without price history. *)
Definition offline : SignalValidator.World :=
  {| SignalValidator.now := "2024-01-01T09:15:00";
     SignalValidator.yf := SimpleBacktester.ModuleMissing |}.

(** A validator whose risk engine is in drawdown. *)
Definition validator_in_drawdown : SignalValidator.t :=
  SignalValidator.with_engine (SignalValidator.__init__ empty_config None)
    engine_in_drawdown.

(** The paper trader with its default settings and no state file. *)
Definition fresh_trader : PaperTrader.t :=
  PaperTrader.__init__
    {| PaperTrader.cfg_paper_capital := None;
       PaperTrader.cfg_slippage_pct := None |}
    None.

(** The paper trader after buying ten INFY shares at 1400. *)
Definition trader_holding_infy : PaperTrader.t :=
  fst (@PaperTrader.place_order example_floats fresh_trader
         "2024-01-01T09:15:00" "INFY" "BUY" 10 1400 1330 1600).

(** The orchestrator in paper mode over a given paper trader. *)
Definition paper_bot (trader : PaperTrader.t) : AQIOrchestrator.t :=
  AQIOrchestrator.with_parts
    (AQIOrchestrator.__init__ "paper" empty_config
       {| PaperTrader.cfg_paper_capital := None;
          PaperTrader.cfg_slippage_pct := None |}
       None None)
    (SignalValidator.__init__ empty_config None)
    (AQIOrchestrator.Paper trader).

(** A run whose AI brain answers with [signal], with no price history
    and no price feed. *)
Definition world_of (signal : res Signal) : AQIOrchestrator.World :=
  {| AQIOrchestrator.today := "2024-01-01";
     AQIOrchestrator.run_clock := "2024-01-01T09:15:00";
     AQIOrchestrator.fill_clock := "2024-01-01T09:15:01";
     AQIOrchestrator.register_clock := "2024-01-01T09:15:02";
     AQIOrchestrator.ai_brain := signal;
     AQIOrchestrator.price_feed := Raise (OtherError "offline");
     AQIOrchestrator.validator_world := offline;
     AQIOrchestrator.bridge_reply :=
       {| PaperTrader.success := false;
          PaperTrader.order_id := None;
          PaperTrader.message := "Order failed: offline" |} |}.

(** * Properties *)

(** ** Comparisons *)

Lemma ltb_lt (a b : Q) : Py.ltb a b = true <-> a < b.
Proof.
  unfold Py.ltb. rewrite negb_true_iff, <- not_true_iff_false, Qle_bool_iff.
  split; [apply Qnot_le_lt | apply Qlt_not_le].
Qed.

Lemma ltb_ge (a b : Q) : Py.ltb a b = false <-> b <= a.
Proof.
  unfold Py.ltb. rewrite negb_false_iff. apply Qle_bool_iff.
Qed.

Lemma leb_le (a b : Q) : Py.leb a b = true <-> a <= b.
Proof. apply Qle_bool_iff. Qed.

Lemma leb_gt (a b : Q) : Py.leb a b = false <-> b < a.
Proof.
  unfold Py.leb. rewrite <- not_true_iff_false, Qle_bool_iff.
  split; [apply Qnot_le_lt | apply Qlt_not_le].
Qed.

Lemma eqb_eq (a b : Q) : Py.eqb a b = true <-> a == b.
Proof. apply Qeq_bool_iff. Qed.

Lemma eqb_neq (a b : Q) : Py.eqb a b = false <-> ~ a == b.
Proof.
  unfold Py.eqb. rewrite <- not_true_iff_false, Qeq_bool_iff. reflexivity.
Qed.

(** ** PositionSizer *)

Section PositionSizerFacts.
Import PositionSizer.

Lemma calculate_position_rejects (self : t) (price sl tp conf : Q)
    (pv_arg : option Q) :
  price <= 0 \/ pv_in_effect self pv_arg <= 0 ->
  calculate_position self price sl tp conf pv_arg
  = _empty_result "Invalid price or portfolio value".
Proof.
  intros Hbad. unfold calculate_position.
  assert (Py.leb price 0 || Py.leb (pv_in_effect self pv_arg) 0 = true) as ->.
  { apply orb_true_iff. destruct Hbad; [left | right]; now apply leb_le. }
  reflexivity.
Qed.



(** C9 (the code departs from it).  An explicit [portfolio_value=0] is
    falsy in [portfolio_value or self.portfolio_value], so the configured
    100000 is used and the call is sized instead of rejected. *)
Theorem calculate_position_zero_override :
  let r := calculate_position (PositionSizer__init__ empty_config)
             100 (- (5)) 10 (8 # 10) (Some 0) in
  quantity r = 200%Z
  /\ method r = "min(risk_limit, half_kelly, max_position)".
Proof. split; reflexivity. Qed.

End PositionSizerFacts.

(** ** SimpleBacktester *)

Section BacktesterFacts.
Context `{PyFloat}.
Import Py SimpleBacktester.

(** C4.  For a BUY or SELL signal, when the price-history module is
    missing, the download raises, or fewer than 30 observations (possibly
    none) come back, [backtest_signal] returns the zero-valued approving
    result with an explanatory reason. *)
Theorem backtest_signal_fails_open (self : t) (yf : provider)
    (ticker decision : string) (sl tp : Q) :
  decision = "BUY" \/ decision = "SELL" ->
  yf = ModuleMissing
  \/ (exists e, yf = DownloadRaises e)
  \/ (exists closes, yf = Downloaded closes /\ (length closes < 30)%nat) ->
  exists why : string,
    backtest_signal self yf ticker decision sl tp = approve_by_default why
    /\ approved (backtest_signal self yf ticker decision sl tp) = true
    /\ reason (backtest_signal self yf ticker decision sl tp) = why
    /\ (why = "yfinance not available — skipping backtest"
        \/ why = "Insufficient historical data for " ++ ticker
        \/ exists detail, why = "Backtest error (proceeding anyway): " ++ detail).
Proof.
  intros Hdec Hdata.
  assert (String.eqb decision "HOLD" = false) as Hhold
    by (destruct Hdec; subst; reflexivity).
  unfold backtest_signal. rewrite Hhold.
  destruct Hdata as [-> | [[e ->] | [closes [-> Hshort]]]].
  - eexists. repeat split. now left.
  - unfold fetch_and_test.
    destruct (test_windows self) as [| w ws]; cbn;
      eexists; repeat split; right; right; eexists; reflexivity.
  - unfold fetch_and_test.
    destruct (test_windows self) as [| w ws]; unfold max_window, mbind, res_bind.
    + eexists. repeat split. right; right; eexists; reflexivity.
    + assert (Nat.eqb (length closes) 0 || Nat.ltb (length closes) 30 = true)
        as ->.
      { apply orb_true_iff. right. apply Nat.ltb_lt. exact Hshort. }
      eexists. repeat split. right; left; reflexivity.
Qed.

End BacktesterFacts.

Lemma backtest_signal_fails_open_witness :
  SimpleBacktester.approved
    (@SimpleBacktester.backtest_signal example_floats
       (SimpleBacktester__init__ empty_config)
       (SimpleBacktester.Downloaded [100; 101]) "INFY" "BUY" (- (5)) 10)
  = true.
Proof.
  destruct (@backtest_signal_fails_open example_floats
              (SimpleBacktester__init__ empty_config)
              (SimpleBacktester.Downloaded [100; 101]) "INFY" "BUY" (- (5)) 10)
    as [why [_ [Happroved _]]].
  - left. reflexivity.
  - right. right. exists [100; 101]. split; [reflexivity | simpl; lia].
  - exact Happroved.
Defined.

(** *** The walk-forward simulation *)

Section WalkForwardFacts.
Import Py SimpleBacktester WalkForward.

Lemma fleb_fin (a b : Q) : fleb (Fin a) (Fin b) = true <-> a <= b.
Proof.
  unfold fleb, fltb, feqb. rewrite orb_true_iff, ltb_lt, eqb_eq.
  rewrite Qle_lteq. reflexivity.
Qed.

Lemma fleb_fin_false (a b : Q) : fleb (Fin a) (Fin b) = false <-> b < a.
Proof.
  rewrite <- not_true_iff_false, fleb_fin.
  split; [apply Qnot_le_lt | apply Qlt_not_le].
Qed.

Lemma fdiv_fin (a b : Q) : ~ b == 0 -> fdiv a b = Fin (a / b).
Proof.
  intros Hb. unfold fdiv. apply eqb_neq in Hb. now rewrite Hb.
Qed.

Lemma trade_return_fin (decision : string) (entry x : Q) :
  ~ entry == 0 ->
  trade_return decision entry x = Fin (return_pct decision entry x).
Proof.
  intros He. unfold trade_return, return_pct.
  destruct (String.eqb decision "BUY"); now rewrite fdiv_fin.
Qed.

(** What a hold period leaves behind: a stop exit on the stop level, a
    target exit on the target level, or the last bar walked, whose change
    neither test accepted. *)
Lemma walk_exit (decision : string) (entry stop target : Q) :
  decision = "BUY" \/ decision = "SELL" ->
  ~ entry == 0 ->
  forall (bars : list Q) (x0 x : Q) (hit_sl hit_target : bool),
    walk decision entry stop target bars x0 = (x, hit_sl, hit_target) ->
    (hit_sl = true /\ hit_target = false
     /\ return_pct decision entry x == stop)
    \/ (hit_sl = false /\ hit_target = true
        /\ return_pct decision entry x == target)
    \/ (hit_sl = false /\ hit_target = false
        /\ ((bars = [] /\ x = x0)
            \/ (bars <> []
                /\ stop < return_pct decision entry x
                /\ return_pct decision entry x < target))).
Proof.
  intros Hdec He bars.
  induction bars as [| current rest IH]; intros x0 x hit_sl hit_target Hwalk.
  - cbn in Hwalk. injection Hwalk as <- <- <-. right. right. auto.
  - cbn [walk] in Hwalk.
    destruct Hdec as [-> | ->]; cbn [String.eqb Ascii.eqb Bool.eqb] in Hwalk;
      unfold return_pct; cbn [String.eqb Ascii.eqb Bool.eqb];
      rewrite fdiv_fin in Hwalk by exact He; cbn [fscale] in Hwalk;
      lazymatch type of Hwalk with
      | (if fleb (Fin ?change) (Fin _) then _ else _) = _ =>
          destruct (fleb (Fin change) (Fin stop)) eqn:Hsl;
            [injection Hwalk as <- <- <-; left; repeat split; field; exact He |];
          destruct (fleb (Fin target) (Fin change)) eqn:Htp;
            [injection Hwalk as <- <- <-; right; left; repeat split; field;
             exact He |]
      end;
      apply fleb_fin_false in Hsl, Htp;
      (destruct (IH _ _ _ _ Hwalk) as [Hs | [Ht | [-> [-> [[-> ->] | Hin]]]]];
       [ left; exact Hs
       | right; left; exact Ht
       | right; right; repeat split; right; split; [discriminate | auto]
       | right; right; repeat split; right; split; [discriminate | apply Hin] ]).
Qed.

Lemma entry_indices_lt (stop : Z) (i : nat) :
  In i (entry_indices stop) -> (Z.of_nat i < stop)%Z.
Proof.
  unfold entry_indices. rewrite in_map_iff. intros [k [<- Hk]].
  apply in_seq in Hk. destruct Hk as [_ Hk]. cbn in Hk.
  assert (Z.of_nat k < (stop + 4) / 5)%Z as Hlt by lia.
  pose proof (Z.mul_div_le (stop + 4) 5 ltac:(lia)). lia.
Qed.

Lemma bars_after_none (closes : list Q) (hold_days : Z) (i : nat) :
  (hold_days <= 0)%Z -> bars_after closes hold_days i = [].
Proof.
  intros Hhold. unfold bars_after.
  replace (Z.to_nat _) with 0%nat by lia. reflexivity.
Qed.

Lemma bars_after_some (closes : list Q) (hold_days : Z) (i : nat) :
  (1 <= hold_days)%Z ->
  (Z.of_nat i < Z.of_nat (length closes) - hold_days)%Z ->
  bars_after closes hold_days i <> [].
Proof.
  intros Hhold Hi. unfold bars_after.
  destruct (Z.to_nat _) as [| n] eqn:Hn; [lia |].
  destruct (skipn (S i) closes) as [| bar rest] eqn:Hskip; [| discriminate].
  apply (f_equal (@length Q)) in Hskip. rewrite length_skipn in Hskip.
  cbn in Hskip. lia.
Qed.

Section Run.
Variables (closes : list Q) (decision : string) (sl tp : Q) (hold_days : Z).
Hypothesis side : decision = "BUY" \/ decision = "SELL".
Hypothesis priced : Forall (fun p => ~ p == 0) closes.

Let in_window (i : nat) : Prop :=
  (Z.of_nat i < Z.of_nat (length closes) - hold_days)%Z.

Lemma simulate_entry_by_design (i : nat) (v : fval) :
  in_window i ->
  simulate_entry closes decision (- Py.abs sl) (Py.abs tp) hold_days i
  = Return v ->
  recorded closes decision sl tp hold_days
    (exit_by_design (- Py.abs sl) (Py.abs tp) hold_days) i v.
Proof.
  intros Hi Hsim. unfold simulate_entry in Hsim.
  destruct (closes !! i) as [entry |] eqn:Hentry; [| discriminate].
  destruct (walk decision entry (- Py.abs sl) (Py.abs tp)
              (bars_after closes hold_days i) entry)
    as [[x hit_sl] hit_target] eqn:Hwalk.
  injection Hsim as <-.
  assert (~ entry == 0) as He.
  { rewrite Forall_forall in priced. apply priced.
    eapply list_elem_of_lookup_2. exact Hentry. }
  exists entry, x, hit_sl, hit_target, (return_pct decision entry x).
  split; [exact Hentry |]. split; [exact Hwalk |].
  split; [reflexivity |]. split; [now apply trade_return_fin |].
  pose proof (Qabs_nonneg sl) as Hsl. pose proof (Qabs_nonneg tp) as Htp.
  unfold Py.abs in *.
  assert (return_pct decision entry entry == 0) as Hflat.
  { unfold return_pct. destruct (String.eqb decision "BUY"); field; exact He. }
  destruct (walk_exit decision entry _ _ side He _ _ _ _ _ Hwalk)
    as [[-> [-> Hr]] | [[-> [-> Hr]] | [-> [-> [[Hbars ->] | [Hbars Hr]]]]]];
    unfold exit_by_design.
  - repeat split; try discriminate; try (rewrite Hr; lra); exact Hr.
  - repeat split; try discriminate; try (rewrite Hr; lra); exact Hr.
  - repeat split; try discriminate; try (rewrite Hflat; lra);
      exfalso; eapply bars_after_some; eauto.
  - repeat split; try discriminate; try lra.
    intros Hhold. exfalso. apply Hbars. now apply bars_after_none.
Qed.

Lemma entries_loop_by_design (indices : list nat) :
  Forall in_window indices ->
  forall acc returns : list fval,
    entries_loop closes decision (- Py.abs sl) (Py.abs tp) hold_days indices acc
    = Return returns ->
    exists fresh : list fval,
      returns = (acc ++ fresh)%list
      /\ Forall2 (recorded closes decision sl tp hold_days
                    (exit_by_design (- Py.abs sl) (Py.abs tp) hold_days))
                 indices fresh.
Proof.
  induction 1 as [| i rest Hi Hrest IH]; intros acc returns Hloop.
  - cbn in Hloop. injection Hloop as <-. exists []. split.
    + now rewrite app_nil_r.
    + constructor.
  - cbn [entries_loop] in Hloop. unfold mbind, res_bind in Hloop.
    destruct (simulate_entry closes decision (- Py.abs sl) (Py.abs tp)
                hold_days i) as [v |] eqn:Hsim; [| discriminate].
    destruct (IH _ _ Hloop) as [fresh [-> Hfresh]].
    exists (v :: fresh). split.
    + unfold append. now rewrite <- app_assoc.
    + constructor; [now apply simulate_entry_by_design | exact Hfresh].
Qed.

Lemma entries_loop_returns (indices : list nat) :
  Forall (fun i => (i < length closes)%nat) indices ->
  forall acc : list fval,
    exists returns : list fval,
      entries_loop closes decision (- Py.abs sl) (Py.abs tp) hold_days indices acc
      = Return returns.
Proof.
  induction 1 as [| i rest Hi Hrest IH]; intros acc.
  - eexists. reflexivity.
  - cbn [entries_loop]. unfold mbind, res_bind, simulate_entry.
    destruct (lookup_lt_is_Some_2 closes i Hi) as [entry ->].
    destruct (walk decision entry (- Py.abs sl) (Py.abs tp)
                (bars_after closes hold_days i) entry) as [[x hit_sl] hit_target].
    apply IH.
Qed.

End Run.




End WalkForwardFacts.

(** ** Strings *)

Lemma append_assoc (a b c : string) : (a ++ b) ++ c = a ++ (b ++ c).
Proof.
  induction a as [| ch a IH]; [reflexivity |].
  change (String ch ((a ++ b) ++ c) = String ch (a ++ b ++ c)).
  now rewrite IH.
Qed.

Lemma append_nil_r (a : string) : a ++ "" = a.
Proof.
  induction a as [| ch a IH]; [reflexivity |].
  change (String ch (a ++ "") = String ch a).
  now rewrite IH.
Qed.

Lemma contains_prefix (a b : string) : contains (a ++ b) a.
Proof. exists "", b. reflexivity. Qed.

Lemma contains_trans (a b c : string) :
  contains a b -> contains b c -> contains a c.
Proof.
  intros [p1 [q1 ->]] [p2 [q2 ->]]. exists (p1 ++ p2), (q2 ++ q1).
  now rewrite !append_assoc.
Qed.

Lemma contains_concat (sep m : string) (l : list string) :
  In m l -> contains (String.concat sep l) m.
Proof.
  induction l as [| x [| y rest] IH]; intros Hin.
  - destruct Hin.
  - destruct Hin as [-> | []]. exists "", "". cbn. now rewrite append_nil_r.
  - change (String.concat sep (x :: y :: rest))
      with (x ++ sep ++ String.concat sep (y :: rest)).
    destruct Hin as [-> | Hin].
    + apply contains_prefix.
    + destruct (IH Hin) as [p [q ->]].
      exists (x ++ sep ++ p), q. now rewrite !append_assoc.
Qed.

(** ** RiskEngine *)

Section RiskEngineFacts.
Context `{PyFloat}.
Import RiskEngine RiskRules.

(** The list built by the sequence of [if ...: rejections.append(...)]
    holds the message of every failing rule, in order. *)
Lemma rejections_failing (self : t) (decision : string) (confidence rr : Q) :
  decision <> "HOLD" ->
  rejections self decision confidence rr
  = failing (rules self decision confidence rr).
Proof.
  intros Hhold. apply String.eqb_neq in Hhold.
  unfold rejections, rules, failing. rewrite Hhold. cbn [negb].
  rewrite andb_true_r.
  destruct (Py.ltb confidence (min_confidence self));
    destruct (Py.ltb rr (min_risk_reward self));
    destruct ((max_open_positions self <=? Z.of_nat (size (positions self)))%Z
              && String.eqb decision "BUY");
    destruct (Py.leb (daily_loss_pct self) (- max_daily_loss_pct self));
    destruct (Py.leb (max_portfolio_drawdown_pct self) (current_drawdown self));
    reflexivity.
Qed.

(** The verdict of [validate_trade] on a signal that is not a HOLD. *)
Lemma validate_trade_verdict (self : t) (signal : Signal) (decision : string) :
  sig_decision signal = Some decision ->
  decision <> "HOLD" ->
  let rej := rejections self decision (default 0 (sig_confidence signal))
                        (default 0 (sig_risk_reward_ratio signal)) in
  let r := snd (validate_trade self signal) in
  approved r = match rej with [] => true | _ => false end
  /\ reason r = match rej with
                | [] => "All risk checks passed"
                | _ => String.concat " | " rej
                end.
Proof.
  intros Hdec Hhold. apply String.eqb_neq in Hhold.
  unfold validate_trade. rewrite Hdec. cbn [from_option id]. rewrite Hhold.
  destruct ((String.eqb decision "BUY" || String.eqb decision "SELL")
            && Py.eqb (default 0 (sig_stop_loss_pct signal)) 0);
    destruct (rejections self decision (default 0 (sig_confidence signal))
                (default 0 (sig_risk_reward_ratio signal)));
    split; reflexivity.
Qed.

Lemma side_not_hold (signal : Signal) :
  sig_decision signal = Some "BUY" \/ sig_decision signal = Some "SELL" ->
  exists decision,
    sig_decision signal = Some decision /\ decision <> "HOLD".
Proof.
  intros [Hd | Hd]; eexists; (split; [exact Hd | discriminate]).
Qed.

Lemma failing_in (rs : list (bool * string)) (m : string) :
  In (true, m) rs -> In m (failing rs).
Proof.
  intros Hin. unfold failing. apply in_map_iff. exists (true, m).
  split; [reflexivity |]. apply filter_In. auto.
Qed.


(** C6.  On a BUY or SELL signal [validate_trade] evaluates the five
    rejection rules without short-circuiting: it approves exactly when no
    rule fails, and otherwise its reason is the messages of all failing
    rules joined with " | ".  Under the default thresholds a signal with
    confidence 0.3 and risk-reward ratio 1.0 is rejected with a reason
    holding both "Confidence 0.30 below minimum 0.50" and "Risk-reward
    ratio 1.00 below minimum 1.50". *)
Theorem validate_trade_joins_all_failures :
  (forall (self : t) (signal : Signal) (decision : string),
     decision = "BUY" \/ decision = "SELL" ->
     sig_decision signal = Some decision ->
     let failed :=
       failing (rules self decision (default 0 (sig_confidence signal))
                      (default 0 (sig_risk_reward_ratio signal))) in
     (approved (snd (validate_trade self signal)) = true <-> failed = [])
     /\ (failed <> [] ->
         reason (snd (validate_trade self signal))
         = String.concat " | " failed))
  /\ (forall (signal : Signal) (decision : string),
        decision = "BUY" \/ decision = "SELL" ->
        sig_decision signal = Some decision ->
        sig_confidence signal = Some (3 # 10) ->
        sig_risk_reward_ratio signal = Some 1 ->
        let r := snd (validate_trade (__init__ empty_config None) signal) in
        approved r = false
        /\ reason r = "Confidence 0.30 below minimum 0.50"
                        ++ " | "
                        ++ "Risk-reward ratio 1.00 below minimum 1.50"
        /\ contains (reason r) "Confidence 0.30 below minimum 0.50"
        /\ contains (reason r) "Risk-reward ratio 1.00 below minimum 1.50").
Proof.
  split.
  - intros self signal decision Hside Hdec failed.
    assert (decision <> "HOLD") as Hhold
      by (destruct Hside; subst; discriminate).
    destruct (validate_trade_verdict self signal decision Hdec Hhold)
      as [Happroved Hreason].
    rewrite rejections_failing in Happroved, Hreason by exact Hhold.
    fold failed in Happroved, Hreason.
    rewrite Happroved, Hreason.
    destruct failed; split; try split; congruence.
  - intros signal decision Hside Hdec Hconf Hrr r.
    assert (decision <> "HOLD") as Hhold
      by (destruct Hside; subst; discriminate).
    destruct (validate_trade_verdict (__init__ empty_config None) signal
                decision Hdec Hhold) as [Happroved Hreason].
    fold r in Happroved, Hreason.
    rewrite Hconf, Hrr in Happroved, Hreason.
    assert (rejections (__init__ empty_config None) decision
              (default 0 (Some (3 # 10))) (default 0 (Some 1))
            = ["Confidence 0.30 below minimum 0.50";
               "Risk-reward ratio 1.00 below minimum 1.50"]) as Hrej
      by (destruct Hside; subst; reflexivity).
    rewrite Hrej in Happroved, Hreason.
    split; [exact Happroved |]. split; [exact Hreason |].
    rewrite Hreason. split.
    + exists "", " | Risk-reward ratio 1.00 below minimum 1.50". reflexivity.
    + exists "Confidence 0.30 below minimum 0.50 | ", "". reflexivity.
Qed.

Lemma validate_trade_returns_engine (self : t) (signal : Signal) :
  fst (fst (validate_trade self signal)) = self.
Proof.
  unfold validate_trade.
  destruct (String.eqb _ "HOLD"); [reflexivity |].
  destruct (_ && Py.eqb _ 0);
    destruct (rejections _ _ _ _); reflexivity.
Qed.

Lemma perform_high_water (self : t) (c : call) :
  high_water self -> high_water (perform self c).
Proof.
  unfold high_water. intros Hinv. destruct c; cbn [perform].
  - now rewrite validate_trade_returns_engine.
  - exact Hinv.
  - unfold update_position. destruct (positions self !! ticker); exact Hinv.
  - unfold close_position. destruct (positions self !! ticker) as [pos |];
      [| exact Hinv].
    cbn [fst with_state portfolio_value peak_value].
    destruct (Py.ltb _ _) eqn:Hhigh.
    + apply Qle_refl.
    + now apply ltb_ge in Hhigh.
  - exact Hinv.
Qed.

Lemma perform_peak_monotone (self : t) (c : call) :
  peak_value self <= peak_value (perform self c).
Proof.
  destruct c; cbn [perform].
  - rewrite validate_trade_returns_engine. apply Qle_refl.
  - apply Qle_refl.
  - unfold update_position. destruct (positions self !! ticker); apply Qle_refl.
  - unfold close_position. destruct (positions self !! ticker) as [pos |];
      [| apply Qle_refl].
    cbn [fst with_state peak_value].
    destruct (Py.ltb _ _) eqn:Hhigh.
    + apply ltb_lt in Hhigh. now apply Qlt_le_weak.
    + apply Qle_refl.
  - apply Qle_refl.
Qed.


End RiskEngineFacts.


Lemma validate_trade_joins_all_failures_witness :
  RiskEngine.reason
    (snd (@RiskEngine.validate_trade example_floats
            (RiskEngine.__init__ empty_config None) weak_sell))
  = "Confidence 0.30 below minimum 0.50 | Risk-reward ratio 1.00 below minimum 1.50".
Proof.
  destruct (proj2 (@validate_trade_joins_all_failures example_floats)
              weak_sell "SELL") as [_ [Hreason _]];
    [right; reflexivity | reflexivity | reflexivity | reflexivity
    | exact Hreason].
Defined.


(** ** SignalValidator *)

Section PipelineFacts.
Context `{PyFloat}.
Import SignalValidator Pipeline.

(** A signal dict without a "decision" key passes the HOLD test of step
    1 and then meets the subscript [signal["decision"]] of step 2: the
    call raises [KeyError], whatever the validator, the clock, the price
    history, the price and the ticker. *)
Lemma validate_and_size_raises_without_decision (self : t) (world : World)
    (current_price : Q) (ticker : string) :
  snd (validate_and_size self world empty_signal current_price ticker false)
  = Raise (KeyError "decision").
Proof. reflexivity. Qed.

Lemma validate_trade_signal_decision (engine : RiskEngine.t) (signal : Signal) :
  sig_decision (snd (fst (RiskEngine.validate_trade engine signal)))
  = sig_decision signal.
Proof.
  unfold RiskEngine.validate_trade.
  destruct (String.eqb _ "HOLD"); [reflexivity |].
  destruct (_ && Py.eqb _ 0);
    destruct (RiskEngine.rejections _ _ _ _); reflexivity.
Qed.

(** With the backtest skipped the same signal is waved through the risk
    gate as a HOLD, sized, and raises at the order's [signal["decision"]]. *)
Lemma validate_and_size_raises_at_order (world : World) :
  snd (validate_and_size (__init__ empty_config None) world
         empty_signal 100 "INFY" true)
  = Raise (KeyError "decision").
Proof. reflexivity. Qed.


(** What [validate_trade] does to the caller's signal dict. *)
Lemma validate_trade_signal (engine : RiskEngine.t) (signal : Signal) :
  let out := RiskEngine.validate_trade engine signal in
  snd (fst out) = signal
  \/ ((sig_decision signal = Some "BUY" \/ sig_decision signal = Some "SELL")
      /\ stop_missing_or_zero signal
      /\ snd (fst out) = set_stop_loss_pct signal (- (5))
      /\ In no_stop_loss_warning (RiskEngine.warnings (snd out))
      /\ RiskEngine.adjusted_signal (snd out) = snd (fst out)).
Proof.
  unfold RiskEngine.validate_trade.
  destruct (String.eqb (default "HOLD" (sig_decision signal)) "HOLD") eqn:Hhold;
    [left; reflexivity |].
  destruct ((String.eqb (default "HOLD" (sig_decision signal)) "BUY"
             || String.eqb (default "HOLD" (sig_decision signal)) "SELL")
            && Py.eqb (default 0 (sig_stop_loss_pct signal)) 0) eqn:Hfix.
  - right.
    apply andb_true_iff in Hfix. destruct Hfix as [Hside Hzero].
    apply orb_true_iff in Hside. apply eqb_eq in Hzero.
    assert (sig_decision signal = Some "BUY"
            \/ sig_decision signal = Some "SELL") as Hdec.
    { destruct (sig_decision signal) as [d |]; [| discriminate Hhold].
      cbn in Hside. destruct Hside as [Hd | Hd];
        apply String.eqb_eq in Hd; subst; auto. }
    assert (stop_missing_or_zero signal) as Hstop.
    { unfold stop_missing_or_zero.
      destruct (sig_stop_loss_pct signal); [exact Hzero | exact I]. }
    destruct (RiskEngine.rejections _ _ _ _); cbn;
      (split; [exact Hdec |]; split; [exact Hstop |];
       split; [reflexivity |]; split; [| reflexivity]);
      destruct (bool_decide _ && _); cbn; auto.
  - left. destruct (RiskEngine.rejections _ _ _ _); reflexivity.
Qed.

(** The signal dict after a call: either only the ticker was written, or
    also the default stop-loss, and then the risk stage was reached. *)
Lemma validate_and_size_signal (self : t) (world : World) (signal : Signal)
    (current_price : Q) (ticker : string) (skip_backtest : bool) :
  let out := validate_and_size self world signal current_price ticker
               skip_backtest in
  snd (fst out) = set_ticker signal ticker
  \/ ((sig_decision signal = Some "BUY" \/ sig_decision signal = Some "SELL")
      /\ stop_missing_or_zero signal
      /\ snd (fst out) = set_stop_loss_pct (set_ticker signal ticker) (- (5))
      /\ exists r rr,
           snd out = Return r
           /\ step_risk (vr_steps r) = Some rr
           /\ In no_stop_loss_warning (RiskEngine.warnings rr)
           /\ RiskEngine.adjusted_signal rr = snd (fst out)).
Proof.
  unfold validate_and_size.
  destruct (bool_decide _); [left; reflexivity |].
  destruct (backtest_gate _ _ _ _ _) as [bt | e]; [| left; reflexivity].
  destruct (match bt with Ran r => _ | Skipped => _ end);
    [left; reflexivity |].
  pose proof (validate_trade_signal (risk_engine self)
                (set_ticker signal ticker)) as Hsignal.
  destruct (RiskEngine.validate_trade (risk_engine self)
              (set_ticker signal ticker)) as [[engine signal1] rr].
  cbn [fst snd] in Hsignal.
  destruct Hsignal as [-> | [Hside [Hstop [-> [Hwarn Hadj]]]]].
  - destruct (negb _); [left; reflexivity |].
    destruct (_ <=? 0)%Z; [left; reflexivity |].
    destruct (make_order _ _ _ _); left; reflexivity.
  - cbn [sig_decision set_ticker] in Hside.
    right. split; [exact Hside |]. split; [exact Hstop |].
    destruct (negb _); [split; [reflexivity | eauto 10] |].
    destruct (_ <=? 0)%Z; [split; [reflexivity | eauto 10] |].
    unfold make_order. cbn [sig_decision set_stop_loss_pct set_ticker].
    destruct Hside as [-> | ->]; (split; [reflexivity | eauto 10]).
Qed.

(** C8, as the code has it.  A call of [validate_and_size] leaves the
    decision, confidence, target, risk-reward ratio and rationale of the
    caller's signal as they were; it always writes the ticker argument
    into the signal; and it changes the stop-loss only by defaulting a
    missing or zero one to -5.0, on a BUY or SELL that reaches the risk
    stage, whose result then carries the warning. *)
Theorem validate_and_size_writes_ticker_and_stop (self : t) (world : World)
    (signal : Signal) (current_price : Q) (ticker : string)
    (skip_backtest : bool) :
  let out := validate_and_size self world signal current_price ticker
               skip_backtest in
  let after := snd (fst out) in
  same_payload signal after
  /\ sig_ticker after = Some ticker
  /\ (sig_stop_loss_pct after = sig_stop_loss_pct signal
      \/ (stop_missing_or_zero signal
          /\ (sig_decision signal = Some "BUY"
              \/ sig_decision signal = Some "SELL")
          /\ sig_stop_loss_pct after = Some (- (5))
          /\ exists r rr,
               snd out = Return r
               /\ step_risk (vr_steps r) = Some rr
               /\ In no_stop_loss_warning (RiskEngine.warnings rr))).
Proof.
  intros out after. subst after out.
  destruct (validate_and_size_signal self world signal current_price ticker
              skip_backtest)
    as [-> | [Hside [Hstop [-> [r [rr [Hr [Hrisk [Hwarn _]]]]]]]]].
  - split; [repeat split |]. split; [reflexivity |]. left. reflexivity.
  - split; [repeat split |]. split; [reflexivity |]. right.
    split; [exact Hstop |]. split; [exact Hside |]. split; [reflexivity |].
    exists r, rr. auto.
Qed.

(** Case analysis on every test of the goal. *)
Ltac branches :=
  repeat match goal with
         | |- context [if ?c then _ else _] => destruct c
         | |- context [match ?x with _ => _ end] => destruct x
         end.

(** A call leaves the three components of the validator as they were. *)
Lemma validate_and_size_components (self : t) (world : World)
    (signal : Signal) (current_price : Q) (ticker : string)
    (skip_backtest : bool) :
  let after := fst (fst (validate_and_size self world signal current_price
                           ticker skip_backtest)) in
  risk_engine after = risk_engine self
  /\ backtester after = backtester self
  /\ position_sizer after = position_sizer self.
Proof.
  unfold validate_and_size.
  pose proof (validate_trade_returns_engine (risk_engine self)
                (set_ticker signal ticker)) as Hengine.
  destruct (RiskEngine.validate_trade (risk_engine self)
              (set_ticker signal ticker)) as [[engine signal1] rr].
  cbn [fst] in Hengine. subst engine.
  branches; cbn; auto.
Qed.

(** The outcome of a call does not depend on the log. *)
Lemma validate_and_size_frame (self self' : t) (world : World)
    (signal : Signal) (current_price : Q) (ticker : string)
    (skip_backtest : bool) :
  risk_engine self' = risk_engine self ->
  backtester self' = backtester self ->
  position_sizer self' = position_sizer self ->
  let out := validate_and_size self world signal current_price ticker
               skip_backtest in
  let out' := validate_and_size self' world signal current_price ticker
                skip_backtest in
  snd out' = snd out /\ snd (fst out') = snd (fst out).
Proof.
  intros Hengine Hbacktester Hsizer.
  unfold validate_and_size, backtest_gate.
  cbn [with_engine risk_engine backtester position_sizer].
  rewrite Hengine, Hbacktester, Hsizer.
  destruct (RiskEngine.validate_trade (risk_engine self)
              (set_ticker signal ticker)) as [[engine signal1] rr].
  branches; cbn; auto.
Qed.

(** The clock reaches the result through its timestamp only. *)
Lemma validate_and_size_clock (self : t) (history : SimpleBacktester.provider)
    (t1 t2 : string) (signal : Signal) (current_price : Q) (ticker : string)
    (skip_backtest : bool) :
  let out1 := validate_and_size self {| now := t1; yf := history |}
                signal current_price ticker skip_backtest in
  let out2 := validate_and_size self {| now := t2; yf := history |}
                signal current_price ticker skip_backtest in
  snd out2 = restamp t2 (snd out1) /\ snd (fst out2) = snd (fst out1).
Proof.
  unfold validate_and_size, backtest_gate. cbn [now yf].
  destruct (RiskEngine.validate_trade (risk_engine self)
              (set_ticker signal ticker)) as [[engine signal1] rr].
  branches; cbn; auto.
Qed.

(** C7, as the code has it.  A second call of [validate_and_size], made
    on the validator as the first call left it, with an equal signal dict,
    the same price, ticker and flag and the same price history, returns
    the result of the first call in every field but the timestamp, which
    is the time of the second call; it leaves the caller's signal dict as
    the first call did, and the first call left the risk engine as it
    was. *)
Theorem validate_and_size_repeatable (self : t)
    (history : SimpleBacktester.provider) (t1 t2 : string) (signal : Signal)
    (current_price : Q) (ticker : string) (skip_backtest : bool) :
  let first := validate_and_size self {| now := t1; yf := history |}
                 signal current_price ticker skip_backtest in
  let second := validate_and_size (fst (fst first))
                  {| now := t2; yf := history |}
                  signal current_price ticker skip_backtest in
  snd second = restamp t2 (snd first)
  /\ snd (fst second) = snd (fst first)
  /\ risk_engine (fst (fst first)) = risk_engine self.
Proof.
  intros first second.
  destruct (validate_and_size_components self {| now := t1; yf := history |}
              signal current_price ticker skip_backtest)
    as [Hengine [Hbacktester Hsizer]].
  fold first in Hengine, Hbacktester, Hsizer.
  destruct (validate_and_size_frame self (fst (fst first))
              {| now := t2; yf := history |} signal current_price ticker
              skip_backtest Hengine Hbacktester Hsizer) as [Hout Hsignal].
  fold second in Hout, Hsignal.
  destruct (validate_and_size_clock self history t1 t2 signal current_price
              ticker skip_backtest) as [Hstamp Hsame].
  fold first in Hstamp, Hsame.
  rewrite Hout, Hsignal, Hstamp, Hsame. auto.
Qed.

End PipelineFacts.

(** C8 as stated fails: the ticker field of the caller's signal is
    written too. *)
Lemma validate_and_size_touches_ticker :
  ~ Pipeline.untouched_but_stop_loss strong_buy
      (snd (fst (@SignalValidator.validate_and_size example_floats
                   (SignalValidator.__init__ empty_config None)
                   {| SignalValidator.now := "2024-01-01T09:15:00";
                      SignalValidator.yf := SimpleBacktester.ModuleMissing |}
                   strong_buy 1000 "INFY" true))).
Proof.
  intros [_ [Hticker _]]. discriminate Hticker.
Qed.


(** C7 as stated fails: the results of two such calls differ in their
    timestamp. *)
Lemma validate_and_size_timestamps_differ :
  let v := SignalValidator.__init__ empty_config None in
  let history := SimpleBacktester.Downloaded [100; 101] in
  let first :=
    @SignalValidator.validate_and_size example_floats v
      {| SignalValidator.now := "2024-01-01T09:15:00.000100";
         SignalValidator.yf := history |}
      strong_buy 1000 "INFY" false in
  let second :=
    @SignalValidator.validate_and_size example_floats (fst (fst first))
      {| SignalValidator.now := "2024-01-01T09:15:00.000900";
         SignalValidator.yf := history |}
      strong_buy 1000 "INFY" false in
  snd second <> snd first.
Proof.
  intros v history first second Hsame.
  vm_compute in Hsame. discriminate Hsame.
Qed.

(** Passing the very dict of the first call again is another matter: the
    first call has written the default stop-loss into it, so the second
    call, even at the same clock reading, no longer warns. *)
Lemma validate_and_size_same_dict_again :
  let v := SignalValidator.__init__ empty_config None in
  let world :=
    {| SignalValidator.now := "2024-01-01T09:15:00";
       SignalValidator.yf := SimpleBacktester.ModuleMissing |} in
  let first :=
    @SignalValidator.validate_and_size example_floats v world
      buy_without_stop 1000 "INFY" true in
  let second :=
    @SignalValidator.validate_and_size example_floats (fst (fst first)) world
      (snd (fst first)) 1000 "INFY" true in
  snd second <> snd first.
Proof.
  intros v world first second Hsame.
  vm_compute in Hsame. discriminate Hsame.
Qed.



(** * Further properties of the risk engine *)

Section RiskEngineMore.
Context `{PyFloat}.
Import RiskEngine RiskRules RiskBook.

(** A rule that fails rejects the trade, and its message is in the reason. *)
Lemma failing_rule_rejects (self : t) (signal : Signal) (decision m : string) :
  sig_decision signal = Some decision ->
  decision <> "HOLD" ->
  In (true, m)
     (rules self decision (default 0 (sig_confidence signal))
            (default 0 (sig_risk_reward_ratio signal))) ->
  approved (snd (validate_trade self signal)) = false
  /\ contains (reason (snd (validate_trade self signal))) m.
Proof.
  intros Hdec Hhold Hin.
  destruct (validate_trade_verdict self signal decision Hdec Hhold)
    as [Happroved Hreason].
  rewrite rejections_failing in Happroved, Hreason by exact Hhold.
  apply failing_in in Hin.
  destruct (failing _) as [| m0 ms] eqn:Hfail; [destruct Hin |].
  split; [exact Happroved |].
  rewrite Hreason. now apply contains_concat.
Qed.

(** When no rule fails the trade is approved. *)
Lemma no_failing_rule_approves (self : t) (signal : Signal) (decision : string) :
  sig_decision signal = Some decision ->
  decision <> "HOLD" ->
  failing (rules self decision (default 0 (sig_confidence signal))
                 (default 0 (sig_risk_reward_ratio signal))) = [] ->
  approved (snd (validate_trade self signal)) = true
  /\ reason (snd (validate_trade self signal)) = "All risk checks passed".
Proof.
  intros Hdec Hhold Hnone.
  destruct (validate_trade_verdict self signal decision Hdec Hhold)
    as [Happroved Hreason].
  rewrite rejections_failing in Happroved, Hreason by exact Hhold.
  rewrite Hnone in Happroved, Hreason. auto.
Qed.

Lemma daily_loss_kill_switch_rejects (self : t) (signal : Signal) :
  0 < portfolio_value self ->
  daily_pnl self / portfolio_value self * 100 <= - max_daily_loss_pct self ->
  sig_decision signal = Some "BUY" \/ sig_decision signal = Some "SELL" ->
  approved (snd (validate_trade self signal)) = false.
Proof.
  intros Hpv Hloss Hside.
  destruct (side_not_hold signal Hside) as [decision [Hdec Hhold]].
  assert (daily_loss_pct self = daily_pnl self / portfolio_value self * 100)
    as Hpct.
  { unfold daily_loss_pct. apply ltb_lt in Hpv. now rewrite Hpv. }
  eapply (failing_rule_rejects self signal decision _ Hdec Hhold).
  unfold rules.
  assert (Py.leb (daily_loss_pct self) (- max_daily_loss_pct self) = true)
    as -> by (rewrite Hpct; now apply leb_le).
  do 3 right. left. reflexivity.
Qed.


(** X2.  The position-count rule binds BUY only.  A BUY signal is rejected
    with "Max positions (N) already reached" once the engine holds N or
    more positions; a SELL signal whose confidence and risk-reward ratio
    meet the minimums is approved, however many positions are held, as
    long as neither kill switch is on. *)
Theorem max_positions_binds_buy_only :
  (forall (self : t) (signal : Signal),
     sig_decision signal = Some "BUY" ->
     (max_open_positions self <= Z.of_nat (size (positions self)))%Z ->
     approved (snd (validate_trade self signal)) = false
     /\ contains (reason (snd (validate_trade self signal)))
          ("Max positions (" ++ Py.string_of_Z (max_open_positions self)
             ++ ") already reached"))
  /\ (forall (self : t) (signal : Signal) (confidence rr : Q),
        sig_decision signal = Some "SELL" ->
        sig_confidence signal = Some confidence ->
        sig_risk_reward_ratio signal = Some rr ->
        min_confidence self <= confidence ->
        min_risk_reward self <= rr ->
        - max_daily_loss_pct self < daily_loss_pct self ->
        current_drawdown self < max_portfolio_drawdown_pct self ->
        approved (snd (validate_trade self signal)) = true
        /\ reason (snd (validate_trade self signal))
           = "All risk checks passed").
Proof.
  split.
  - intros self signal Hdec Hfull.
    apply (failing_rule_rejects self signal "BUY" _ Hdec); [discriminate |].
    unfold rules.
    assert ((max_open_positions self <=? Z.of_nat (size (positions self)))%Z
            = true) as -> by now apply Z.leb_le.
    do 2 right. left. reflexivity.
  - intros self signal confidence rr Hdec Hconf Hrr Hc Hr Hloss Hdd.
    apply (no_failing_rule_approves self signal "SELL" Hdec); [discriminate |].
    unfold rules, failing. rewrite Hconf, Hrr. cbn [from_option id].
    apply ltb_ge in Hc, Hr. apply leb_gt in Hloss, Hdd.
    rewrite Hc, Hr, Hloss, Hdd, andb_false_r. reflexivity.
Qed.


(** X4.  Register, then close: after [register_position] and
    [close_position] on the same ticker the ticker is no longer held (a
    position held for it before is gone too), the other positions are as
    before, and the portfolio value and the daily P&L have both moved by
    exactly the realized P&L of the registered position; the returned
    record reports that P&L rounded to two decimals. *)
Theorem register_close_round_trip (self : t) (now ticker : string)
    (quantity : Z) (price stop_loss target : Q) (side : string)
    (exit_price : Q) :
  let held :=
    register_position self now ticker quantity price stop_loss target side in
  let after := fst (close_position held ticker exit_price) in
  let pnl := realized side price exit_price quantity in
  positions after = delete ticker (positions self)
  /\ positions after !! ticker = None
  /\ portfolio_value after = portfolio_value self + pnl
  /\ daily_pnl after = daily_pnl self + pnl
  /\ snd (close_position held ticker exit_price)
     = Closed ticker (Py.round 2 pnl) price exit_price quantity now.
Proof.
  intros held after pnl. subst held after pnl.
  unfold close_position, register_position, realized.
  cbn [positions with_state]. rewrite lookup_insert_eq.
  cbn [fst snd positions portfolio_value daily_pnl with_state pos_side
       pos_entry_price pos_quantity pos_entry_time].
  rewrite delete_insert_eq.
  repeat split. apply lookup_delete_eq.
Qed.

(** X5.  Marking to market agrees with closing: [update_position] at a
    price records as unrealized P&L exactly the amount by which
    [close_position] at that price then moves the portfolio value; until
    the close, the portfolio value, the daily P&L and the peak are as
    they were. *)
Theorem mark_to_market_matches_close (self : t) (ticker : string)
    (pos : Position) (price : Q) :
  positions self !! ticker = Some pos ->
  let marked := update_position self ticker price in
  exists pos' : Position,
    positions marked !! ticker = Some pos'
    /\ pos_current_price pos' = price
    /\ pos_unrealized_pnl pos'
       = realized (pos_side pos) (pos_entry_price pos) price (pos_quantity pos)
    /\ portfolio_value marked = portfolio_value self
    /\ daily_pnl marked = daily_pnl self
    /\ peak_value marked = peak_value self
    /\ portfolio_value (fst (close_position marked ticker price))
       = portfolio_value self + pos_unrealized_pnl pos'.
Proof.
  intros Hheld marked. subst marked.
  unfold update_position. rewrite Hheld.
  eexists. split.
  { cbn [positions with_state]. apply lookup_insert_eq. }
  cbn [pos_current_price pos_unrealized_pnl portfolio_value daily_pnl
       peak_value with_state].
  repeat split.
  unfold close_position. cbn [positions with_state].
  rewrite lookup_insert_eq.
  cbn [fst portfolio_value with_state pos_side pos_entry_price pos_quantity].
  unfold realized. destruct (String.eqb (pos_side pos) "BUY"); reflexivity.
Qed.

Lemma perform_day_open_value (self : t) (c : call) :
  not_reset c -> day_open_value (perform self c) == day_open_value self.
Proof.
  unfold day_open_value. intros Hkept. destruct c; cbn [perform].
  - rewrite validate_trade_returns_engine. reflexivity.
  - reflexivity.
  - unfold update_position. destruct (positions self !! ticker); reflexivity.
  - unfold close_position.
    destruct (positions self !! ticker) as [pos |]; [| reflexivity].
    cbn [fst portfolio_value daily_pnl with_state]. ring.
  - destruct Hkept.
Qed.

Lemma run_day_open_value (self : t) (calls : list call) :
  Forall not_reset calls ->
  day_open_value (run self calls) == day_open_value self.
Proof.
  intros Hkept. revert self.
  induction Hkept as [| c calls Hc Hcalls IH]; intros self; [reflexivity |].
  unfold run in *. cbn [fold_left]. rewrite IH.
  now apply perform_day_open_value.
Qed.


Lemma perform_same_limits (self : t) (c : call) :
  same_limits (perform self c) self.
Proof.
  destruct c; cbn [perform].
  - rewrite validate_trade_returns_engine. repeat split.
  - repeat split.
  - unfold update_position. destruct (positions self !! ticker); repeat split.
  - unfold close_position.
    destruct (positions self !! ticker); repeat split.
  - repeat split.
Qed.

Lemma run_same_limits (self : t) (calls : list call) :
  same_limits (run self calls) self.
Proof.
  revert self. induction calls as [| c calls IH]; intros self;
    [repeat split |].
  unfold run in *. cbn [fold_left].
  destruct (IH (perform self c)) as (H1 & H2 & H3 & H4 & H5 & H6 & H7).
  destruct (perform_same_limits self c) as (G1 & G2 & G3 & G4 & G5 & G6 & G7).
  repeat split; congruence.
Qed.

(** X7.  The persisted state reloads: an engine constructed over the
    document written by [_save_state] has the portfolio value, the peak
    value, the daily P&L and the positions of the engine that wrote it,
    whatever the configuration; constructed with the configuration of the
    writing engine it is that engine, at any point of any run. *)
Theorem saved_state_reloads :
  (forall (config : Config) (self : t),
     let again := __init__ config (Some (_save_state self)) in
     portfolio_value again = portfolio_value self
     /\ peak_value again = peak_value self
     /\ daily_pnl again = daily_pnl self
     /\ positions again = positions self)
  /\ (forall (config : Config) (file : option PersistedState)
             (calls : list call),
        __init__ config
          (Some (_save_state (run (__init__ config file) calls)))
        = run (__init__ config file) calls).
Proof.
  split.
  - intros config self. cbn. repeat split.
  - intros config file calls.
    pose proof (run_same_limits (__init__ config file) calls) as Hlimits.
    assert (same_limits (__init__ config file) (__init__ config None))
      as Hconfig by (destruct file; repeat split).
    destruct (run (__init__ config file) calls) as
      [dd sp se dl mo rr mc pv pos pnl peak].
    destruct Hlimits as (H1 & H2 & H3 & H4 & H5 & H6 & H7).
    destruct Hconfig as (G1 & G2 & G3 & G4 & G5 & G6 & G7).
    cbn [max_portfolio_drawdown_pct max_single_position_pct
         max_sector_exposure_pct max_daily_loss_pct max_open_positions
         min_risk_reward min_confidence] in H1, H2, H3, H4, H5, H6, H7.
    rewrite G1 in H1. rewrite G2 in H2. rewrite G3 in H3. rewrite G4 in H4.
    rewrite G5 in H5. rewrite G6 in H6. rewrite G7 in H7.
    cbn in H1, H2, H3, H4, H5, H6, H7. subst.
    reflexivity.
Qed.

Lemma check_stop_losses_lists (self : t) (ticker : string) :
  ticker ∈ check_stop_losses self
  <-> exists pos : Position,
        positions self !! ticker = Some pos /\ stop_loss_hit pos = true.
Proof.
  unfold check_stop_losses. rewrite elem_of_dom. unfold is_Some.
  split.
  - intros [pos Hpos]. apply map_lookup_filter_Some in Hpos.
    exists pos. exact Hpos.
  - intros [pos [Hpos Hhit]]. exists pos.
    apply map_lookup_filter_Some. split; [exact Hpos | exact Hhit].
Qed.

(** X8.  The stop-loss scan after a mark: once [update_position] has
    marked a held position to a price, [check_stop_losses] lists its
    ticker exactly when the price is at or below the stop for a BUY
    position, and at or above the stop for a SELL position; a position of
    any other side is never listed; the listing of every other ticker is
    unchanged by the mark. *)
Theorem stop_loss_scan_after_mark (self : t) (ticker : string)
    (pos : Position) (price : Q) :
  positions self !! ticker = Some pos ->
  (pos_side pos = "BUY" ->
   (ticker ∈ check_stop_losses (update_position self ticker price)
    <-> price <= pos_stop_loss pos))
  /\ (pos_side pos = "SELL" ->
      (ticker ∈ check_stop_losses (update_position self ticker price)
       <-> pos_stop_loss pos <= price))
  /\ (pos_side pos <> "BUY" -> pos_side pos <> "SELL" ->
      ticker ∉ check_stop_losses (update_position self ticker price))
  /\ (forall other : string,
        other <> ticker ->
        (other ∈ check_stop_losses (update_position self ticker price)
         <-> other ∈ check_stop_losses self)).
Proof.
  intros Hheld.
  assert (forall hit : Prop,
            (forall pos' : Position,
               pos_side pos' = pos_side pos ->
               pos_current_price pos' = price ->
               pos_stop_loss pos' = pos_stop_loss pos ->
               (stop_loss_hit pos' = true <-> hit)) ->
            (ticker ∈ check_stop_losses (update_position self ticker price)
             <-> hit)) as Hmark.
  { intros hit Hhit. rewrite check_stop_losses_lists.
    unfold update_position. rewrite Hheld. cbn [positions with_state].
    split.
    - intros [pos' [Hpos' Hfires]]. rewrite lookup_insert_eq in Hpos'.
      injection Hpos' as <-. now apply Hhit in Hfires.
    - intros Hyes. eexists. split; [apply lookup_insert_eq |].
      now apply Hhit. }
  split; [| split; [| split]].
  - intros Hside. apply Hmark. intros pos' Hs Hc Hl.
    unfold stop_loss_hit. rewrite Hs, Hc, Hl, Hside. cbn.
    destruct (Py.leb price (pos_stop_loss pos)) eqn:Hle.
    + apply leb_le in Hle. tauto.
    + apply leb_gt in Hle. split; [discriminate |].
      intros Hbad. exfalso. eapply Qlt_not_le; eauto.
  - intros Hside. apply Hmark. intros pos' Hs Hc Hl.
    unfold stop_loss_hit. rewrite Hs, Hc, Hl, Hside. cbn.
    destruct (Py.leb (pos_stop_loss pos) price) eqn:Hle.
    + apply leb_le in Hle. tauto.
    + apply leb_gt in Hle. split; [discriminate |].
      intros Hbad. exfalso. eapply Qlt_not_le; eauto.
  - intros Hbuy Hsell Hin.
    apply (Hmark False) in Hin; [exact Hin |].
    intros pos' Hs Hc Hl. unfold stop_loss_hit. rewrite Hs.
    apply String.eqb_neq in Hbuy, Hsell. rewrite Hbuy, Hsell. cbn.
    split; [discriminate | tauto].
  - intros other Hother. rewrite !check_stop_losses_lists.
    unfold update_position. rewrite Hheld. cbn [positions with_state].
    rewrite lookup_insert_ne by congruence. reflexivity.
Qed.

End RiskEngineMore.

(** * Further properties of the position sizer *)

Section PositionSizerMore.
Import PositionSizer Sizing.

Lemma int_below (x : Q) : (1 <= Py.int x)%Z -> Py.of_int (Py.int x) <= x.
Proof.
  unfold Py.int, Py.of_int, inject_Z, Qle. destruct x as [n d]. cbn.
  intros Hq. pose proof (Pos2Z.is_pos d) as Hd.
  Z.to_euclidean_division_equations. nia.
Qed.

Lemma int_of_small (x : Q) : x < 1 -> (Py.int x <= 0)%Z.
Proof.
  unfold Py.int, Qlt. destruct x as [n d]. cbn.
  intros Hx. pose proof (Pos2Z.is_pos d) as Hd.
  Z.to_euclidean_division_equations. nia.
Qed.

(** X9.  The sizer returns quantity 0 exactly when it rejects (a price
    at or below 0, or a portfolio value in effect at or below 0); on
    every other input the quantity is at least 1, whatever the three
    candidates are. *)
Theorem quantity_zero_iff_rejected (self : t) (price sl tp conf : Q)
    (pv_arg : option Q) :
  (quantity (calculate_position self price sl tp conf pv_arg) = 0%Z
   <-> price <= 0 \/ pv_in_effect self pv_arg <= 0)
  /\ (quantity (calculate_position self price sl tp conf pv_arg) <> 0%Z ->
      (1 <= quantity (calculate_position self price sl tp conf pv_arg))%Z
      /\ method (calculate_position self price sl tp conf pv_arg)
         = "min(risk_limit, half_kelly, max_position)").
Proof.
  unfold calculate_position.
  destruct (Py.leb price 0 || Py.leb (pv_in_effect self pv_arg) 0) eqn:Hbad.
  - apply orb_true_iff in Hbad. rewrite !leb_le in Hbad.
    cbn [quantity _empty_result]. split; [tauto |]. intros Hq. now destruct Hq.
  - apply orb_false_iff in Hbad. rewrite !leb_gt in Hbad.
    destruct Hbad as [Hprice Hpv]. cbn [quantity method]. split.
    + split; [intros Hq; exfalso; lia |].
      intros [Hle | Hle]; exfalso;
        [exact (Qlt_not_le _ _ Hprice Hle) | exact (Qlt_not_le _ _ Hpv Hle)].
    + intros _. split; [lia | reflexivity].
Qed.

Lemma le_div_mult (a b c : Q) : 0 < c -> a <= b / c -> a * c <= b.
Proof.
  intros Hc Hle.
  assert (b == b / c * c) as -> by (field; intros Hz; rewrite Hz in Hc;
                                    exact (Qlt_irrefl 0 Hc)).
  apply Qmult_le_compat_r; [exact Hle | now apply Qlt_le_weak].
Qed.

Lemma of_int_le (a b : Z) : (a <= b)%Z -> Py.of_int a <= Py.of_int b.
Proof. unfold Py.of_int. now rewrite <- Zle_Qle. Qed.

(** A candidate of at least one share, times the price of what it buys,
    stays within the budget it was cut from. *)
Lemma candidate_within_budget (budget unit : Q) (q : Z) :
  0 < unit ->
  (1 <= q)%Z ->
  (q <= Py.int (budget / unit))%Z ->
  Py.of_int q * unit <= budget.
Proof.
  intros Hunit Hone Hq.
  apply le_div_mult; [exact Hunit |].
  eapply Qle_trans; [apply of_int_le; exact Hq |].
  apply int_below. lia.
Qed.

Lemma stop_distance_abs (sl : Q) :
  Py.abs (if negb (Py.eqb sl 0) then - Py.abs sl else - (5))
  == stop_distance sl.
Proof.
  unfold stop_distance, Py.abs. destruct (Py.eqb sl 0); cbn [negb].
  - reflexivity.
  - rewrite Qabs_opp. apply Qabs_pos. apply Qabs_nonneg.
Qed.

Lemma stop_distance_pos (sl : Q) : 0 < stop_distance sl.
Proof.
  unfold stop_distance, Py.abs. destruct (Py.eqb sl 0) eqn:Hz; [reflexivity |].
  apply eqb_neq in Hz. revert Hz.
  destruct sl as [n d]. unfold Qeq, Qlt, Qabs. cbn. lia.
Qed.


(** X11.  The floor of one share overrides the position cap: when a
    single share costs more than [max_position_pct] percent of the
    portfolio value in effect, the sizer still returns one share, whose
    cost is above the cap. *)
Theorem one_share_floor_exceeds_cap (self : t) (price sl tp conf : Q)
    (pv_arg : option Q) :
  0 < price ->
  0 < pv_in_effect self pv_arg ->
  pv_in_effect self pv_arg * (max_position_pct self / 100) < price ->
  quantity (calculate_position self price sl tp conf pv_arg) = 1%Z
  /\ pv_in_effect self pv_arg * (max_position_pct self / 100)
     < Py.of_int (quantity (calculate_position self price sl tp conf pv_arg))
       * price.
Proof.
  intros Hprice Hpv Hcap. unfold calculate_position.
  assert (Py.leb price 0 || Py.leb (pv_in_effect self pv_arg) 0 = false) as ->.
  { apply orb_false_iff. split; now apply leb_gt. }
  cbn [quantity].
  assert (Py.ltb 0 price = true) as -> by now apply ltb_lt.
  assert (Py.int (pv_in_effect self pv_arg * (max_position_pct self / 100)
                  / price) <= 0)%Z as Hmax.
  { apply int_of_small. apply Qlt_shift_div_r; [exact Hprice |].
    now rewrite Qmult_1_l. }
  assert (forall a b c : Z, (c <= 0)%Z -> Z.max 1 (Z.min a (Z.min b c)) = 1%Z)
    as Hfloor by lia.
  rewrite Hfloor by exact Hmax.
  split; [reflexivity |].
  unfold Py.of_int. now rewrite Qmult_1_l.
Qed.

End PositionSizerMore.

(** * Further properties of the backtester *)

Section BacktesterMore.
Context `{PyFloat}.
Import Py SimpleBacktester.

Lemma entries_loop_length (closes : list Q) (decision : string)
    (stop target : Q) (hold_days : Z) (indices : list nat) :
  forall acc returns : list fval,
    entries_loop closes decision stop target hold_days indices acc
    = Return returns ->
    length returns = (length acc + length indices)%nat.
Proof.
  induction indices as [| i rest IH]; intros acc returns Hloop.
  - cbn in Hloop. injection Hloop as <-. cbn. lia.
  - cbn [entries_loop] in Hloop. unfold mbind, res_bind in Hloop.
    destruct (simulate_entry closes decision stop target hold_days i)
      as [v |]; [| discriminate].
    rewrite (IH _ _ Hloop). unfold append. rewrite length_app. cbn. lia.
Qed.

Lemma entry_indices_length (stop : Z) :
  Z.of_nat (length (entry_indices stop)) = Z.max 0 ((stop + 4) / 5).
Proof.
  unfold entry_indices. rewrite length_map, length_seq. lia.
Qed.

Lemma entry_indices_none (stop : Z) : (stop <= 0)%Z -> entry_indices stop = [].
Proof.
  intros Hstop. unfold entry_indices.
  replace (Z.to_nat ((stop + 4) / 5)) with 0%nat; [reflexivity |].
  assert ((stop + 4) / 5 <= 0)%Z; [| lia].
  Z.to_euclidean_division_equations. lia.
Qed.

(** X12.  One trade per entry, an entry every five bars: with a hold
    window of 0 or more [_simulate_trades] returns, and the number of
    returns is the number of multiples of 5 below
    [len(closes) - hold_days], that is (len - hold + 4) // 5, and none
    when the window is at least as long as the series. *)
Theorem simulate_trades_count (closes : list Q) (decision : string)
    (sl tp : Q) (hold_days : Z) :
  (0 <= hold_days)%Z ->
  exists returns : list fval,
    _simulate_trades closes decision sl tp hold_days = Return returns
    /\ Z.of_nat (length returns)
       = Z.max 0 ((Z.of_nat (length closes) - hold_days + 4) / 5)
    /\ ((Z.of_nat (length closes) <= hold_days)%Z -> returns = []).
Proof.
  intros Hhold. unfold _simulate_trades.
  destruct (entries_loop_returns closes decision sl tp hold_days
              (entry_indices (Z.of_nat (length closes) - hold_days)))
    with (acc := @nil fval) as [returns Hloop].
  { apply Forall_forall. intros i Hi.
    apply list_elem_of_In, entry_indices_lt in Hi. lia. }
  exists returns. split; [exact Hloop |].
  pose proof (entries_loop_length _ _ _ _ _ _ _ _ Hloop) as Hlen.
  cbn [length plus] in Hlen. split.
  - rewrite Hlen. apply entry_indices_length.
  - intros Hlong. rewrite entry_indices_none in Hlen by lia.
    destruct returns; [reflexivity | discriminate Hlen].
Qed.

Lemma windows_loop_none (closes : list Q) (decision : string) (sl tp : Q)
    (windows : list Z) (all_results : list (string * window_stats)) :
  Forall (fun w => (Z.of_nat (length closes) <= w)%Z) windows ->
  windows_loop closes decision sl tp windows all_results = Return all_results.
Proof.
  induction 1 as [| w windows Hw Hwindows IH]; [reflexivity |].
  cbn [windows_loop]. unfold _simulate_trades.
  rewrite entry_indices_none by lia. cbn. exact IH.
Qed.

(** X13.  Windows that do not fit the data: when there are at least 30
    observations but every configured hold window is at least as long as
    the series, no trade is simulated and [backtest_signal] approves a
    BUY or SELL by default, with the reason "No valid backtest trades
    generated". *)
Theorem backtest_without_fitting_window (self : t) (closes : list Q)
    (ticker decision : string) (sl tp : Q) :
  decision <> "HOLD" ->
  (30 <= length closes)%nat ->
  test_windows self <> [] ->
  Forall (fun w => (Z.of_nat (length closes) <= w)%Z) (test_windows self) ->
  backtest_signal self (Downloaded closes) ticker decision sl tp
  = approve_by_default "No valid backtest trades generated".
Proof.
  intros Hhold Hlen Hsome Hlong. apply String.eqb_neq in Hhold.
  unfold backtest_signal, fetch_and_test. rewrite Hhold.
  destruct (test_windows self) as [| w ws] eqn:Hwindows; [congruence |].
  unfold max_window, mbind, res_bind.
  assert (Nat.eqb (length closes) 0 || Nat.ltb (length closes) 30 = false)
    as ->.
  { apply orb_false_iff. split; [apply Nat.eqb_neq | apply Nat.ltb_ge]; lia. }
  rewrite windows_loop_none by exact Hlong. reflexivity.
Qed.

Lemma pow10_pos (d : nat) : (0 < pow10 d)%Z.
Proof. unfold pow10. apply Z.pow_pos_nonneg; lia. Qed.

Lemma round_half_even_pos_bounds (n : Z) (d : positive) :
  (0 <= n)%Z ->
  (0 <= round_half_even_pos n d)%Z
  /\ (forall k : Z, (n <= k * Zpos d)%Z -> (round_half_even_pos n d <= k)%Z).
Proof.
  intros Hn. unfold round_half_even_pos.
  pose proof (Pos2Z.is_pos d) as Hd.
  pose proof (Z.div_mod n (Zpos d) ltac:(lia)) as Hdiv.
  pose proof (Z.mod_pos_bound n (Zpos d) Hd) as Hmod.
  assert (0 <= n / Zpos d)%Z as Hq by (apply Z.div_pos; lia).
  revert Hdiv Hmod Hq.
  generalize (n / Zpos d)%Z (n mod Zpos d)%Z. intros q r Hdiv Hmod Hq.
  assert (forall k : Z, (n <= k * Zpos d)%Z -> (q <= k)%Z) as Hle.
  { intros k Hk. apply Z.nlt_ge. intros Hlt.
    assert ((k + 1) * Zpos d <= q * Zpos d)%Z
      by (apply Z.mul_le_mono_nonneg_r; lia).
    lia. }
  assert (forall k : Z, (0 < r)%Z -> (n <= k * Zpos d)%Z -> (q + 1 <= k)%Z)
    as Hlt.
  { intros k Hr Hk. apply Z.nlt_ge. intros Hlt.
    assert (k * Zpos d <= q * Zpos d)%Z
      by (apply Z.mul_le_mono_nonneg_r; lia).
    lia. }
  destruct (Z.compare_spec (2 * r) (Zpos d)) as [He | Hl | Hg].
  - destruct (Z.even q); split; try lia; intros k Hk;
      [apply Hle | apply Hlt]; lia.
  - split; [lia |]. intros k Hk. now apply Hle.
  - split; [lia |]. intros k Hk. apply Hlt; lia.
Qed.

Lemma round_nonneg (d : nat) (x : Q) : 0 <= x -> 0 <= Py.round d x.
Proof.
  intros Hx. unfold Py.round, scaled_round. destruct x as [n den].
  unfold Qle in *. cbn in *.
  assert (0 <= n)%Z as Hn by lia.
  assert ((n <? 0)%Z = false) as -> by now apply Z.ltb_ge.
  pose proof (pow10_pos d) as Hp.
  destruct (round_half_even_pos_bounds (Z.abs n * pow10 d) den) as [Hz _];
    [nia |].
  lia.
Qed.

Lemma round_at_most_one (d : nat) (x : Q) :
  0 <= x -> x <= 1 -> Py.round d x <= 1.
Proof.
  intros Hx Hone. unfold Py.round, scaled_round. destruct x as [n den].
  unfold Qle in *. cbn in *.
  assert (0 <= n)%Z as Hn by lia.
  assert ((n <? 0)%Z = false) as -> by now apply Z.ltb_ge.
  pose proof (pow10_pos d) as Hp.
  destruct (round_half_even_pos_bounds (Z.abs n * pow10 d) den) as [_ Hk];
    [nia |].
  specialize (Hk (pow10 d)). rewrite Z2Pos.id by exact Hp.
  rewrite Z.abs_eq in Hk by exact Hn.
  assert (n * pow10 d <= pow10 d * Zpos den)%Z as Hscaled.
  { rewrite (Z.mul_comm (pow10 d)). apply Z.mul_le_mono_nonneg_r; lia. }
  specialize (Hk Hscaled). rewrite Z.abs_eq by exact Hn. lia.
Qed.

Lemma round_of_zero (d : nat) (x : Q) : x == 0 -> Py.round d x == 0.
Proof.
  unfold Py.round, scaled_round, Qeq. destruct x as [n den]. cbn.
  intros Hx. assert (n = 0%Z) as -> by lia. reflexivity.
Qed.

(** The state of the drawdown loop: the running sum never exceeds the
    peak, and the largest drop is never negative. *)
Lemma drawdown_loop_sound (returns : list Q) :
  forall cumulative peak max_dd : Q,
    cumulative <= peak ->
    0 <= max_dd ->
    0 <= snd (fold_left drawdown_step returns (cumulative, peak, max_dd)).
Proof.
  induction returns as [| r rest IH]; intros cumulative peak max_dd Hc Hm;
    [exact Hm |].
  cbn [fold_left drawdown_step].
  apply IH.
  - destruct (ltb peak (cumulative + r)) eqn:Hhigh.
    + apply Qle_refl.
    + now apply ltb_ge in Hhigh.
  - destruct (ltb max_dd _) eqn:Hdeeper; [| exact Hm].
    apply ltb_lt in Hdeeper. eapply Qle_trans; [exact Hm |].
    now apply Qlt_le_weak.
Qed.

(** With no losing trade the running sum is always at its peak. *)
Lemma drawdown_loop_flat (returns : list Q) :
  Forall (fun r => 0 <= r) returns ->
  forall cumulative peak max_dd : Q,
    cumulative == peak ->
    max_dd == 0 ->
    snd (fold_left drawdown_step returns (cumulative, peak, max_dd)) == 0.
Proof.
  induction 1 as [| r rest Hr Hrest IH]; intros cumulative peak max_dd Hc Hm;
    [exact Hm |].
  cbn [fold_left drawdown_step].
  assert ((if ltb peak (cumulative + r) then cumulative + r else peak)
          == cumulative + r) as Hpeak.
  { destruct (ltb peak (cumulative + r)) eqn:Hhigh; [reflexivity |].
    apply ltb_ge in Hhigh. lra. }
  apply IH.
  - symmetry. exact Hpeak.
  - destruct (ltb max_dd _) eqn:Hdeeper; [| exact Hm].
    apply ltb_lt in Hdeeper. lra.
Qed.

Lemma all_finite_map (returns : list Q) :
  all_finite (List.map Fin returns) = Some returns.
Proof.
  induction returns as [| r rest IH]; [reflexivity |].
  cbn. now rewrite IH.
Qed.

Lemma len_nonneg (l : list Q) : 0 <= len l.
Proof. unfold len, Qle. cbn. lia. Qed.

Lemma len_filter_le (f : Q -> bool) (l : list Q) :
  len (List.filter f l) <= len l.
Proof.
  unfold len. rewrite <- Zle_Qle. apply inj_le.
  induction l as [| x l IH]; cbn; [lia |].
  destruct (f x); cbn; lia.
Qed.

(** X14.  The statistics of a non-empty list of finite returns:
    [_compute_stats] returns, the trade count is the number of returns,
    the win rate lies between 0 and 1, the maximum drawdown is never
    negative, and it is zero when no trade loses. *)
Theorem compute_stats_ranges (returns : list Q) :
  returns <> [] ->
  exists (st : window_stats) (w dd : Q),
    _compute_stats (List.map Fin returns) = Return st
    /\ ws_trade_count st = length returns
    /\ ws_win_rate st = Fin w
    /\ 0 <= w /\ w <= 1
    /\ ws_max_drawdown_pct st = Fin dd
    /\ 0 <= dd
    /\ (Forall (fun r => 0 <= r) returns -> dd == 0).
Proof.
  intros Hsome. destruct returns as [| r rest]; [congruence |].
  unfold _compute_stats. cbn [List.map].
  change (Fin r :: List.map Fin rest) with (List.map Fin (r :: rest)).
  rewrite all_finite_map.
  assert (0 < len (r :: rest)) as Hlen.
  { unfold len, Qlt. cbn. lia. }
  remember (r :: rest) as returns eqn:Hreturns. clear Hreturns Hsome.
  assert (0 <= len (List.filter (fun r => ltb 0 r) returns) / len returns
          /\ len (List.filter (fun r => ltb 0 r) returns) / len returns <= 1)
    as [Hlow Hhigh].
  { split.
    - apply Qle_shift_div_l; [exact Hlen |]. rewrite Qmult_0_l.
      apply len_nonneg.
    - apply Qle_shift_div_r; [exact Hlen |]. rewrite Qmult_1_l.
      apply len_filter_le. }
  eexists. eexists. eexists. split; [reflexivity |].
  cbn [finite_stats ws_trade_count ws_win_rate ws_max_drawdown_pct].
  split; [reflexivity |]. split; [reflexivity |].
  split; [now apply round_nonneg |].
  split; [now apply round_at_most_one |].
  split; [reflexivity |].
  split.
  - apply round_nonneg. unfold max_drawdown.
    apply drawdown_loop_sound; apply Qle_refl.
  - intros Hwins. apply round_of_zero. unfold max_drawdown.
    apply drawdown_loop_flat; [exact Hwins | reflexivity | reflexivity].
Qed.

Import Verdict.

(** A result with a per-window breakdown was built from the
    representative window. *)
Lemma backtest_signal_of_window (self : t) (yf : provider)
    (ticker decision : string) (sl tp : Q)
    (ws : list (string * window_stats)) :
  all_windows (backtest_signal self yf ticker decision sl tp) = Some ws ->
  exists (first : string * window_stats) (others : list (string * window_stats)),
    ws = first :: others
    /\ backtest_signal self yf ticker decision sl tp
       = of_window (fst (best_of first others)) (snd (best_of first others)) ws.
Proof.
  unfold backtest_signal.
  destruct (String.eqb decision "HOLD"); [discriminate |].
  destruct yf as [| e | closes]; [discriminate | |].
  - unfold fetch_and_test, mbind, res_bind.
    destruct (max_window (test_windows self)); discriminate.
  - unfold fetch_and_test, mbind, res_bind.
    destruct (max_window (test_windows self)); [| discriminate].
    destruct (_ || _); [discriminate |].
    destruct (windows_loop closes decision sl tp (test_windows self) [])
      as [all_results |]; [| discriminate].
    destruct all_results as [| first others]; [discriminate |].
    destruct (best_of first others) as [best_window best] eqn:Hbest.
    cbn [all_windows]. intros Hws. injection Hws as <-.
    exists first, others. split; [reflexivity |].
    rewrite Hbest. reflexivity.
Qed.

(** X15.  The verdict names every failing criterion.  For a result with a
    per-window breakdown and finite statistics, [backtest_signal]
    approves exactly when the win rate is at least 0.4, the Sharpe ratio
    at least 0.5 and the maximum drawdown at most 25; an approving reason
    is "Backtest passed (<window> hold)"; and each criterion that fails
    has its own message in the reason, whether or not the others fail. *)
Theorem backtest_verdict_names_failures (self : t) (yf : provider)
    (ticker decision : string) (sl tp w sh dd : Q)
    (ws : list (string * window_stats)) :
  let r := backtest_signal self yf ticker decision sl tp in
  all_windows r = Some ws ->
  win_rate r = Fin w ->
  sharpe_ratio r = Fin sh ->
  max_drawdown_pct r = Fin dd ->
  (approved r = true <-> (4 # 10) <= w /\ (5 # 10) <= sh /\ dd <= 25)
  /\ (approved r = true ->
      exists window : string,
        best_hold_period r = Some window
        /\ reason r = "Backtest passed (" ++ window ++ " hold)")
  /\ (w < (4 # 10) ->
      contains (reason r) ("Low win rate: " ++ format_fixed 0 (w * 100) ++ "%"))
  /\ (sh < (5 # 10) ->
      contains (reason r) ("Low Sharpe: " ++ format_fixed 2 sh))
  /\ (25 < dd ->
      contains (reason r) ("High drawdown: " ++ format_fixed 1 dd ++ "%")).
Proof.
  intros r Hws. subst r.
  destruct (backtest_signal_of_window _ _ _ _ _ _ _ Hws)
    as [first [others [_ ->]]].
  generalize (best_of first others). intros [window best].
  unfold of_window.
  cbn [fst snd win_rate sharpe_ratio max_drawdown_pct approved reason
       best_hold_period].
  intros -> -> ->. cbn [fltb fformat_percent fformat_fixed fscale].
  split; [| split; [| split; [| split]]].
  - rewrite !andb_true_iff, !fleb_fin. tauto.
  - rewrite !andb_true_iff, !fleb_fin. intros [[Hw Hs] Hd].
    exists window. split; [reflexivity |].
    apply ltb_ge in Hw, Hs, Hd. now rewrite Hw, Hs, Hd.
  - intros Hw. apply ltb_lt in Hw. rewrite Hw.
    destruct (ltb sh (5 # 10)); destruct (ltb 25 dd); cbn [append app];
      apply contains_concat; cbn; auto.
  - intros Hs. apply ltb_lt in Hs. rewrite Hs.
    destruct (ltb w (4 # 10)); destruct (ltb 25 dd); cbn [append app];
      apply contains_concat; cbn; auto.
  - intros Hd. apply ltb_lt in Hd. rewrite Hd.
    destruct (ltb w (4 # 10)); destruct (ltb sh (5 # 10)); cbn [append app];
      apply contains_concat; cbn; auto.
Qed.

(** [max(..., key=sharpe)] over finite Sharpe ratios: the pick is one of
    the windows and no window beats it. *)
Lemma best_of_highest (others : list (string * window_stats)) :
  forall first : string * window_stats,
    finite_sharpe first ->
    Forall finite_sharpe others ->
    In (best_of first others) (first :: others)
    /\ finite_sharpe (best_of first others)
    /\ Forall (fun kv =>
                 fleb (ws_sharpe_ratio (snd kv))
                      (ws_sharpe_ratio (snd (best_of first others))) = true)
              (first :: others).
Proof.
  induction others as [| cand rest IH]; intros first Hfirst Hothers.
  - cbn [best_of]. split; [now left |]. split; [exact Hfirst |].
    constructor; [| constructor].
    destruct Hfirst as [q ->]. apply fleb_fin. apply Qle_refl.
  - apply Forall_cons in Hothers. destruct Hothers as [Hcand Hrest].
    cbn [best_of].
    destruct (fltb (ws_sharpe_ratio (snd first)) (ws_sharpe_ratio (snd cand)))
      eqn:Hbetter.
    + destruct (IH cand Hcand Hrest) as [Hin [Hfin Hmax]].
      split; [now right |]. split; [exact Hfin |].
      constructor; [| exact Hmax].
      apply Forall_cons in Hmax. destruct Hmax as [Hc _].
      destruct Hfirst as [a Ha]. destruct Hcand as [b Hb].
      destruct Hfin as [c Hc'].
      rewrite Ha, Hb in Hbetter. rewrite Hb, Hc' in Hc. rewrite Ha, Hc'.
      cbn [fltb] in Hbetter. apply ltb_lt in Hbetter.
      apply fleb_fin in Hc. apply fleb_fin. lra.
    + destruct (IH first Hfirst Hrest) as [Hin [Hfin Hmax]].
      split; [destruct Hin as [<- | Hin]; [now left | now right; right] |].
      split; [exact Hfin |].
      apply Forall_cons in Hmax. destruct Hmax as [Hf Hrest'].
      constructor; [exact Hf |]. constructor; [| exact Hrest'].
      destruct Hfirst as [a Ha]. destruct Hcand as [b Hb].
      destruct Hfin as [c Hc'].
      rewrite Ha, Hb in Hbetter. rewrite Ha, Hc' in Hf. rewrite Hb, Hc'.
      cbn [fltb] in Hbetter. apply ltb_ge in Hbetter.
      apply fleb_fin in Hf. apply fleb_fin. lra.
Qed.

(** X16.  The representative window has the highest Sharpe ratio: when
    the Sharpe ratios of all windows are finite, the statistics that
    [backtest_signal] reports are those of one of the windows of its
    breakdown, named in [best_hold_period], and no window of the
    breakdown has a higher Sharpe ratio. *)
Theorem best_window_has_highest_sharpe (self : t) (yf : provider)
    (ticker decision : string) (sl tp : Q)
    (ws : list (string * window_stats)) :
  let r := backtest_signal self yf ticker decision sl tp in
  all_windows r = Some ws ->
  Forall finite_sharpe ws ->
  (exists (window : string) (st : window_stats),
     In (window, st) ws
     /\ best_hold_period r = Some window
     /\ win_rate r = ws_win_rate st
     /\ avg_return_pct r = ws_avg_return_pct st
     /\ sharpe_ratio r = ws_sharpe_ratio st
     /\ max_drawdown_pct r = ws_max_drawdown_pct st
     /\ trade_count r = ws_trade_count st)
  /\ Forall (fun kv => fleb (ws_sharpe_ratio (snd kv)) (sharpe_ratio r) = true)
            ws.
Proof.
  intros r Hws Hfinite. subst r.
  destruct (backtest_signal_of_window _ _ _ _ _ _ _ Hws)
    as [first [others [-> ->]]].
  apply Forall_cons in Hfinite. destruct Hfinite as [Hfirst Hothers].
  destruct (best_of_highest others first Hfirst Hothers) as [Hin [_ Hmax]].
  destruct (best_of first others) as [window best].
  cbn [fst snd] in *. split.
  - exists window, best. repeat split. exact Hin.
  - exact Hmax.
Qed.

End BacktesterMore.

(** * Further properties of the validator *)

Section PipelineMore.
Context `{PyFloat}.
Import SignalValidator Pipeline.

Lemma calculate_position_sized (sizer : PositionSizer.t)
    (price sl tp conf : Q) (pv_arg : option Q) :
  ((PositionSizer.quantity
      (PositionSizer.calculate_position sizer price sl tp conf pv_arg) <=? 0)%Z
   = false ->
   0 < price
   /\ 0 < PositionSizer.pv_in_effect sizer pv_arg
   /\ (1 <= PositionSizer.quantity
              (PositionSizer.calculate_position sizer price sl tp conf pv_arg))%Z)
  /\ ((PositionSizer.quantity
         (PositionSizer.calculate_position sizer price sl tp conf pv_arg) <=? 0)%Z
      = true ->
      (price <= 0 \/ PositionSizer.pv_in_effect sizer pv_arg <= 0)
      /\ PositionSizer.calculate_position sizer price sl tp conf pv_arg
         = PositionSizer._empty_result "Invalid price or portfolio value").
Proof.
  unfold PositionSizer.calculate_position.
  destruct (Py.leb price 0 || Py.leb (PositionSizer.pv_in_effect sizer pv_arg) 0)
    eqn:Hbad.
  - split; [discriminate |]. intros _.
    apply orb_true_iff in Hbad. rewrite !leb_le in Hbad. auto.
  - apply orb_false_iff in Hbad. rewrite !leb_gt in Hbad.
    cbn [PositionSizer.quantity]. split.
    + intros _. destruct Hbad. repeat split; auto. lia.
    + intros Hq. apply Z.leb_le in Hq. lia.
Qed.


(** X18.  What a rejection names.  A result with [approved] false carries
    no order and no warnings, and its reason names the one stage that
    rejected: the backtest (the risk and sizing stages were not run), the
    risk stage (sizing was not run), or the sizing stage, which rejects
    only a price at or below 0 or a portfolio value in effect at or below
    0. *)
Theorem rejected_result_names_stage (self : t) (world : World)
    (signal : Signal) (current_price : Q) (ticker : string)
    (skip_backtest : bool) (r : ValidationResult) :
  snd (validate_and_size self world signal current_price ticker skip_backtest)
  = Return r ->
  vr_approved r = false ->
  vr_order r = None
  /\ vr_warnings r = None
  /\ ((exists b : SimpleBacktester.result,
         skip_backtest = false
         /\ step_backtest (vr_steps r) = Some (Ran b)
         /\ SimpleBacktester.approved b = false
         /\ vr_reason r = "BACKTEST REJECTED: " ++ SimpleBacktester.reason b
         /\ step_risk (vr_steps r) = None
         /\ step_position_sizing (vr_steps r) = None)
      \/ (exists rr : RiskEngine.risk_result,
            step_risk (vr_steps r) = Some rr
            /\ RiskEngine.approved rr = false
            /\ vr_reason r = "RISK REJECTED: " ++ RiskEngine.reason rr
            /\ step_position_sizing (vr_steps r) = None)
      \/ (exists pos : PositionSizer.result,
            step_position_sizing (vr_steps r) = Some pos
            /\ PositionSizer.quantity pos = 0%Z
            /\ vr_reason r
               = "SIZING REJECTED: REJECTED: Invalid price or portfolio value"
            /\ (current_price <= 0
                \/ PositionSizer.pv_in_effect (position_sizer self)
                     (Some (RiskEngine.portfolio_value (risk_engine self)))
                   <= 0))).
Proof.
  unfold validate_and_size.
  destruct (bool_decide _).
  { cbn [snd]. intros Hr Ha. injection Hr as <-. discriminate Ha. }
  unfold backtest_gate.
  destruct skip_backtest; cbn [negb].
  - (* backtest skipped *)
    pose proof (validate_trade_returns_engine (risk_engine self)
                  (set_ticker signal ticker)) as Hengine.
    destruct (RiskEngine.validate_trade (risk_engine self)
                (set_ticker signal ticker)) as [[engine signal1] rr].
    cbn [fst] in Hengine. subst engine.
    destruct (negb (RiskEngine.approved rr)) eqn:Hrisk.
    { apply negb_true_iff in Hrisk. cbn [snd]. intros Hr _.
      injection Hr as <-. split; [reflexivity |]. split; [reflexivity |].
      right. left. exists rr. auto. }
    cbn [with_engine position_sizer risk_engine].
    destruct (_ <=? 0)%Z eqn:Hq.
    { apply (proj2 (calculate_position_sized _ _ _ _ _ _)) in Hq.
      destruct Hq as [Hbad Hempty]. cbn [snd]. intros Hr _.
      injection Hr as <-. split; [reflexivity |]. split; [reflexivity |].
      right. right. eexists.
      cbn [vr_steps step_position_sizing vr_reason].
      split; [reflexivity |]. rewrite Hempty.
      split; [reflexivity |]. split; [reflexivity | exact Hbad]. }
    destruct (make_order _ _ _ _); [| discriminate].
    cbn [snd]. intros Hr Ha. injection Hr as <-. discriminate Ha.
  - destruct (sig_decision (set_ticker signal ticker)) as [decision |];
      [| discriminate].
    destruct (negb (SimpleBacktester.approved _)) eqn:Hbt.
    { apply negb_true_iff in Hbt. cbn [snd]. intros Hr _.
      injection Hr as <-. split; [reflexivity |]. split; [reflexivity |].
      left. eexists. repeat split. exact Hbt. }
    pose proof (validate_trade_returns_engine (risk_engine self)
                  (set_ticker signal ticker)) as Hengine.
    destruct (RiskEngine.validate_trade (risk_engine self)
                (set_ticker signal ticker)) as [[engine signal1] rr].
    cbn [fst] in Hengine. subst engine.
    destruct (negb (RiskEngine.approved rr)) eqn:Hrisk.
    { apply negb_true_iff in Hrisk. cbn [snd]. intros Hr _.
      injection Hr as <-. split; [reflexivity |]. split; [reflexivity |].
      right. left. exists rr. auto. }
    cbn [with_engine position_sizer risk_engine].
    destruct (_ <=? 0)%Z eqn:Hq.
    { apply (proj2 (calculate_position_sized _ _ _ _ _ _)) in Hq.
      destruct Hq as [Hbad Hempty]. cbn [snd]. intros Hr _.
      injection Hr as <-. split; [reflexivity |]. split; [reflexivity |].
      right. right. eexists.
      cbn [vr_steps step_position_sizing vr_reason].
      split; [reflexivity |]. rewrite Hempty.
      split; [reflexivity |]. split; [reflexivity | exact Hbad]. }
    destruct (make_order _ _ _ _); [| discriminate].
    cbn [snd]. intros Hr Ha. injection Hr as <-. discriminate Ha.
Qed.

Lemma contains_suffix (a b m : string) : contains b m -> contains (a ++ b) m.
Proof.
  intros [pre [post ->]]. exists (a ++ pre), post. now rewrite append_assoc.
Qed.

(** A rejecting risk gate lets no order through: the call returns a
    rejected result, stopped at the backtest or at the risk stage. *)
Lemma risk_gate_blocks (self : t) (world : World) (signal : Signal)
    (current_price : Q) (ticker : string) (skip_backtest : bool)
    (m : string) :
  sig_decision signal = Some "BUY" \/ sig_decision signal = Some "SELL" ->
  RiskEngine.approved
    (snd (RiskEngine.validate_trade (risk_engine self)
            (set_ticker signal ticker))) = false ->
  contains
    (RiskEngine.reason
       (snd (RiskEngine.validate_trade (risk_engine self)
               (set_ticker signal ticker)))) m ->
  exists r : ValidationResult,
    snd (validate_and_size self world signal current_price ticker
           skip_backtest) = Return r
    /\ vr_approved r = false
    /\ vr_order r = None
    /\ ((exists b : SimpleBacktester.result,
           step_backtest (vr_steps r) = Some (Ran b)
           /\ SimpleBacktester.approved b = false
           /\ step_risk (vr_steps r) = None)
        \/ contains (vr_reason r) m).
Proof.
  intros Hside Hrejected Hreason. unfold validate_and_size.
  assert (bool_decide (sig_decision (set_ticker signal ticker) = Some "HOLD")
          = false) as ->.
  { apply bool_decide_eq_false. cbn [sig_decision set_ticker].
    destruct Hside as [-> | ->]; discriminate. }
  assert (exists bt, backtest_gate self world (set_ticker signal ticker)
                       ticker skip_backtest = Return bt) as [bt ->].
  { unfold backtest_gate. cbn [sig_decision set_ticker].
    destruct skip_backtest; cbn [negb]; [eauto |].
    destruct Hside as [-> | ->]; eauto. }
  destruct bt as [| b].
  - destruct (RiskEngine.validate_trade (risk_engine self)
                (set_ticker signal ticker)) as [[engine signal1] rr].
    cbn [snd] in Hrejected, Hreason. rewrite Hrejected. cbn [negb snd].
    eexists. split; [reflexivity |]. cbn [vr_approved vr_order vr_reason].
    split; [reflexivity |]. split; [reflexivity |].
    right. now apply contains_suffix.
  - destruct (negb (SimpleBacktester.approved b)) eqn:Hbt.
    + apply negb_true_iff in Hbt. cbn [snd].
      eexists. split; [reflexivity |].
      cbn [vr_approved vr_order vr_steps step_backtest step_risk].
      split; [reflexivity |]. split; [reflexivity |].
      left. exists b. auto.
    + destruct (RiskEngine.validate_trade (risk_engine self)
                  (set_ticker signal ticker)) as [[engine signal1] rr].
      cbn [snd] in Hrejected, Hreason. rewrite Hrejected. cbn [negb snd].
      eexists. split; [reflexivity |]. cbn [vr_approved vr_order vr_reason].
      split; [reflexivity |]. split; [reflexivity |].
      right. now apply contains_suffix.
Qed.


End PipelineMore.


(** * Properties of the paper trader *)

Section PaperTraderFacts.
Context `{PyFloat}.
Import PaperTrader.

(** X20.  A BUY the capital cannot cover: when the filled cost (price
    plus slippage, times quantity) exceeds the capital, [place_order]
    fails without an order id and leaves capital, positions and trade
    history as they were; only the order counter moves on by one. *)
Theorem unaffordable_buy_changes_nothing (self : t) (now ticker : string)
    (quantity : Z) (price stop_loss target : Q) :
  capital self < fill_price self "BUY" price * Py.of_int quantity ->
  let out := place_order self now ticker "BUY" quantity price stop_loss target in
  success (snd out) = false
  /\ order_id (snd out) = None
  /\ capital (fst out) = capital self
  /\ positions (fst out) = positions self
  /\ trade_history (fst out) = trade_history self
  /\ order_counter (fst out) = (order_counter self + 1)%Z.
Proof.
  intros Hshort out. subst out. unfold place_order.
  cbn [String.eqb Ascii.eqb Bool.eqb].
  apply ltb_lt in Hshort. rewrite Hshort. cbn. repeat split.
Qed.


Lemma sell_closes (self : t) (now ticker : string)
    (quantity : Z) (price stop_loss target : Q) (pos : Position) :
  positions self !! ticker = Some pos ->
  success (snd (place_order self now ticker "SELL" quantity price stop_loss
                  target)) = true
  /\ positions (fst (place_order self now ticker "SELL" quantity price
                       stop_loss target)) !! ticker = None.
Proof.
  intros Hheld. unfold place_order.
  cbn [String.eqb Ascii.eqb Bool.eqb]. rewrite Hheld.
  cbn [fst snd success positions with_book].
  split; [reflexivity | apply lookup_delete_eq].
Qed.

(** X22.  A SELL closes the whole held position: for a ticker that is
    held, [place_order] with side SELL removes the position, credits the
    held quantity (not the order's) at the fill price, and records one
    trade for the held quantity with the P&L from the entry price to the
    fill, whatever the quantity of the order and the side of the held
    position. *)
Theorem sell_closes_whole_position (self : t) (now ticker : string)
    (quantity : Z) (price stop_loss target : Q) (pos : Position) :
  positions self !! ticker = Some pos ->
  let out := place_order self now ticker "SELL" quantity price stop_loss target in
  let fill := fill_price self "SELL" price in
  success (snd out) = true
  /\ positions (fst out) = delete ticker (positions self)
  /\ capital (fst out) = capital self + Py.of_int (pos_quantity pos) * fill
  /\ trade_history (fst out)
     = append (trade_history self)
         {| tr_ticker := ticker;
            tr_side := "SELL";
            tr_entry_price := pos_entry_price pos;
            tr_exit_price := fill;
            tr_quantity := pos_quantity pos;
            tr_pnl := Py.round 2
                        ((fill - pos_entry_price pos)
                         * Py.of_int (pos_quantity pos));
            tr_timestamp := now |}
  /\ order_counter (fst out) = (order_counter self + 1)%Z.
Proof.
  intros Hheld out fill. subst out fill. unfold place_order.
  cbn [String.eqb Ascii.eqb Bool.eqb]. rewrite Hheld. cbn. repeat split.
Qed.

(** X23.  What survives a restart of the paper trader: constructed over
    the document written by [_save_state], the trader has the capital,
    the positions and the order counter of the trader that wrote it, but
    an empty trade history, and its initial capital is the configured
    one. *)
Theorem paper_state_reloads_without_history (config : PaperConfig) (self : t) :
  let again := __init__ config (Some (_save_state self)) in
  capital again = capital self
  /\ positions again = positions self
  /\ order_counter again = order_counter self
  /\ trade_history again = []
  /\ initial_capital again = default 100000 (cfg_paper_capital config).
Proof. cbn. repeat split. Qed.

End PaperTraderFacts.

(** * Properties of the orchestrator *)

Section OrchestratorFacts.
Context `{PyFloat}.
Import AQIOrchestrator.

(** On a signal with a decision other than HOLD the validator returns,
    and an approval carries an order on that side, for the ticker and the
    price of the call, of at least one share. *)
Lemma validate_and_size_decided (v : SignalValidator.t)
    (w : SignalValidator.World) (signal : Signal) (price : Q)
    (ticker : string) (skip_backtest : bool) (decision : string) :
  sig_decision signal = Some decision ->
  decision <> "HOLD" ->
  exists r : SignalValidator.ValidationResult,
    snd (SignalValidator.validate_and_size v w signal price ticker
           skip_backtest) = Return r
    /\ (SignalValidator.vr_approved r = true ->
        exists o : SignalValidator.Order,
          SignalValidator.vr_order r = Some o
          /\ SignalValidator.ord_side o = decision
          /\ SignalValidator.ord_ticker o = ticker
          /\ SignalValidator.ord_price o = price
          /\ (1 <= SignalValidator.ord_quantity o)%Z).
Proof.
  intros Hdec Hhold. unfold SignalValidator.validate_and_size.
  assert (bool_decide (sig_decision (set_ticker signal ticker) = Some "HOLD")
          = false) as ->.
  { apply bool_decide_eq_false. cbn [sig_decision set_ticker].
    rewrite Hdec. congruence. }
  assert (exists bt, SignalValidator.backtest_gate v w
                       (set_ticker signal ticker) ticker skip_backtest
                     = Return bt) as [bt ->].
  { unfold SignalValidator.backtest_gate. cbn [sig_decision set_ticker].
    rewrite Hdec. destruct (negb skip_backtest); eauto. }
  destruct (match bt with
            | SignalValidator.Ran b => _
            | SignalValidator.Skipped => _
            end).
  { eexists. split; [reflexivity |]. discriminate. }
  pose proof (validate_trade_signal_decision (SignalValidator.risk_engine v)
                (set_ticker signal ticker)) as Hkept.
  destruct (RiskEngine.validate_trade (SignalValidator.risk_engine v)
              (set_ticker signal ticker)) as [[engine signal1] rr].
  cbn [fst snd sig_decision set_ticker] in Hkept.
  destruct (negb (RiskEngine.approved rr)).
  { eexists. split; [reflexivity |]. discriminate. }
  destruct (_ <=? 0)%Z eqn:Hq.
  { eexists. split; [reflexivity |]. discriminate. }
  apply (proj1 (calculate_position_sized _ _ _ _ _ _)) in Hq.
  destruct Hq as [_ [_ Hone]].
  unfold SignalValidator.make_order. rewrite Hkept, Hdec.
  eexists. split; [reflexivity |]. intros _.
  eexists. split; [reflexivity |]. cbn. repeat split. exact Hone.
Qed.

(** The signal that leaves the AI stage has its decision and the ticker. *)
Lemma ai_stage_of_signal (world : World) (ticker : string)
    (structured : Signal) (ai : ai_stage) :
  ai_stage_of world ticker = Return (structured, ai) ->
  exists (raw : Signal) (decision : string),
    ai_brain world = Return raw
    /\ structured = set_ticker raw ticker
    /\ sig_decision structured = Some decision.
Proof.
  unfold ai_stage_of, mbind, res_bind, subscript.
  destruct (ai_brain world) as [raw |]; [| discriminate].
  cbn [sig_decision sig_confidence sig_stop_loss_pct sig_target_pct
       sig_risk_reward_ratio sig_rationale set_ticker].
  destruct (sig_decision raw) as [decision |] eqn:Hdec; [| discriminate].
  destruct (sig_confidence raw); [| discriminate].
  destruct (sig_stop_loss_pct raw); [| discriminate].
  destruct (sig_target_pct raw); [| discriminate].
  destruct (sig_risk_reward_ratio raw); [| discriminate].
  destruct (sig_rationale raw); [| discriminate].
  intros Hout. injection Hout as <- <-.
  exists raw, decision. cbn [sig_decision set_ticker]. auto.
Qed.

Lemma execution_failed_is_not_executed (m : string) :
  "EXECUTION_FAILED: " ++ m <> "EXECUTED".
Proof. intros Heq. vm_compute in Heq. discriminate Heq. Qed.

Lemma rejected_is_not_executed (m : string) :
  "REJECTED_BY_QUANT: " ++ m <> "EXECUTED".
Proof. intros Heq. vm_compute in Heq. discriminate Heq. Qed.


(** X25.  The risk engine follows executions only.  When [run] ends in
    any status other than EXECUTED the risk engine is as it was; when it
    ends in EXECUTED the mode is not signal_only, the execution layer
    reported success, and the risk engine is the old one with the
    validator's order registered, at the price of the call (the one
    passed in, else the one looked up; not the fill price) and for the
    order's quantity and side.  The execution layer is as it was whenever
    the result has no execution stage. *)
Theorem risk_engine_follows_executions (self : t) (world : World)
    (ticker : string) (trade_date : option string) (current_price : option Q)
    (skip_backtest : bool) (r : run_result) :
  snd (run self world ticker trade_date current_price skip_backtest)
  = Return r ->
  let after :=
    fst (run self world ticker trade_date current_price skip_backtest) in
  (rr_final_status r <> "EXECUTED" ->
   SignalValidator.risk_engine (quant_brain after)
   = SignalValidator.risk_engine (quant_brain self))
  /\ (rr_final_status r = "EXECUTED" ->
      exists (o : SignalValidator.Order) (reply : PaperTrader.exec_result)
             (price : Q),
        rr_order r = Some (Some o)
        /\ st_execution (rr_stages r) = Some reply
        /\ PaperTrader.success reply = true
        /\ mode self <> "signal_only"
        /\ price_in_use world current_price = Some price
        /\ SignalValidator.ord_ticker o = ticker
        /\ SignalValidator.ord_price o = price
        /\ (1 <= SignalValidator.ord_quantity o)%Z
        /\ SignalValidator.risk_engine (quant_brain after)
           = RiskEngine.register_position
               (SignalValidator.risk_engine (quant_brain self))
               (register_clock world) ticker
               (SignalValidator.ord_quantity o) price
               (SignalValidator.ord_stop_loss o)
               (SignalValidator.ord_target o)
               (SignalValidator.ord_side o))
  /\ (st_execution (rr_stages r) = None -> executor after = executor self).
Proof.
  unfold run.
  destruct (ai_stage_of world ticker) as [[structured ai] | e] eqn:Hai.
  2: { cbn [fst snd]. intros Hr. injection Hr as <-.
       cbn. repeat split; try discriminate; auto. }
  destruct (ai_stage_of_signal _ _ _ _ Hai) as [raw [decision [_ [_ Hdec]]]].
  destruct (bool_decide _) eqn:Hhold.
  { cbn [fst snd]. intros Hr. injection Hr as <-.
    cbn. repeat split; try discriminate; auto. }
  apply bool_decide_eq_false in Hhold.
  destruct (price_in_use world current_price) as [price |] eqn:Hprice;
    [| discriminate].
  destruct (Py.leb _ 0).
  { cbn [fst snd]. intros Hr. injection Hr as <-.
    cbn. repeat split; try discriminate; auto. }
  destruct (validate_and_size_decided (quant_brain self)
              (validator_world world) structured price ticker
              skip_backtest decision Hdec ltac:(congruence))
    as [validation [Hreturns Horder]].
  destruct (validate_and_size_components (quant_brain self)
              (validator_world world) structured price ticker
              skip_backtest) as [Hengine _].
  destruct (SignalValidator.validate_and_size _ _ _ _ _ _)
    as [[brain signal1] out].
  cbn [fst snd] in Hreturns, Hengine. subst out.
  destruct (negb (SignalValidator.vr_approved validation)) eqn:Happroved.
  { cbn [fst snd]. intros Hr. injection Hr as <-.
    cbn [rr_final_status rr_stages st_execution quant_brain executor
         _log_result with_parts].
    split; [auto |]. split; [| auto].
    intros Hbad. now apply rejected_is_not_executed in Hbad. }
  apply negb_false_iff in Happroved.
  destruct (Horder Happroved) as [o [-> [_ [Hticker [Hordprice Hone]]]]].
  destruct (String.eqb (mode (with_parts self brain (executor self)))
              "signal_only") eqn:Hmode.
  { cbn [fst snd]. intros Hr. injection Hr as <-.
    cbn [rr_final_status rr_stages st_execution quant_brain executor
         _log_result with_parts].
    split; [auto |]. split; [discriminate | auto]. }
  cbn [mode with_parts] in Hmode. apply String.eqb_neq in Hmode.
  destruct (execute _ _ _) as [b reply].
  destruct (PaperTrader.success reply) eqn:Hsuccess.
  - cbn [fst snd]. intros Hr. injection Hr as <-.
    cbn [rr_final_status rr_stages st_execution rr_order quant_brain executor
         _log_result with_parts SignalValidator.risk_engine
         SignalValidator.with_engine].
    split; [congruence |]. split; [| discriminate].
    intros _. exists o, reply, price. rewrite Hengine. repeat split; auto.
  - cbn [fst snd]. intros Hr. injection Hr as <-.
    cbn [rr_final_status rr_stages st_execution quant_brain executor
         _log_result with_parts].
    split; [auto |]. split; [| discriminate].
    intros Hbad. now apply execution_failed_is_not_executed in Hbad.
Qed.

(** X26.  Selling a held ticker splits the books.  In paper mode, when
    [run] executes a SELL signal for a ticker the paper trader holds, the
    paper trader closes and drops its position, while the risk engine
    registers a new position on the SELL side for the same ticker: after
    the call the trader no longer holds the ticker and the risk engine
    does, entered at the price of the call. *)
Theorem executed_sell_splits_books (self : t) (world : World)
    (ticker : string) (trade_date : option string) (current_price : option Q)
    (skip_backtest : bool) (r : run_result) (raw : Signal)
    (trader : PaperTrader.t) (pos : PaperTrader.Position) :
  ai_brain world = Return raw ->
  sig_decision raw = Some "SELL" ->
  executor self = Paper trader ->
  PaperTrader.positions trader !! ticker = Some pos ->
  snd (run self world ticker trade_date current_price skip_backtest)
  = Return r ->
  rr_final_status r = "EXECUTED" ->
  let after :=
    fst (run self world ticker trade_date current_price skip_backtest) in
  exists (trader' : PaperTrader.t) (held : RiskEngine.Position),
    executor after = Paper trader'
    /\ PaperTrader.positions trader' !! ticker = None
    /\ RiskEngine.positions (SignalValidator.risk_engine (quant_brain after))
         !! ticker = Some held
    /\ RiskEngine.pos_side held = "SELL"
    /\ price_in_use world current_price
       = Some (RiskEngine.pos_entry_price held).
Proof.
  intros Hraw Hsell Hpaper Hheld. unfold run.
  destruct (ai_stage_of world ticker) as [[structured ai] | e] eqn:Hai;
    [| cbn [snd]; intros Hr; injection Hr as <-; discriminate].
  destruct (ai_stage_of_signal _ _ _ _ Hai)
    as [raw' [decision [Hraw' [Hstructured Hdec]]]].
  assert (decision = "SELL") as ->.
  { rewrite Hraw in Hraw'. injection Hraw' as <-. subst structured.
    cbn [sig_decision set_ticker] in Hdec. congruence. }
  destruct (bool_decide _);
    [cbn [snd]; intros Hr; injection Hr as <-; discriminate |].
  destruct (price_in_use world current_price) as [price |] eqn:Hprice;
    [| discriminate].
  destruct (Py.leb _ 0);
    [cbn [snd]; intros Hr; injection Hr as <-; discriminate |].
  destruct (validate_and_size_decided (quant_brain self)
              (validator_world world) structured price ticker
              skip_backtest "SELL" Hdec ltac:(discriminate))
    as [validation [Hreturns Horder]].
  destruct (SignalValidator.validate_and_size _ _ _ _ _ _)
    as [[brain signal1] out].
  cbn [snd] in Hreturns. subst out.
  destruct (negb (SignalValidator.vr_approved validation)) eqn:Happroved.
  { cbn [snd]. intros Hr. injection Hr as <-. intros Hbad.
    now apply rejected_is_not_executed in Hbad. }
  apply negb_false_iff in Happroved.
  destruct (Horder Happroved) as [o [-> [Hside [Hticker _]]]].
  destruct (String.eqb _ "signal_only");
    [cbn [snd]; intros Hr; injection Hr as <-; discriminate |].
  unfold execute. cbn [executor with_parts]. rewrite Hpaper.
  rewrite Hside, Hticker.
  pose proof (sell_closes trader (fill_clock world) ticker
                (SignalValidator.ord_quantity o) (SignalValidator.ord_price o)
                (SignalValidator.ord_stop_loss o)
                (SignalValidator.ord_target o) pos Hheld)
    as [Hsuccess Hgone].
  destruct (PaperTrader.place_order trader _ _ _ _ _ _ _) as [trader' reply].
  cbn [fst snd] in Hsuccess, Hgone. rewrite Hsuccess.
  cbn [fst snd]. intros _ _.
  exists trader'. eexists.
  cbn [executor quant_brain _log_result with_parts
       SignalValidator.risk_engine SignalValidator.with_engine].
  split; [reflexivity |]. split; [exact Hgone |].
  split.
  { unfold RiskEngine.register_position.
    cbn [RiskEngine.positions RiskEngine.with_state].
    apply lookup_insert_eq. }
  cbn [RiskEngine.pos_side RiskEngine.pos_entry_price]. auto.
Qed.

Lemma ai_stage_of_missing_decision (world : World) (ticker : string)
    (raw : Signal) :
  ai_brain world = Return raw ->
  sig_decision raw = None ->
  ai_stage_of world ticker = Raise (KeyError "decision").
Proof.
  intros Hraw Hdec. unfold ai_stage_of, mbind, res_bind, subscript.
  rewrite Hraw. cbn [sig_decision set_ticker]. rewrite Hdec. reflexivity.
Qed.

(** X27.  Where a run stops before the quant brain.  When the AI brain
    returns a signal and the signal has no decision, or its decision is
    HOLD, or the price in use (the one passed in, else the one looked up)
    is a number at or below 0, [run] returns a result whose status is
    FAILED_AT_AI_BRAIN, HOLD or FAILED_NO_PRICE, with no quant and no
    execution stage; the result is appended to the log, and the validator
    (with its risk engine) and the execution layer are as they were.  A
    signal without a decision gives FAILED_AT_AI_BRAIN with the error
    text 'decision' and no order key. *)
Theorem early_exits_touch_nothing (self : t) (world : World)
    (ticker : string) (trade_date : option string) (current_price : option Q)
    (skip_backtest : bool) (raw : Signal) :
  ai_brain world = Return raw ->
  sig_decision raw = None \/ sig_decision raw = Some "HOLD"
  \/ (exists price : Q,
        price_in_use world current_price = Some price /\ price <= 0) ->
  let out := run self world ticker trade_date current_price skip_backtest in
  exists r : run_result,
    snd out = Return r
    /\ quant_brain (fst out) = quant_brain self
    /\ executor (fst out) = executor self
    /\ results_log (fst out) = append (results_log self) r
    /\ st_quant_brain (rr_stages r) = None
    /\ st_execution (rr_stages r) = None
    /\ (rr_final_status r = "FAILED_AT_AI_BRAIN"
        \/ rr_final_status r = "HOLD"
        \/ rr_final_status r = "FAILED_NO_PRICE")
    /\ (sig_decision raw = None ->
        rr_final_status r = "FAILED_AT_AI_BRAIN"
        /\ st_ai_brain (rr_stages r) = Some (AiError "'decision'")
        /\ rr_order r = None).
Proof.
  intros Hraw Hearly out. subst out. unfold run.
  destruct (ai_stage_of world ticker) as [[structured ai] | e] eqn:Hai.
  - destruct (ai_stage_of_signal _ _ _ _ Hai)
      as [raw' [decision [Hraw' [Hstructured Hdec]]]].
    rewrite Hraw in Hraw'. injection Hraw' as <-.
    assert (sig_decision raw = Some decision) as Hraw_dec
      by (subst structured; exact Hdec).
    rewrite Hdec.
    destruct (bool_decide (Some decision = Some "HOLD")) eqn:Hhold.
    { eexists. cbn [fst snd]. split; [reflexivity |].
      cbn. repeat split; auto; congruence. }
    apply bool_decide_eq_false in Hhold.
    destruct Hearly as [Hbad | [Hbad | [price [Hin_use Hprice]]]];
      [congruence | congruence |].
    rewrite Hin_use. apply leb_le in Hprice. rewrite Hprice.
    eexists. cbn [fst snd]. split; [reflexivity |].
    cbn. repeat split; auto; congruence.
  - eexists. cbn [fst snd]. split; [reflexivity |].
    cbn [quant_brain executor results_log _log_result rr_stages
         rr_final_status rr_order st_quant_brain st_execution st_ai_brain].
    do 5 (split; [reflexivity |]). split; [auto |].
    intros Hdec.
    rewrite (ai_stage_of_missing_decision _ _ _ Hraw Hdec) in Hai.
    injection Hai as <-. repeat split.
Qed.

End OrchestratorFacts.

(** * Properties of the signal fallback *)

Section FallbackFacts.
Context `{PyFloat}.
Import SignalValidator.

Lemma fallback_decision_cases (raw_upper : string) :
  SignalProcessor.fallback_decision raw_upper = "BUY"
  \/ SignalProcessor.fallback_decision raw_upper = "SELL"
  \/ SignalProcessor.fallback_decision raw_upper = "HOLD".
Proof.
  unfold SignalProcessor.fallback_decision.
  destruct (_ && _); [auto |]. destruct (_ && _); auto.
Qed.

(** The risk engine rejects a fallback signal that is not a HOLD whenever
    one of its two minimums is above what the fallback carries. *)
Lemma fallback_fails_risk (engine : RiskEngine.t) (raw_upper error ticker : string) :
  (3 # 10) < RiskEngine.min_confidence engine
  \/ 1 < RiskEngine.min_risk_reward engine ->
  SignalProcessor.fallback_decision raw_upper <> "HOLD" ->
  RiskEngine.approved
    (snd (RiskEngine.validate_trade engine
            (set_ticker (SignalProcessor.fallback raw_upper error) ticker)))
  = false.
Proof.
  intros Hlimits Hhold.
  destruct Hlimits as [Hconf | Hrr].
  - eapply (failing_rule_rejects engine _
              (SignalProcessor.fallback_decision raw_upper));
      [reflexivity | exact Hhold |].
    unfold RiskRules.rules.
    cbn [sig_confidence sig_risk_reward_ratio set_ticker
         SignalProcessor.fallback from_option id].
    apply ltb_lt in Hconf. rewrite Hconf. left. reflexivity.
  - eapply (failing_rule_rejects engine _
              (SignalProcessor.fallback_decision raw_upper));
      [reflexivity | exact Hhold |].
    unfold RiskRules.rules.
    cbn [sig_confidence sig_risk_reward_ratio set_ticker
         SignalProcessor.fallback from_option id].
    apply ltb_lt in Hrr. rewrite Hrr. right. left. reflexivity.
Qed.

(** The validator on a fallback signal: a result without an order,
    approved only for a HOLD. *)
Lemma fallback_blocked (self : t) (world : World)
    (raw_upper error : string) (current_price : Q) (ticker : string)
    (skip_backtest : bool) :
  (3 # 10) < RiskEngine.min_confidence (risk_engine self)
  \/ 1 < RiskEngine.min_risk_reward (risk_engine self) ->
  exists r : ValidationResult,
    snd (validate_and_size self world
           (SignalProcessor.fallback raw_upper error) current_price ticker
           skip_backtest) = Return r
    /\ vr_order r = None
    /\ (vr_approved r = true
        <-> SignalProcessor.fallback_decision raw_upper = "HOLD").
Proof.
  intros Hlimits.
  destruct (String.string_dec (SignalProcessor.fallback_decision raw_upper) "HOLD")
    as [Hhold | Hhold].
  - unfold validate_and_size.
    cbn [sig_decision set_ticker SignalProcessor.fallback].
    rewrite Hhold. rewrite bool_decide_eq_true_2 by reflexivity.
    eexists. split; [reflexivity |]. cbn [vr_order vr_approved]. tauto.
  - pose proof (fallback_fails_risk (risk_engine self) raw_upper error ticker
                  Hlimits Hhold) as Hrejected.
    destruct (risk_gate_blocks self world
                (SignalProcessor.fallback raw_upper error) current_price
                ticker skip_backtest "")
      as [r [Hr [Happroved [Horder _]]]].
    + cbn [sig_decision SignalProcessor.fallback].
      destruct (fallback_decision_cases raw_upper) as [-> | [-> | Hbad]];
        [auto | auto | contradiction].
    + exact Hrejected.
    + exists (RiskEngine.reason
                (snd (RiskEngine.validate_trade (risk_engine self)
                        (set_ticker (SignalProcessor.fallback raw_upper error)
                           ticker)))), "".
      now rewrite append_nil_r.
    + exists r. split; [exact Hr |]. split; [exact Horder |].
      rewrite Happroved. split; [discriminate | contradiction].
Qed.


(** X28.  A fallback signal never becomes an order.  The signal that
    [process_signal_structured] returns when the extraction fails carries
    confidence 0.3 and risk-reward ratio 1.0; on a validator whose
    minimum confidence is above 0.3 or whose minimum risk-reward ratio is
    above 1 (the defaults are 0.5 and 1.5), [validate_and_size] returns a
    result without an order for it, whatever the report, the price, the
    price history and the flag; the result is approved only when the
    fallback decision is HOLD. *)
Theorem fallback_signal_never_orders (self : t) (world : World)
    (raw_upper error : string) (current_price : Q) (ticker : string)
    (skip_backtest : bool) :
  (3 # 10) < RiskEngine.min_confidence (risk_engine self)
  \/ 1 < RiskEngine.min_risk_reward (risk_engine self) ->
  exists r : ValidationResult,
    snd (validate_and_size self world
           (SignalProcessor.fallback raw_upper error) current_price ticker
           skip_backtest) = Return r
    /\ vr_order r = None
    /\ (vr_approved r = true
        <-> SignalProcessor.fallback_decision raw_upper = "HOLD").
Proof.
  intros Hlimits.
  destruct (fallback_blocked self world raw_upper error current_price ticker
              skip_backtest Hlimits) as [r [Hr [Horder Happroved]]].
  exists r. auto.
Qed.

Import AQIOrchestrator.

(** The risk engine after a run is the one before, or the one before with
    a position registered for the run's ticker. *)
Lemma run_registers_at_most (self : AQIOrchestrator.t)
    (world : AQIOrchestrator.World) (ticker : string)
    (trade_date : option string) (current_price : option Q)
    (skip_backtest : bool) :
  let before := risk_engine (quant_brain self) in
  let after :=
    risk_engine
      (quant_brain
         (fst (run self world ticker trade_date current_price
                 skip_backtest))) in
  after = before
  \/ exists (now : string) (quantity : Z) (price stop_loss target : Q)
            (side : string),
       after = RiskEngine.register_position before now ticker quantity price
                 stop_loss target side.
Proof.
  unfold run.
  destruct (ai_stage_of world ticker) as [[structured ai] | e];
    [| left; reflexivity].
  destruct (bool_decide _); [left; reflexivity |].
  destruct (price_in_use world current_price) as [price |];
    [| left; reflexivity].
  destruct (Py.leb _ 0); [left; reflexivity |].
  destruct (validate_and_size_components (quant_brain self)
              (validator_world world) structured price ticker
              skip_backtest) as [Hengine _].
  destruct (validate_and_size _ _ _ _ _ _) as [[brain signal1] [validation | e]];
    cbn [fst snd] in Hengine; [| left; exact Hengine].
  destruct (negb (vr_approved validation)); [left; exact Hengine |].
  destruct (vr_order validation) as [o |]; [| left; exact Hengine].
  destruct (String.eqb _ "signal_only"); [left; exact Hengine |].
  destruct (execute _ _ _) as [b reply].
  destruct (PaperTrader.success reply); [| left; exact Hengine].
  right. cbn [fst quant_brain _log_result with_parts risk_engine with_engine].
  rewrite Hengine. eauto 10.
Qed.

(** X29.  The orchestrator never moves the portfolio value.  Whatever a
    call of [run] does (return on any path, or raise), the portfolio
    value, the peak value and the daily P&L of the risk engine are as
    before, and so are its limits, its drawdown and its daily loss: no run
    can switch a kill switch on or off.  Of the positions only the entry
    of the run's ticker can differ. *)
Theorem run_never_moves_portfolio_value (self : AQIOrchestrator.t)
    (world : AQIOrchestrator.World) (ticker : string)
    (trade_date : option string) (current_price : option Q)
    (skip_backtest : bool) :
  let before := risk_engine (quant_brain self) in
  let after :=
    risk_engine
      (quant_brain
         (fst (run self world ticker trade_date current_price
                 skip_backtest))) in
  RiskEngine.portfolio_value after = RiskEngine.portfolio_value before
  /\ RiskEngine.peak_value after = RiskEngine.peak_value before
  /\ RiskEngine.daily_pnl after = RiskEngine.daily_pnl before
  /\ RiskEngine.current_drawdown after = RiskEngine.current_drawdown before
  /\ RiskEngine.daily_loss_pct after = RiskEngine.daily_loss_pct before
  /\ RiskEngine.sum_kill_switch_active (RiskEngine.get_portfolio_summary after)
     = RiskEngine.sum_kill_switch_active
         (RiskEngine.get_portfolio_summary before)
  /\ RiskBook.same_limits after before
  /\ (forall other : string,
        other <> ticker ->
        RiskEngine.positions after !! other
        = RiskEngine.positions before !! other).
Proof.
  intros before after. subst before after.
  pose proof (run_registers_at_most self world ticker trade_date current_price
                skip_backtest) as Hcases.
  cbv zeta in Hcases.
  destruct Hcases
    as [Hsame | (now & quantity & price & stop_loss & target & side & Hreg)].
  - rewrite Hsame. repeat split; reflexivity.
  - rewrite Hreg. repeat split; try reflexivity.
    intros other Hother. unfold RiskEngine.register_position.
    cbn [RiskEngine.positions RiskEngine.with_state].
    apply lookup_insert_ne. congruence.
Qed.

(** X30.  A failed extraction never reaches the execution layer.  When
    the signal of the AI brain is the fallback of
    [process_signal_structured], and the minimum confidence of the risk
    engine is above 0.3 or its minimum risk-reward ratio above 1 (the
    defaults are 0.5 and 1.5), a [run] that returns has no execution
    stage and no order, in every mode; the execution layer and the risk
    engine are as they were, and the status is HOLD, FAILED_NO_PRICE or a
    rejection by the quant brain. *)
Theorem fallback_signal_never_executes (self : AQIOrchestrator.t)
    (world : AQIOrchestrator.World) (ticker : string)
    (trade_date : option string) (current_price : option Q)
    (skip_backtest : bool) (raw_upper error : string)
    (r : run_result) :
  ai_brain world = Return (SignalProcessor.fallback raw_upper error) ->
  (3 # 10) < RiskEngine.min_confidence (risk_engine (quant_brain self))
  \/ 1 < RiskEngine.min_risk_reward (risk_engine (quant_brain self)) ->
  snd (run self world ticker trade_date current_price skip_backtest)
  = Return r ->
  let after :=
    fst (run self world ticker trade_date current_price skip_backtest) in
  st_execution (rr_stages r) = None
  /\ (rr_order r = None \/ rr_order r = Some None)
  /\ executor after = executor self
  /\ risk_engine (quant_brain after) = risk_engine (quant_brain self)
  /\ (rr_final_status r = "HOLD"
      \/ rr_final_status r = "FAILED_NO_PRICE"
      \/ exists reason : string,
           rr_final_status r = "REJECTED_BY_QUANT: " ++ reason).
Proof.
  intros Hraw Hlimits. unfold run.
  assert (exists ai : ai_stage,
            ai_stage_of world ticker
            = Return (set_ticker (SignalProcessor.fallback raw_upper error)
                        ticker, ai)) as [ai ->].
  { unfold ai_stage_of, mbind, res_bind. rewrite Hraw.
    eexists. reflexivity. }
  destruct (bool_decide _) eqn:Hhold.
  { cbn [fst snd]. intros Hr. injection Hr as <-. cbn. auto 10. }
  apply bool_decide_eq_false in Hhold.
  destruct (price_in_use world current_price) as [price |]; [| discriminate].
  destruct (Py.leb _ 0).
  { cbn [fst snd]. intros Hr. injection Hr as <-. cbn. auto 10. }
  change (validate_and_size (quant_brain self) (validator_world world)
            (set_ticker (SignalProcessor.fallback raw_upper error) ticker)
            price ticker skip_backtest)
    with (validate_and_size (quant_brain self) (validator_world world)
            (SignalProcessor.fallback raw_upper error)
            price ticker skip_backtest).
  destruct (fallback_blocked (quant_brain self) (validator_world world)
              raw_upper error price ticker skip_backtest Hlimits)
    as [validation [Hreturns [Horder Happroved]]].
  destruct (validate_and_size_components (quant_brain self)
              (validator_world world)
              (SignalProcessor.fallback raw_upper error) price ticker
              skip_backtest) as [Hengine _].
  destruct (validate_and_size _ _ _ _ _ _) as [[brain signal1] out].
  cbn [fst snd] in Hreturns, Hengine. subst out.
  destruct (vr_approved validation) eqn:Hverdict; cbn [negb].
  { exfalso. apply Hhold.
    cbn [sig_decision set_ticker SignalProcessor.fallback].
    f_equal. now apply Happroved. }
  cbn [fst snd]. intros Hr. injection Hr as <-.
  cbn [rr_stages rr_order rr_final_status st_execution executor quant_brain
       _log_result with_parts].
  repeat split; eauto.
Qed.

End FallbackFacts.

(** * Worked examples *)


Lemma max_positions_binds_buy_only_witness :
  RiskEngine.approved
    (snd (@RiskEngine.validate_trade example_floats engine_with_ten
            strong_buy))
  = false
  /\ RiskEngine.approved
       (snd (@RiskEngine.validate_trade example_floats engine_with_ten
               strong_sell))
     = true.
Proof.
  split.
  - apply (proj1 (@max_positions_binds_buy_only example_floats)
             engine_with_ten strong_buy);
      [reflexivity | vm_compute; discriminate].
  - apply (proj2 (@max_positions_binds_buy_only example_floats)
             engine_with_ten strong_sell (9 # 10) 3);
      [reflexivity | reflexivity | reflexivity | discriminate | discriminate
      | reflexivity | reflexivity].
Defined.


Lemma mark_to_market_matches_close_witness :
  exists pos' : RiskEngine.Position,
    RiskEngine.positions
      (RiskEngine.update_position engine_holding_infy "INFY" 1500)
      !! "INFY" = Some pos'
    /\ RiskEngine.pos_unrealized_pnl pos' == 1000
    /\ RiskEngine.portfolio_value
         (fst (RiskEngine.close_position
                 (RiskEngine.update_position engine_holding_infy "INFY" 1500)
                 "INFY" 1500))
       = 100000 + RiskEngine.pos_unrealized_pnl pos'.
Proof.
  destruct (mark_to_market_matches_close engine_holding_infy "INFY"
              {| RiskEngine.pos_ticker := "INFY";
                 RiskEngine.pos_quantity := 10;
                 RiskEngine.pos_entry_price := 1400;
                 RiskEngine.pos_current_price := 1400;
                 RiskEngine.pos_stop_loss := 1330;
                 RiskEngine.pos_target := 1600;
                 RiskEngine.pos_side := "BUY";
                 RiskEngine.pos_entry_time := "2024-01-01T09:15:00";
                 RiskEngine.pos_unrealized_pnl := 0 |}
              1500 eq_refl)
    as [pos' [Hheld [_ [Hpnl [_ [_ [_ Hclose]]]]]]].
  exists pos'. split; [exact Hheld |]. split; [| exact Hclose].
  rewrite Hpnl. reflexivity.
Defined.


Lemma stop_loss_scan_after_mark_witness :
  "INFY" ∈ RiskEngine.check_stop_losses
             (RiskEngine.update_position engine_holding_infy "INFY" 1300)
  /\ "INFY" ∉ RiskEngine.check_stop_losses
                (RiskEngine.update_position engine_holding_infy "INFY" 1500).
Proof.
  split.
  - apply (proj1 (stop_loss_scan_after_mark engine_holding_infy "INFY"
                    {| RiskEngine.pos_ticker := "INFY";
                       RiskEngine.pos_quantity := 10;
                       RiskEngine.pos_entry_price := 1400;
                       RiskEngine.pos_current_price := 1400;
                       RiskEngine.pos_stop_loss := 1330;
                       RiskEngine.pos_target := 1600;
                       RiskEngine.pos_side := "BUY";
                       RiskEngine.pos_entry_time := "2024-01-01T09:15:00";
                       RiskEngine.pos_unrealized_pnl := 0 |}
                    1300 eq_refl) eq_refl).
    discriminate.
  - intros Hin.
    apply (proj1 (stop_loss_scan_after_mark engine_holding_infy "INFY"
                    {| RiskEngine.pos_ticker := "INFY";
                       RiskEngine.pos_quantity := 10;
                       RiskEngine.pos_entry_price := 1400;
                       RiskEngine.pos_current_price := 1400;
                       RiskEngine.pos_stop_loss := 1330;
                       RiskEngine.pos_target := 1600;
                       RiskEngine.pos_side := "BUY";
                       RiskEngine.pos_entry_time := "2024-01-01T09:15:00";
                       RiskEngine.pos_unrealized_pnl := 0 |}
                    1500 eq_refl) eq_refl) in Hin.
    now vm_compute in Hin.
Defined.

Lemma quantity_zero_iff_rejected_witness :
  PositionSizer.quantity
    (PositionSizer.calculate_position (PositionSizer__init__ empty_config)
       0 (- (5)) 10 (9 # 10) None) = 0%Z
  /\ (1 <= PositionSizer.quantity
             (PositionSizer.calculate_position
                (PositionSizer__init__ empty_config)
                1000 (- (5)) 10 (9 # 10) None))%Z.
Proof.
  split.
  - apply (proj1 (quantity_zero_iff_rejected
                    (PositionSizer__init__ empty_config)
                    0 (- (5)) 10 (9 # 10) None)).
    left. discriminate.
  - apply (proj2 (quantity_zero_iff_rejected
                    (PositionSizer__init__ empty_config)
                    1000 (- (5)) 10 (9 # 10) None)).
    discriminate.
Defined.


Lemma one_share_floor_exceeds_cap_witness :
  PositionSizer.quantity
    (PositionSizer.calculate_position (PositionSizer__init__ empty_config)
       50000 (- (5)) 10 (9 # 10) None) = 1%Z
  /\ 100000 * (20 / 100) < 50000.
Proof.
  split; [| reflexivity].
  apply (one_share_floor_exceeds_cap (PositionSizer__init__ empty_config)
           50000 (- (5)) 10 (9 # 10) None);
    reflexivity.
Defined.

Lemma simulate_trades_count_witness :
  exists returns : list Py.fval,
    SimpleBacktester._simulate_trades rising_closes "BUY" (- (5)) 10 5
    = Return returns
    /\ length returns = 7%nat.
Proof.
  destruct (simulate_trades_count rising_closes "BUY" (- (5)) 10 5)
    as [returns [Hreturns [Hcount _]]]; [lia |].
  exists returns. split; [exact Hreturns |].
  apply Nat2Z.inj. rewrite Hcount. reflexivity.
Defined.

Lemma backtest_without_fitting_window_witness :
  SimpleBacktester.approved
    (@SimpleBacktester.backtest_signal example_floats
       {| SimpleBacktester.lookback_days := 252;
          SimpleBacktester.test_windows := [60; 90]%Z |}
       (SimpleBacktester.Downloaded rising_closes) "INFY" "BUY" (- (5)) 10)
  = true.
Proof.
  rewrite (@backtest_without_fitting_window example_floats
             {| SimpleBacktester.lookback_days := 252;
                SimpleBacktester.test_windows := [60; 90]%Z |}
             rising_closes "INFY" "BUY" (- (5)) 10);
    [reflexivity | discriminate | vm_compute; lia | discriminate
    | repeat constructor; vm_compute; discriminate].
Defined.

Lemma compute_stats_ranges_witness :
  exists st : window_stats,
    @SimpleBacktester._compute_stats example_floats
      (List.map Py.Fin [2; - (1); 3]) = Return st
    /\ ws_trade_count st = 3%nat.
Proof.
  destruct (@compute_stats_ranges example_floats [2; - (1); 3])
    as [st [w [dd [Hst [Hcount _]]]]]; [discriminate |].
  exists st. split; [exact Hst | exact Hcount].
Defined.

Lemma backtest_verdict_names_failures_witness :
  let r :=
    @SimpleBacktester.backtest_signal example_floats
      (SimpleBacktester__init__ empty_config)
      (SimpleBacktester.Downloaded falling_closes) "INFY" "BUY" (- (5)) 10 in
  contains (SimpleBacktester.reason r) "Low win rate: 0%"
  /\ contains (SimpleBacktester.reason r) "Low Sharpe: 0.00"
  /\ contains (SimpleBacktester.reason r) "High drawdown: 33.7%".
Proof.
  intros r.
  edestruct (@backtest_verdict_names_failures example_floats
               (SimpleBacktester__init__ empty_config)
               (SimpleBacktester.Downloaded falling_closes)
               "INFY" "BUY" (- (5)) 10)
    as (_ & _ & Hwin & Hsharpe & Hdrawdown);
    [vm_compute; reflexivity | vm_compute; reflexivity
    | vm_compute; reflexivity | vm_compute; reflexivity |].
  split; [| split].
  - apply Hwin. reflexivity.
  - apply Hsharpe. reflexivity.
  - apply Hdrawdown. reflexivity.
Defined.

Lemma best_window_has_highest_sharpe_witness :
  let r :=
    @SimpleBacktester.backtest_signal example_floats
      (SimpleBacktester__init__ empty_config)
      (SimpleBacktester.Downloaded falling_closes) "INFY" "BUY" (- (5)) 10 in
  exists (ws : list (string * window_stats)) (window : string)
         (st : window_stats),
    SimpleBacktester.all_windows r = Some ws
    /\ In (window, st) ws
    /\ SimpleBacktester.best_hold_period r = Some window
    /\ SimpleBacktester.sharpe_ratio r = ws_sharpe_ratio st.
Proof.
  intros r.
  edestruct (@best_window_has_highest_sharpe example_floats
               (SimpleBacktester__init__ empty_config)
               (SimpleBacktester.Downloaded falling_closes)
               "INFY" "BUY" (- (5)) 10)
    as [[window [st [Hin [Hbest [_ [_ [Hsharpe _]]]]]]] _];
    [vm_compute; reflexivity
    | repeat constructor; eexists; vm_compute; reflexivity |].
  eexists _, window, st.
  split; [vm_compute; reflexivity |].
  split; [exact Hin |]. split; [exact Hbest | exact Hsharpe].
Defined.


Lemma rejected_result_names_stage_witness :
  exists r : SignalValidator.ValidationResult,
    snd (@SignalValidator.validate_and_size example_floats
           (SignalValidator.__init__ empty_config None) offline
           weak_sell 1000 "INFY" false)
    = Return r
    /\ SignalValidator.vr_order r = None
    /\ SignalValidator.vr_warnings r = None.
Proof.
  edestruct (@rejected_result_names_stage example_floats
               (SignalValidator.__init__ empty_config None) offline
               weak_sell 1000 "INFY" false)
    as [Horder [Hwarnings _]];
    [vm_compute; reflexivity | vm_compute; reflexivity |].
  eexists. split; [vm_compute; reflexivity |].
  split; [exact Horder | exact Hwarnings].
Defined.


Lemma unaffordable_buy_changes_nothing_witness :
  let out :=
    @PaperTrader.place_order example_floats fresh_trader
      "2024-01-01T09:15:00" "INFY" "BUY" 100 1400 1330 1600 in
  PaperTrader.success (snd out) = false
  /\ PaperTrader.capital (fst out) = 100000
  /\ PaperTrader.order_counter (fst out) = 1%Z.
Proof.
  intros out.
  destruct (@unaffordable_buy_changes_nothing example_floats fresh_trader
              "2024-01-01T09:15:00" "INFY" 100 1400 1330 1600)
    as [Hfailed [_ [Hcapital [_ [_ Hcounter]]]]]; [reflexivity |].
  split; [exact Hfailed |]. split; [exact Hcapital | exact Hcounter].
Defined.


Lemma sell_closes_whole_position_witness :
  let out :=
    @PaperTrader.place_order example_floats trader_holding_infy
      "2024-01-02T09:15:00" "INFY" "SELL" 3 1500 1570 1300 in
  PaperTrader.success (snd out) = true
  /\ PaperTrader.positions (fst out) !! "INFY" = None
  /\ length (PaperTrader.trade_history (fst out)) = 1%nat.
Proof.
  intros out.
  edestruct (@sell_closes_whole_position example_floats trader_holding_infy
               "2024-01-02T09:15:00" "INFY" 3 1500 1570 1300)
    as [Hsuccess [Hpositions [_ [Hhistory _]]]]; [vm_compute; reflexivity |].
  split; [exact Hsuccess |]. split.
  - unfold out. rewrite Hpositions. reflexivity.
  - unfold out. rewrite Hhistory. reflexivity.
Defined.

Lemma risk_engine_follows_executions_witness :
  let out :=
    @AQIOrchestrator.run example_floats (paper_bot fresh_trader)
      (world_of (Return strong_buy)) "INFY" None (Some 1000) true in
  exists held : RiskEngine.Position,
    RiskEngine.positions
      (SignalValidator.risk_engine (AQIOrchestrator.quant_brain (fst out)))
      !! "INFY" = Some held
    /\ RiskEngine.pos_entry_price held = 1000.
Proof.
  intros out.
  edestruct (@risk_engine_follows_executions example_floats
               (paper_bot fresh_trader) (world_of (Return strong_buy))
               "INFY" None (Some 1000) true)
    as [_ [Hexecuted _]]; [vm_compute; reflexivity |].
  destruct Hexecuted as (o & reply & price & _ & _ & _ & _ & Hprice & _ & _
                         & _ & Hengine); [reflexivity |].
  injection Hprice as <-.
  eexists. unfold out. rewrite Hengine. split.
  - unfold RiskEngine.register_position.
    cbn [RiskEngine.positions RiskEngine.with_state].
    apply lookup_insert_eq.
  - reflexivity.
Defined.

Lemma executed_sell_splits_books_witness :
  let out :=
    @AQIOrchestrator.run example_floats (paper_bot trader_holding_infy)
      (world_of (Return strong_sell)) "INFY" None (Some 1500) true in
  exists (trader' : PaperTrader.t) (held : RiskEngine.Position),
    AQIOrchestrator.executor (fst out) = AQIOrchestrator.Paper trader'
    /\ PaperTrader.positions trader' !! "INFY" = None
    /\ RiskEngine.positions
         (SignalValidator.risk_engine (AQIOrchestrator.quant_brain (fst out)))
         !! "INFY" = Some held
    /\ RiskEngine.pos_side held = "SELL".
Proof.
  intros out.
  edestruct (@executed_sell_splits_books example_floats
               (paper_bot trader_holding_infy)
               (world_of (Return strong_sell)) "INFY" None (Some 1500) true)
    as (trader' & held & Hexecutor & Hgone & Hheld & Hside & _);
    [reflexivity | reflexivity | reflexivity | vm_compute; reflexivity
    | vm_compute; reflexivity | reflexivity |].
  exists trader', held. repeat split; assumption.
Defined.

Lemma early_exits_touch_nothing_witness :
  let out :=
    @AQIOrchestrator.run example_floats (paper_bot fresh_trader)
      (world_of (Return empty_signal)) "INFY" None None false in
  exists r : AQIOrchestrator.run_result,
    snd out = Return r
    /\ AQIOrchestrator.rr_final_status r = "FAILED_AT_AI_BRAIN"
    /\ AQIOrchestrator.executor (fst out)
       = AQIOrchestrator.Paper fresh_trader.
Proof.
  intros out.
  destruct (@early_exits_touch_nothing example_floats (paper_bot fresh_trader)
              (world_of (Return empty_signal)) "INFY" None None false
              empty_signal)
    as (r & Hr & _ & Hexecutor & _ & _ & _ & _ & Hmissing);
    [reflexivity | left; reflexivity |].
  exists r. split; [exact Hr |]. split; [| exact Hexecutor].
  apply Hmissing. reflexivity.
Defined.

Lemma fallback_signal_never_orders_witness :
  exists r : SignalValidator.ValidationResult,
    snd (@SignalValidator.validate_and_size example_floats
           (SignalValidator.__init__ empty_config None) offline
           (SignalProcessor.fallback "STRONG BUY ON BREAKOUT"
              "Expecting value: line 1 column 1 (char 0)")
           1000 "INFY" true)
    = Return r
    /\ SignalValidator.vr_order r = None
    /\ SignalValidator.vr_approved r = false.
Proof.
  destruct (@fallback_signal_never_orders example_floats
              (SignalValidator.__init__ empty_config None) offline
              "STRONG BUY ON BREAKOUT"
              "Expecting value: line 1 column 1 (char 0)" 1000 "INFY" true)
    as [r [Hr [Horder Happroved]]]; [left; reflexivity |].
  exists r. split; [exact Hr |]. split; [exact Horder |].
  destruct (SignalValidator.vr_approved r); [| reflexivity].
  exfalso. assert ("BUY" = "HOLD") as Hbad by now apply Happroved.
  discriminate Hbad.
Defined.

Lemma fallback_signal_never_executes_witness :
  let out :=
    @AQIOrchestrator.run example_floats (paper_bot fresh_trader)
      (world_of
         (Return (SignalProcessor.fallback "STRONG BUY ON BREAKOUT"
                    "Expecting value: line 1 column 1 (char 0)")))
      "INFY" None (Some 1000) true in
  exists r : AQIOrchestrator.run_result,
    snd out = Return r
    /\ AQIOrchestrator.st_execution (AQIOrchestrator.rr_stages r) = None
    /\ AQIOrchestrator.executor (fst out)
       = AQIOrchestrator.Paper fresh_trader.
Proof.
  intros out.
  edestruct (@fallback_signal_never_executes example_floats
               (paper_bot fresh_trader)
               (world_of
                  (Return (SignalProcessor.fallback "STRONG BUY ON BREAKOUT"
                             "Expecting value: line 1 column 1 (char 0)")))
               "INFY" None (Some 1000) true)
    as [Hstage [_ [Hexecutor _]]];
    [reflexivity | left; reflexivity | vm_compute; reflexivity |].
  eexists. split; [vm_compute; reflexivity |].
  split; [exact Hstage | exact Hexecutor].
Defined.
